(** * gestorstock: the dynamic spreadsheet engine, its import and its stock analytics

    A shallow embedding of
    - [lib/utils.ts] ([getStockStatus], [generateId]),
    - [components/inventory/EditableSpreadsheet.tsx] (sheet, column, row and
      cell operations of the [EditableSpreadsheet] component),
    - [lib/excel.ts] ([parseExcelFile]),
    - [app/dashboard/page.tsx] ([getSpreadsheetDataForAI], [getSelectedData],
      [handleCalculate], [handleOpenChart], [handleFileChange]),
    - [components/dashboard/KPICards.tsx] (the counting loop of [KPICards]),
    - [components/reports/PDFExport.tsx] (the totals of [generatePDF]),
    - [components/inventory/MovementHistory.tsx] (the stored history),
    followed by the properties of the specification that concern them.

    JavaScript numbers are IEEE 754 binary64 values: they are modelled by
    Rocq's primitive floats.  JavaScript strings are modelled by [string],
    read as the UTF-8 encoding of the JavaScript string. *)

From Stdlib Require Import ZArith Ascii String PrimFloat FloatOps SpecFloat FloatAxioms.
From stdpp Require Import base option list strings gmap fin_maps pretty.

Local Open Scope Z_scope.

(** ** The JavaScript run time the components rely on *)

Module JS.

(** The primitive values that can reach the engine: cells hold
    [string | number | null]; raw imported fields and flattened records can
    also hold [undefined] and booleans. *)
Inductive Value : Type :=
  | VUndefined
  | VNull
  | VBool (b : bool)
  | VNum (f : float)
  | VStr (s : string).

(** [isNaN] on an already converted number. *)
Definition isNaN (f : float) : bool := PrimFloat.is_nan f.

(** *** [StringToNumber] (ECMA-262, 7.1.4.1.1) *)

Definition hex_digit_of (c : ascii) : option Z :=
  let n := Z.of_N (N_of_ascii c) in
  if (48 <=? n) && (n <=? 57) then Some (n - 48)
  else if (65 <=? n) && (n <=? 70) then Some (n - 55)
  else if (97 <=? n) && (n <=? 102) then Some (n - 87)
  else None.

Definition radix_digit_of (radix : Z) (c : ascii) : option Z :=
  match hex_digit_of c with
  | Some d => if d <? radix then Some d else None
  | None => None
  end.

(** [StrWhiteSpaceChar]: WhiteSpace and LineTerminator code points, the ones
    above U+007F recognised in their UTF-8 encoding.  The result is the
    number of bytes of the white space character the string starts with. *)
Definition ws_prefix (s : string) : option nat :=
  match s with
  | String c0 rest =>
      let b0 := N_of_ascii c0 in
      if ((9 <=? b0) && (b0 <=? 13))%N || (b0 =? 32)%N then Some 1%nat
      else match rest with
      | String c1 rest1 =>
          let b1 := N_of_ascii c1 in
          if (b0 =? 194)%N && (b1 =? 160)%N then Some 2%nat   (* U+00A0 *)
          else match rest1 with
          | String c2 _ =>
              let b2 := N_of_ascii c2 in
              if (b0 =? 225)%N && (b1 =? 154)%N && (b2 =? 128)%N then Some 3%nat (* U+1680 *)
              else if (b0 =? 226)%N && (b1 =? 128)%N &&
                      (((128 <=? b2) && (b2 <=? 138)) (* U+2000 .. U+200A *)
                       || (b2 =? 168) || (b2 =? 169)  (* U+2028, U+2029 *)
                       || (b2 =? 175))%N              (* U+202F *)
                   then Some 3%nat
              else if (b0 =? 226)%N && (b1 =? 129)%N && (b2 =? 159)%N then Some 3%nat (* U+205F *)
              else if (b0 =? 227)%N && (b1 =? 128)%N && (b2 =? 128)%N then Some 3%nat (* U+3000 *)
              else if (b0 =? 239)%N && (b1 =? 187)%N && (b2 =? 191)%N then Some 3%nat (* U+FEFF *)
              else None
          | EmptyString => None
          end
      | EmptyString => None
      end
  | EmptyString => None
  end.

Fixpoint drop_string (n : nat) (s : string) : string :=
  match n, s with
  | S n', String _ rest => drop_string n' rest
  | _, _ => s
  end.

(** Skips leading white space; the fuel is the length of the string. *)
Fixpoint skip_ws (fuel : nat) (s : string) : string :=
  match fuel with
  | O => s
  | S fuel' =>
      match ws_prefix s with
      | Some n => skip_ws fuel' (drop_string n s)
      | None => s
      end
  end.

Definition trim_start (s : string) : string := skip_ws (String.length s) s.

(** Reads the longest run of digits of the given radix: their value as a
    numeral, their count, and what follows them. *)
Fixpoint read_digits (radix : Z) (s : string) (acc : Z) (count : nat)
  : Z * nat * string :=
  match s with
  | String c rest =>
      match radix_digit_of radix c with
      | Some d => read_digits radix rest (radix * acc + d) (S count)
      | None => (acc, count, s)
      end
  | EmptyString => (acc, count, s)
  end.

(** Number of decimal digits of a positive numeral, by repeated division;
    the fuel bounds the number of digits. *)
Fixpoint dec_digits (fuel : nat) (m : Z) : Z :=
  match fuel with
  | O => 0
  | S fuel' => if m <=? 0 then 0 else 1 + dec_digits fuel' (m / 10)
  end.

Definition signed_zero (neg : bool) : float :=
  if neg then PrimFloat.neg_zero else PrimFloat.zero.

Definition signed_infinity (neg : bool) : float :=
  if neg then PrimFloat.neg_infinity else PrimFloat.infinity.

(** The Number value of the mathematical value [m * 10 ^ e10] ([0 <= m]),
    rounded to the nearest binary64, ties to even.  Magnitudes that are out
    of the binary64 range whatever their digits are settled beforehand, so
    that no huge power is ever computed. *)
Definition round_decimal (neg : bool) (m e10 : Z) : float :=
  if m <=? 0 then signed_zero neg
  else
    let nd := dec_digits (S (Z.to_nat (Z.log2 m))) m in
    if 310 <? e10 + nd then signed_infinity neg
    else if e10 + nd <? -330 then signed_zero neg
    else if 0 <=? e10 then
      SF2Prim (binary_normalize prec emax (if neg then - (m * 10 ^ e10) else m * 10 ^ e10) 0 neg)
    else
      let d := 10 ^ (- e10) in
      let k := Z.max 0 (Z.log2 d - Z.log2 m + 64) in
      let n := m * 2 ^ k in
      let q := n / d in
      let sticky := if n mod d =? 0 then 0 else 1 in
      let mant := 2 * q + sticky in
      SF2Prim (binary_normalize prec emax (if neg then - mant else mant) (- k - 1) neg).

Definition starts_with (p s : string) : option string :=
  if String.prefix p s then Some (drop_string (String.length p) s) else None.

(** [ExponentPart]: [e] or [E], an optional sign and at least one digit.
    When the text is no exponent part, nothing is consumed. *)
Definition read_exponent (s : string) : Z * string :=
  match s with
  | String c rest =>
      if (Ascii.eqb c "e" || Ascii.eqb c "E")%char then
        let '(neg, body) :=
          match rest with
          | String "+"%char r => (false, r)
          | String "-"%char r => (true, r)
          | _ => (false, rest)
          end in
        let '(v, cnt, after) := read_digits 10 body 0 0%nat in
        match cnt with
        | O => (0, s)
        | _ => (if neg then - v else v, after)
        end
      else (0, s)
  | EmptyString => (0, s)
  end.

(** [StrUnsignedDecimalLiteral] other than [Infinity]: the value read and
    the rest of the text, or [None] when the text starts with no literal. *)
Definition read_unsigned_decimal (neg : bool) (s : string) : option (float * string) :=
  let '(ip, icnt, after_int) := read_digits 10 s 0 0%nat in
  match after_int with
  | String "."%char after_dot =>
      let '(m, fcnt, after_frac) := read_digits 10 after_dot ip 0%nat in
      match icnt, fcnt with
      | O, O => None
      | _, _ =>
          let '(e, rest) := read_exponent after_frac in
          Some (round_decimal neg m (e - Z.of_nat fcnt), rest)
      end
  | _ =>
      match icnt with
      | O => None
      | _ =>
          let '(e, rest) := read_exponent after_int in
          Some (round_decimal neg ip e, rest)
      end
  end.

(** [NonDecimalIntegerLiteral]: [0x], [0o], [0b] in either case, then at
    least one digit of the radix. *)
Definition read_non_decimal (s : string) : option (float * string) :=
  match s with
  | String "0"%char (String c body) =>
      let radix :=
        if (Ascii.eqb c "x" || Ascii.eqb c "X")%char then Some 16
        else if (Ascii.eqb c "o" || Ascii.eqb c "O")%char then Some 8
        else if (Ascii.eqb c "b" || Ascii.eqb c "B")%char then Some 2
        else None in
      match radix with
      | Some r =>
          let '(v, cnt, rest) := read_digits r body 0 0%nat in
          match cnt with
          | O => None
          | _ => Some (SF2Prim (binary_normalize prec emax v 0 false), rest)
          end
      | None => None
      end
  | _ => None
  end.

(** [StrNumericLiteral]. *)
Definition read_numeric (s : string) : option (float * string) :=
  match read_non_decimal s with
  | Some r => Some r
  | None =>
      let '(neg, body) :=
        match s with
        | String "+"%char r => (false, r)
        | String "-"%char r => (true, r)
        | _ => (false, s)
        end in
      match starts_with "Infinity" body with
      | Some rest => Some (signed_infinity neg, rest)
      | None => read_unsigned_decimal neg body
      end
  end.

(** [StringNumericLiteral]: optional white space, an optional numeric
    literal, optional white space; anything else is [NaN], and the text
    without a literal is [+0]. *)
Definition StringToNumber (s : string) : float :=
  let body := trim_start s in
  match body with
  | EmptyString => PrimFloat.zero
  | _ =>
      match read_numeric body with
      | Some (v, rest) =>
          match trim_start rest with
          | EmptyString => v
          | _ => PrimFloat.nan
          end
      | None => PrimFloat.nan
      end
  end.

(** [Number(value)], that is [ToNumber] on primitive values. *)
Definition Number (v : Value) : float :=
  match v with
  | VUndefined => PrimFloat.nan
  | VNull => PrimFloat.zero
  | VBool true => PrimFloat.one
  | VBool false => PrimFloat.zero
  | VNum f => f
  | VStr s => StringToNumber s
  end.

(** [ToBoolean]: the falsy values are [undefined], [null], [false], [+0],
    [-0], [NaN] and the empty string. *)
Definition truthy (v : Value) : bool :=
  match v with
  | VUndefined | VNull => false
  | VBool b => b
  | VNum f => negb (PrimFloat.is_zero f || PrimFloat.is_nan f)
  | VStr s => negb (String.eqb s "")
  end.

(** [a || b]. *)
Definition or_else (a b : Value) : Value := if truthy a then a else b.

(** The relational operators on numbers; [a > b] is [b < a] and [a >= b]
    is [b <= a], all false when an operand is [NaN]. *)
Definition lt (a b : float) : bool := PrimFloat.ltb a b.
Definition le (a b : float) : bool := PrimFloat.leb a b.
Definition gt (a b : float) : bool := PrimFloat.ltb b a.
Definition ge (a b : float) : bool := PrimFloat.leb b a.

End JS.

(** ** lib/utils.ts *)

Module Utils.

Inductive StockStatus : Type := bajo | correcto | alto.

(** [getStockStatus(stockActual, stockMinimo, stockMaximo)]. *)
Definition getStockStatus (stockActual stockMinimo stockMaximo : float) : StockStatus :=
  if JS.lt stockActual stockMinimo then bajo
  else if JS.ge stockActual stockMaximo then alto
  else correcto.

End Utils.

(** ** components/inventory/EditableSpreadsheet.tsx *)

Module Sheet.

(** [type CellValue = string | number | null]. *)
Inductive CellValue : Type :=
  | CNull
  | CNum (f : float)
  | CStr (s : string).

Definition to_value (c : CellValue) : JS.Value :=
  match c with
  | CNull => JS.VNull
  | CNum f => JS.VNum f
  | CStr s => JS.VStr s
  end.

Inductive ColumnType : Type := text | number.

Record Column : Type := mkColumn {
  column_id : string;
  column_name : string;
  column_type : ColumnType
}.

(** [cells] is a [Record<string, CellValue>]; [selected] is optional. *)
Record Row : Type := mkRow {
  row_id : string;
  row_cells : gmap string CellValue;
  row_selected : option bool
}.

Record DynamicSheet : Type := mkSheet {
  sheet_id : string;
  sheet_name : string;
  sheet_columns : list Column;
  sheet_rows : list Row
}.

Definition DEFAULT_COLUMNS : list Column :=
  [ mkColumn "nombre" "Producto" text;
    mkColumn "stock_actual" "Stock Actual" number;
    mkColumn "stock_minimo" "Stock Mínimo" number;
    mkColumn "stock_maximo" "Stock Máximo" number;
    mkColumn "coste" "Coste Unit." number ].

Definition MONTH_NAMES : list string :=
  [ "Enero"; "Febrero"; "Marzo"; "Abril"; "Mayo"; "Junio";
    "Julio"; "Agosto"; "Septiembre"; "Octubre"; "Noviembre"; "Diciembre" ].

Definition createDefaultSheets : list DynamicSheet :=
  imap (fun idx month =>
          mkSheet ("month-" +:+ pretty (idx + 1)%nat) month DEFAULT_COLUMNS [])
       MONTH_NAMES.

(** The part of the component state the operations read and write: the
    [sheets] and the [activeSheetId] hooks. *)
Record State : Type := mkState {
  sheets : list DynamicSheet;
  activeSheetId : string
}.

(** How a handler ends: it returns, or a [TypeError] escapes it (a property
    read on [undefined]); either way with the state as the updates queued so
    far leave it. *)
Inductive Outcome : Type :=
  | Returned (st : State)
  | Thrown (st : State).

(** The state the [useState] initialisers build: an array, even an empty
    one, is truthy, so only a missing [initialSheets] gives the default
    sheets; [sheets[0]?.id || 'default']. *)
Definition initialState (initialSheets : option (list DynamicSheet)) : State :=
  let sh := match initialSheets with Some l => l | None => createDefaultSheets end in
  mkState sh
    (match sh with
     | s :: _ => if String.eqb (sheet_id s) "" then "default" else sheet_id s
     | [] => "default"
     end).

(** [sheets.find(s => s.id === activeSheetId) || sheets[0]]; [None] is
    [undefined]. *)
Definition activeSheet (st : State) : option DynamicSheet :=
  match List.find (fun s => String.eqb (sheet_id s) (activeSheetId st)) (sheets st) with
  | Some s => Some s
  | None => head (sheets st)
  end.

(** [updateSheets(sheets.map(s => s.id === activeSheetId ? f(s) : s))]. *)
Definition mapActive (f : DynamicSheet -> DynamicSheet) (st : State) : State :=
  mkState
    (map (fun s => if String.eqb (sheet_id s) (activeSheetId st) then f s else s) (sheets st))
    (activeSheetId st).

Definition set_columns (cols : list Column) (s : DynamicSheet) : DynamicSheet :=
  mkSheet (sheet_id s) (sheet_name s) cols (sheet_rows s).

Definition set_rows (rows : list Row) (s : DynamicSheet) : DynamicSheet :=
  mkSheet (sheet_id s) (sheet_name s) (sheet_columns s) rows.

Definition set_cells (cells : gmap string CellValue) (r : Row) : Row :=
  mkRow (row_id r) cells (row_selected r).

(** [Array.prototype.findIndex], [-1] when no element satisfies [p]. *)
Fixpoint findIndex {A} (p : A -> bool) (l : list A) : Z :=
  match l with
  | [] => -1
  | x :: l' =>
      if p x then 0
      else match findIndex p l' with
           | -1 => -1
           | i => 1 + i
           end
  end.

(** [l.splice(start, 0, x)]: a negative [start] counts from the end, and the
    position is clamped to the array. *)
Definition splice_insert {A} (start : Z) (x : A) (l : list A) : list A :=
  let len := Z.of_nat (length l) in
  let pos := if start <? 0 then Z.max (len + start) 0 else Z.min start len in
  take (Z.to_nat pos) l ++ x :: drop (Z.to_nat pos) l.

Definition toggleColumnType (columnId : string) (st : State) : Outcome :=
  Returned (mapActive (fun s =>
    set_columns
      (map (fun c =>
              if String.eqb (column_id c) columnId
              then mkColumn (column_id c) (column_name c)
                     (match column_type c with text => number | number => text end)
              else c)
           (sheet_columns s)) s) st).

(** [Date.now()] is the argument [now]. *)
Definition addSheet (now : N) (st : State) : Outcome :=
  let newSheet :=
    mkSheet ("sheet-" +:+ pretty now)
            ("Hoja " +:+ pretty (length (sheets st) + 1)%nat)
            DEFAULT_COLUMNS [] in
  Returned (mkState (sheets st ++ [newSheet]) (sheet_id newSheet)).

Definition deleteSheet (sheetId : string) (st : State) : Outcome :=
  if (length (sheets st) <=? 1)%nat then Returned st
  else
    let newSheets := List.filter (fun s => negb (String.eqb (sheet_id s) sheetId)) (sheets st) in
    if String.eqb (activeSheetId st) sheetId then
      match newSheets with
      | s :: _ => Returned (mkState newSheets (sheet_id s))
      | [] => Thrown (mkState newSheets (activeSheetId st))
      end
    else Returned (mkState newSheets (activeSheetId st)).

Definition renameSheet (sheetId newName : string) (st : State) : Outcome :=
  Returned (mkState
    (map (fun s => if String.eqb (sheet_id s) sheetId
                   then mkSheet (sheet_id s) newName (sheet_columns s) (sheet_rows s)
                   else s) (sheets st))
    (activeSheetId st)).

(** The optional argument is truthy when it is given and not empty. *)
Definition given (a : option string) : option string :=
  match a with
  | Some s => if String.eqb s "" then None else Some s
  | None => None
  end.

Definition newColumnFor (now : N) (active : DynamicSheet) : Column :=
  mkColumn ("col-" +:+ pretty now)
           ("Columna " +:+ pretty (length (sheet_columns active) + 1)%nat)
           text.

Definition addColumn (afterColumnId : option string) (now : N) (st : State) : Outcome :=
  match activeSheet st with
  | None => Thrown st
  | Some active =>
      let newColumn := newColumnFor now active in
      let newColumns :=
        match given afterColumnId with
        | Some after =>
            let idx := findIndex (fun c => String.eqb (column_id c) after) (sheet_columns active) in
            splice_insert (idx + 1) newColumn (sheet_columns active)
        | None => sheet_columns active ++ [newColumn]
        end in
      let newRows :=
        map (fun row => set_cells (<[column_id newColumn := CNull]> (row_cells row)) row)
            (sheet_rows active) in
      Returned (mapActive (fun s => set_rows newRows (set_columns newColumns s)) st)
  end.

Definition deleteColumn (columnId : string) (st : State) : Outcome :=
  match activeSheet st with
  | None => Thrown st
  | Some active =>
      if (length (sheet_columns active) <=? 1)%nat then Returned st
      else
        let newColumns :=
          List.filter (fun c => negb (String.eqb (column_id c) columnId)) (sheet_columns active) in
        let newRows :=
          map (fun row => set_cells (delete columnId (row_cells row)) row) (sheet_rows active) in
        Returned (mapActive (fun s => set_rows newRows (set_columns newColumns s)) st)
  end.

Definition renameColumn (columnId newName : string) (st : State) : Outcome :=
  Returned (mapActive (fun s =>
    set_columns
      (map (fun c => if String.eqb (column_id c) columnId
                     then mkColumn (column_id c) newName (column_type c) else c)
           (sheet_columns s)) s) st).

Definition addRow (afterRowId : option string) (now : N) (st : State) : Outcome :=
  match activeSheet st with
  | None => Thrown st
  | Some active =>
      let newRow :=
        mkRow ("row-" +:+ pretty now)
              (list_to_map (map (fun c => (column_id c, CNull)) (sheet_columns active)))
              None in
      let newRows :=
        match given afterRowId with
        | Some after =>
            let idx := findIndex (fun r => String.eqb (row_id r) after) (sheet_rows active) in
            splice_insert (idx + 1) newRow (sheet_rows active)
        | None => sheet_rows active ++ [newRow]
        end in
      Returned (mapActive (set_rows newRows) st)
  end.

Definition deleteRow (rowId : string) (st : State) : Outcome :=
  Returned (mapActive (fun s =>
    set_rows (List.filter (fun r => negb (String.eqb (row_id r) rowId)) (sheet_rows s)) s) st).

Definition updateCell (rowId columnId : string) (value : CellValue) (st : State) : Outcome :=
  Returned (mapActive (fun s =>
    set_rows
      (map (fun r => if String.eqb (row_id r) rowId
                     then set_cells (<[columnId := value]> (row_cells r)) r
                     else r)
           (sheet_rows s)) s) st).

(** [!!r.selected]. *)
Definition is_selected (r : Row) : bool :=
  match row_selected r with Some b => b | None => false end.

Definition toggleSelectRow (rowId : string) (st : State) : Outcome :=
  Returned (mapActive (fun s =>
    set_rows
      (map (fun r => if String.eqb (row_id r) rowId
                     then mkRow (row_id r) (row_cells r) (Some (negb (is_selected r)))
                     else r)
           (sheet_rows s)) s) st).

Definition toggleSelectAll (st : State) : Outcome :=
  match activeSheet st with
  | None => Thrown st
  | Some active =>
      let allSelected := forallb is_selected (sheet_rows active) in
      Returned (mapActive (fun s =>
        set_rows
          (map (fun r => mkRow (row_id r) (row_cells r) (Some (negb allSelected)))
               (sheet_rows s)) s) st)
  end.

(** [Number(e.target.value) || null]. *)
Definition numberOrNull (input : string) : CellValue :=
  let n := JS.Number (JS.VStr input) in
  if JS.truthy (JS.VNum n) then CNum n else CNull.

(** The [onChange] handler of the cell [<input>] rendered for [row] and
    [col]: [updateCell(row.id, col.id, col.type === 'number' ?
    Number(e.target.value) || null : e.target.value)]. *)
Definition cellOnChange (row : Row) (col : Column) (input : string) (st : State) : Outcome :=
  updateCell (row_id row) (column_id col)
    (match column_type col with
     | number => numberOrNull input
     | text => CStr input
     end) st.

End Sheet.

(** ** lib/excel.ts *)

Module Excel.
Import Sheet.

(** What [XLSX.utils.sheet_to_json(worksheet, { header: 1 })] returns for one
    table: no row at all, or a first row followed by the data rows.  No
    [defval] is given, so a blank cell leaves a hole in the array of its
    row.  The first row is kept with its holes ([None]), which
    [headers.map] and [columns.forEach] skip; a cell of it that has a value
    gives a text, a number or a boolean, or [null] for an error cell,
    whatever the cast to [string[]] says.  Of a data row only the fields
    [rowArray[idx]] are read, and there a hole reads as [undefined], as a
    field beyond the end of the row does. *)
Inductive JsonData : Type :=
  | NoRows
  | Rows (headers : list (option JS.Value)) (rawRows : list (list JS.Value)).

(** [workbook.SheetNames] with [workbook.Sheets[sheetName]] converted. *)
Definition Workbook : Type := list (string * JsonData).

(** A column as [headers.map] builds it: its name is [header || 'Sin
    título'], the header cell itself when that is truthy, a text or not. *)
Record ImportedColumn : Type := mkImportedColumn {
  imported_id : string;
  imported_name : JS.Value;
  imported_type : ColumnType
}.

(** A sheet as [sheets.push] receives it: [columns] is as long as the first
    row and has its holes. *)
Record ImportedSheet : Type := mkImportedSheet {
  imported_sheet_id : string;
  imported_sheet_name : string;
  imported_columns : list (option ImportedColumn);
  imported_rows : list Row
}.

(** [rowArray[idx]]. *)
Definition field (rowArray : list JS.Value) (idx : nat) : JS.Value :=
  nth idx rowArray JS.VUndefined.

(** [val !== undefined && val !== null && val !== '']. *)
Definition hasValue (v : JS.Value) : bool :=
  match v with
  | JS.VUndefined | JS.VNull => false
  | JS.VStr s => negb (String.eqb s "")
  | _ => true
  end.

(** The body of the sampling [for] loop, run over the rows
    [rawRows[0] .. rawRows[Math.min(rawRows.length, 10) - 1]] with the two
    flags [isNumber] and [hasContent]; a [break] returns at once. *)
Fixpoint sampleLoop (sample : list (list JS.Value)) (colIndex : nat)
    (isNumber hasContent : bool) : bool * bool :=
  match sample with
  | [] => (isNumber, hasContent)
  | row :: rest =>
      let val := field row colIndex in
      if hasValue val then
        if JS.isNaN (JS.Number val) then (false, true)
        else sampleLoop rest colIndex isNumber true
      else sampleLoop rest colIndex isNumber hasContent
  end.

Definition sampleWindow (rawRows : list (list JS.Value)) : list (list JS.Value) :=
  take (Nat.min (length rawRows) 10) rawRows.

(** [(hasContent && isNumber) ? 'number' : 'text']. *)
Definition detectType (rawRows : list (list JS.Value)) (colIndex : nat) : ColumnType :=
  let '(isNumber, hasContent) := sampleLoop (sampleWindow rawRows) colIndex true false in
  if hasContent && isNumber then number else text.

(** The value stored for the field [value] of a column of type [ty]. *)
Definition importCell (ty : ColumnType) (value : JS.Value) : CellValue :=
  match ty, value with
  | _, JS.VUndefined | _, JS.VNull => CNull
  | number, _ => CNum (JS.Number value)
  | text, JS.VStr s => CStr s
  | text, JS.VNum f => CNum f
  | text, JS.VBool true => CStr "true"
  | text, JS.VBool false => CStr "false"
  end.

(** [columns.forEach((col, idx) => cells[col.id] = ...)] from [{}]; a hole
    of [columns] is not visited. *)
Definition importCells (columns : list (option ImportedColumn)) (rowArray : list JS.Value)
  : gmap string CellValue :=
  fold_left
    (fun cells '(idx, slot) =>
       match slot with
       | Some col =>
           <[imported_id col := importCell (imported_type col) (field rowArray idx)]> cells
       | None => cells
       end)
    (imap (fun idx slot => (idx, slot)) columns)
    ∅.

(** The column as the [Column] its interface declares, which it is when its
    name is a text; a hole is no column. *)
Definition asColumn (slot : option ImportedColumn) : option Column :=
  match slot with
  | Some col =>
      match imported_name col with
      | JS.VStr name => Some (mkColumn (imported_id col) name (imported_type col))
      | _ => None
      end
  | None => None
  end.

(** The sheet as the [DynamicSheet] the promise declares, on which the
    editor and the page are modelled: it is one when its columns array has
    no hole and every column name is a text. *)
Definition asSheet (sh : ImportedSheet) : option DynamicSheet :=
  match mapM asColumn (imported_columns sh) with
  | Some columns =>
      Some (mkSheet (imported_sheet_id sh) (imported_sheet_name sh) columns (imported_rows sh))
  | None => None
  end.

Section WithIds.

(** [generateId()] is [crypto.randomUUID()]: [randomUUID n] stands for the
    value its [n]-th call returns, and the computations below thread the
    number of calls made so far. *)
Variable randomUUID : nat -> string.

Definition Gen (A : Type) : Type := nat -> A * nat.

Definition ret {A} (a : A) : Gen A := fun n => (a, n).
Definition bind {A B} (m : Gen A) (k : A -> Gen B) : Gen B :=
  fun n => let '(a, n') := m n in k a n'.
Definition generateId : Gen string := fun n => (randomUUID n, S n).

Fixpoint mapGen {A B} (f : A -> Gen B) (l : list A) : Gen (list B) :=
  match l with
  | [] => ret []
  | x :: l' => bind (f x) (fun y => bind (mapGen f l') (fun ys => ret (y :: ys)))
  end.

(** [headers.map((header, colIndex) => ({ id, name: header || 'Sin título',
    type }))]: the callback is not called on a hole, which stays a hole. *)
Definition makeColumn (rawRows : list (list JS.Value)) (ix : nat * option JS.Value)
  : Gen (option ImportedColumn) :=
  let '(colIndex, slot) := ix in
  match slot with
  | None => ret None
  | Some header =>
      bind generateId (fun u =>
      ret (Some (mkImportedColumn ("col-" +:+ u)
                                  (JS.or_else header (JS.VStr "Sin título"))
                                  (detectType rawRows colIndex))))
  end.

Definition makeRow (columns : list (option ImportedColumn)) (rowArray : list JS.Value)
  : Gen Row :=
  let cells := importCells columns rowArray in
  bind generateId (fun u => ret (mkRow ("row-" +:+ u) cells None)).

(** The body of [workbook.SheetNames.forEach]: the sheet pushed for one
    table, if any. *)
Definition importTable (entry : string * JsonData) : Gen (option ImportedSheet) :=
  let '(sheetName, jsonData) := entry in
  match jsonData with
  | NoRows => ret None
  | Rows headers rawRows =>
      bind (mapGen (makeColumn rawRows) (imap (fun i h => (i, h)) headers)) (fun columns =>
      bind (mapGen (makeRow columns) rawRows) (fun rows =>
      bind generateId (fun u =>
      ret (Some (mkImportedSheet ("sheet-" +:+ u) sheetName columns rows)))))
  end.

(** How the promise settles. *)
Inductive Settled : Type :=
  | Resolved (sheets : list ImportedSheet)
  | Rejected.

(** [parseExcelFile] on what [XLSX.read] makes of the file: [None] stands for
    a file that cannot be read or on which [XLSX.read] throws. *)
Definition parseExcelFile (workbook : option Workbook) : Gen Settled :=
  match workbook with
  | None => ret Rejected
  | Some tables =>
      bind (mapGen importTable tables) (fun pushed =>
      ret (Resolved (omap (fun o => o) pushed)))
  end.

End WithIds.

End Excel.

(** ** app/dashboard/page.tsx and components/dashboard/KPICards.tsx *)

Module Dashboard.
Import Sheet.

(** A flattened row: an object keyed by column names.  A key can be present
    with the value [undefined]. *)
Definition get (row : gmap string JS.Value) (key : string) : JS.Value :=
  match row !! key with
  | Some v => v
  | None => JS.VUndefined
  end.

(** [key in row]. *)
Definition has (row : gmap string JS.Value) (key : string) : bool :=
  match row !! key with
  | Some _ => true
  | None => false
  end.

Definition cellOrUndefined (c : option CellValue) : JS.Value :=
  match c with
  | Some v => to_value v
  | None => JS.VUndefined
  end.

(** A plain object while it is filled: its own properties, and whether its
    prototype has been set to [null]; [{}] has none and [Object.prototype]
    as prototype. *)
Record PlainObject : Type := mkPlainObject {
  properties : gmap string JS.Value;
  prototypeIsNull : bool
}.

(** [obj[key] = v] for a value [v] that is no object.  A key that is not an
    own property is looked up along the prototype chain: [__proto__] is
    found there as the accessor of [Object.prototype], whose setter makes
    [null] the prototype when [v] is [null] and does nothing for any other
    such [v], and creates no property.  Once the prototype is [null], or
    when [__proto__] is an own property, the key is written as any other
    key is. *)
Definition assign (key : string) (v : JS.Value) (obj : PlainObject) : PlainObject :=
  if String.eqb key "__proto__" && negb (prototypeIsNull obj)
     && negb (has (properties obj) "__proto__")
  then
    match v with
    | JS.VNull => mkPlainObject (properties obj) true
    | _ => obj
    end
  else mkPlainObject (<[key := v]> (properties obj)) (prototypeIsNull obj).

(** [activeSheet.columns.forEach(col => { obj[col.name] = row.cells[col.id] })]
    from [{}].  Column ids are the default ones or made of [col-] and a
    stamp: none names a member of [Object.prototype], so a key that [cells]
    lacks reads as [undefined]. *)
Definition flattenObject (columns : list Column) (row : Row) : PlainObject :=
  fold_left
    (fun obj col => assign (column_name col) (cellOrUndefined (row_cells row !! column_id col)) obj)
    columns (mkPlainObject ∅ false).

(** The flattened row by its own properties.  The keys that the page, the
    indicators and the report read from it are no members of
    [Object.prototype], so what they read is the same with either
    prototype. *)
Definition flattenRow (columns : list Column) (row : Row) : gmap string JS.Value :=
  properties (flattenObject columns row).

Definition getSpreadsheetDataForAI (spreadsheetData : list DynamicSheet)
  : list (gmap string JS.Value) :=
  match spreadsheetData with
  | [] => []
  | activeSheet :: _ =>
      map (fun row =>
             properties
               (assign "_selected"
                  (match row_selected row with
                   | Some b => JS.VBool b
                   | None => JS.VUndefined
                   end)
                  (flattenObject (sheet_columns activeSheet) row)))
          (sheet_rows activeSheet)
  end.

Record StockCalculation : Type := mkStockCalculation {
  total_productos : nat;
  total_stock : float;
  media_coste_unitario : float;
  productos_bajo_stock : nat;
  productos_stock_correcto : nat;
  productos_alto_stock : nat
}.

(** [Number(row['Stock Actual'] || row['stock_actual'] || row['Stock'] || 0)]. *)
Definition stockOf (row : gmap string JS.Value) : float :=
  JS.Number
    (JS.or_else (JS.or_else (JS.or_else (get row "Stock Actual") (get row "stock_actual"))
                            (get row "Stock"))
                (JS.VNum PrimFloat.zero)).

Definition costOf (row : gmap string JS.Value) : float :=
  JS.Number
    (JS.or_else
       (JS.or_else (JS.or_else (JS.or_else (get row "Coste Unit.") (get row "coste_unitario"))
                               (get row "Coste"))
                   (get row "Precio"))
       (JS.VNum PrimFloat.zero)).

(** The three [filter] predicates of [handleCalculate]. *)
Definition isBajo (stockMinimo : float) (row : gmap string JS.Value) : bool :=
  JS.lt (stockOf row) stockMinimo.

Definition isCorrecto (stockMinimo stockMaximo : float) (row : gmap string JS.Value) : bool :=
  JS.ge (stockOf row) stockMinimo && JS.le (stockOf row) stockMaximo.

Definition isAlto (stockMaximo : float) (row : gmap string JS.Value) : bool :=
  JS.gt (stockOf row) stockMaximo.

(** [handleCalculate]: the error message set, or the calculation set. *)
Definition handleCalculate (spreadsheetData : list DynamicSheet)
    (stockMinimo stockMaximo : float) : string + StockCalculation :=
  let data := getSpreadsheetDataForAI spreadsheetData in
  match data with
  | [] => inl "Añade datos a la hoja primero"
  | _ =>
      if negb (existsb (fun row => has row "Stock Actual" || has row "stock_actual"
                                   || has row "Stock") data)
      then inl "La hoja debe tener una columna de Stock"
      else
        let '(totalStock, totalCoste, countWithCost) :=
          fold_left
            (fun '(totalStock, totalCoste, countWithCost) row =>
               let stock := stockOf row in
               let cost := costOf row in
               if JS.gt cost PrimFloat.zero
               then ((totalStock + stock)%float, (totalCoste + cost)%float,
                     (countWithCost + 1)%float)
               else ((totalStock + stock)%float, totalCoste, countWithCost))
            data (PrimFloat.zero, PrimFloat.zero, PrimFloat.zero) in
        inr (mkStockCalculation
               (length data)
               totalStock
               (if JS.gt countWithCost PrimFloat.zero
                then (totalCoste / countWithCost)%float else PrimFloat.zero)
               (length (List.filter (isBajo stockMinimo) data))
               (length (List.filter (isCorrecto stockMinimo stockMaximo) data))
               (length (List.filter (isAlto stockMaximo) data)))
  end.

(** The accumulators of the [data.forEach] loop of [KPICards]. *)
Record KPIs : Type := mkKPIs {
  totalStock : float;
  inventoryValue : float;
  criticalProducts : nat;
  healthyProducts : nat;
  excessProducts : nat
}.

Definition kpiStep (stockMinimo stockMaximo : float) (acc : KPIs)
    (item : gmap string JS.Value) : KPIs :=
  let stock := stockOf item in
  let cost := costOf item in
  let minStock :=
    JS.Number (JS.or_else (JS.or_else (get item "Stock Mínimo") (get item "stock_minimo"))
                          (JS.VNum stockMinimo)) in
  let maxStock :=
    JS.Number (JS.or_else (JS.or_else (get item "Stock Máximo") (get item "stock_maximo"))
                          (JS.VNum stockMaximo)) in
  let totalStock' := (totalStock acc + stock)%float in
  let inventoryValue' := (inventoryValue acc + stock * cost)%float in
  if JS.lt stock minStock then
    mkKPIs totalStock' inventoryValue' (S (criticalProducts acc))
           (healthyProducts acc) (excessProducts acc)
  else if JS.gt stock maxStock then
    mkKPIs totalStock' inventoryValue' (criticalProducts acc)
           (healthyProducts acc) (S (excessProducts acc))
  else
    mkKPIs totalStock' inventoryValue' (criticalProducts acc)
           (S (healthyProducts acc)) (excessProducts acc).

(** The totals and counters [KPICards] computes from its [data] and the two
    thresholds it is given; without data they are all zero. *)
Definition KPICards (data : list (gmap string JS.Value))
    (stockMinimo stockMaximo : float) : KPIs :=
  fold_left (kpiStep stockMinimo stockMaximo) data
    (mkKPIs PrimFloat.zero PrimFloat.zero 0%nat 0%nat 0%nat).

(** [getSelectedData]: the rows flagged [selected] of the first sheet, or
    all its rows when none is flagged, flattened without the [_selected]
    key. *)
Definition getSelectedData (spreadsheetData : list DynamicSheet)
  : list (gmap string JS.Value) :=
  match spreadsheetData with
  | [] => []
  | activeSheet :: _ =>
      let selectedRows := List.filter is_selected (sheet_rows activeSheet) in
      let rowsToUse :=
        match selectedRows with
        | [] => sheet_rows activeSheet
        | _ => selectedRows
        end in
      map (flattenRow (sheet_columns activeSheet)) rowsToUse
  end.

(** [handleOpenChart]: the error message set, or the chart modal shown. *)
Definition handleOpenChart (spreadsheetData : list DynamicSheet) : string + unit :=
  match spreadsheetData with
  | [] => inl "Añade datos primero para generar gráficos"
  | first :: _ =>
      match sheet_rows first with
      | [] => inl "Añade datos primero para generar gráficos"
      | _ => inr tt
      end
  end.

(** The hooks of the page that an import writes; [spreadsheetData] holds
    the sheets as the import resolved with them. *)
Record PageState : Type := mkPageState {
  spreadsheetData : list Excel.ImportedSheet;
  sheetVersion : N;
  error : string
}.

(** [handleFileChange]: [file] is [None] when no file was chosen, and
    otherwise what [XLSX.read] makes of the chosen file; the ids the import
    draws are threaded as in [Excel.parseExcelFile]. *)
Definition handleFileChange (randomUUID : nat -> string)
    (file : option (option Excel.Workbook)) (page : PageState) : Excel.Gen PageState :=
  match file with
  | None => Excel.ret page
  | Some read =>
      Excel.bind (Excel.parseExcelFile randomUUID read) (fun settled =>
      Excel.ret
        match settled with
        | Excel.Resolved sheets => mkPageState sheets (sheetVersion page + 1) ""
        | Excel.Rejected =>
            mkPageState (spreadsheetData page) (sheetVersion page)
                        "Error al importar el archivo Excel"
        end)
  end.

(** The state in which [<EditableSpreadsheet initialSheets={spreadsheetData.length
    > 0 ? spreadsheetData : undefined} />] mounts. *)
Definition editorState (spreadsheetData : list DynamicSheet) : State :=
  initialState (match spreadsheetData with [] => None | _ => Some spreadsheetData end).

End Dashboard.

(** ** components/reports/PDFExport.tsx *)

Module PDFExport.
Import Dashboard.

(** The three totals [generatePDF] computes before drawing. *)
Record Totals : Type := mkTotals {
  totalStock : float;
  inventoryValue : float;
  criticalCount : nat
}.

(** [Number(item['Coste Unit.'] || item.coste_unitario || item.Coste || 0)]. *)
Definition costOf (item : gmap string JS.Value) : float :=
  JS.Number
    (JS.or_else (JS.or_else (JS.or_else (get item "Coste Unit.") (get item "coste_unitario"))
                            (get item "Coste"))
                (JS.VNum PrimFloat.zero)).

Definition step (stockMinimo : float) (acc : Totals) (item : gmap string JS.Value) : Totals :=
  let stock := stockOf item in
  let cost := costOf item in
  let minStock :=
    JS.Number (JS.or_else (JS.or_else (get item "Stock Mínimo") (get item "stock_minimo"))
                          (JS.VNum stockMinimo)) in
  mkTotals (totalStock acc + stock)%float
           (inventoryValue acc + stock * cost)%float
           (if JS.lt stock minStock then S (criticalCount acc) else criticalCount acc).

(** The [data.forEach] loop of [generatePDF]. *)
Definition totals (data : list (gmap string JS.Value)) (stockMinimo : float) : Totals :=
  fold_left (step stockMinimo) data (mkTotals PrimFloat.zero PrimFloat.zero 0%nat).

End PDFExport.

(** ** components/inventory/MovementHistory.tsx *)

Module MovementHistory.

Inductive ChangeType : Type := entrada | salida | ajuste.

Record Movement : Type := mkMovement {
  movement_id : string;
  productName : string;
  previousValue : option float;
  newValue : option float;
  changeType : ChangeType;
  columnName : string;
  timestamp : string;
  sheetName : option string
}.

(** [Omit<Movement, 'id' | 'timestamp'>]. *)
Record MovementInput : Type := mkMovementInput {
  input_productName : string;
  input_previousValue : option float;
  input_newValue : option float;
  input_changeType : ChangeType;
  input_columnName : string;
  input_sheetName : option string
}.

(** The text kept under [STORAGE_KEY], by what [getMovements] makes of it:
    a text that is empty or that [JSON.parse] refuses, or the array it
    parses to (a [Movement[]], as the function declares).  [None] is a
    missing item. *)
Inductive Item : Type :=
  | Unparsable
  | Parsed (movements : list Movement).

Definition Storage : Type := option Item.

(** A number after [JSON.stringify] and [JSON.parse]: [NaN] and the
    infinities are written as [null], and [-0] as [0]. *)
Definition jsonNumber (v : option float) : option float :=
  match v with
  | None => None
  | Some f =>
      if PrimFloat.is_nan f || PrimFloat.is_infinity f then None
      else if PrimFloat.is_zero f then Some PrimFloat.zero
      else Some f
  end.

Definition jsonMovement (m : Movement) : Movement :=
  mkMovement (movement_id m) (productName m)
             (jsonNumber (previousValue m)) (jsonNumber (newValue m))
             (changeType m) (columnName m) (timestamp m) (sheetName m).

(** [getMovements]: [window] tells whether [typeof window] is defined. *)
Definition getMovements (window : bool) (storage : Storage) : list Movement :=
  if negb window then []
  else match storage with
       | Some (Parsed movements) => movements
       | Some Unparsable | None => []
       end.

(** [addMovement] in the browser: [now] is [Date.now()], [random] the text
    [Math.random().toString(36).substr(2, 9)] and [iso] the text
    [new Date().toISOString()]; the item written is the text of [trimmed]. *)
Definition addMovement (movement : MovementInput) (now : N) (random iso : string)
    (storage : Storage) : Storage :=
  let movements := getMovements true storage in
  let newMovement :=
    mkMovement ("mov-" +:+ pretty now +:+ "-" +:+ random)
               (input_productName movement)
               (input_previousValue movement) (input_newValue movement)
               (input_changeType movement) (input_columnName movement)
               iso (input_sheetName movement) in
  let trimmed := take 100 (newMovement :: movements) in
  Some (Parsed (map jsonMovement trimmed)).

Definition clearMovements (storage : Storage) : Storage := None.

(** [movements.filter(m => filter === 'all' || m.changeType === filter)];
    [None] is the filter ['all']. *)
Definition filteredMovements (filter : option ChangeType) (movements : list Movement)
  : list Movement :=
  List.filter
    (fun m =>
       match filter with
       | None => true
       | Some t =>
           match t, changeType m with
           | entrada, entrada | salida, salida | ajuste, ajuste => true
           | _, _ => false
           end
       end)
    movements.

End MovementHistory.

(** ** Concrete workbooks used below *)

Module Examples.
Import Sheet.

(** One sheet [s1] with a text column [a], a number column [b] and one row. *)
Definition row1 : Row :=
  mkRow "r1" (<["a" := CStr "x"]> (<["b" := CNum 5]> ∅)) None.

Definition sheet1 : DynamicSheet :=
  mkSheet "s1" "Hoja 1" [mkColumn "a" "A" text; mkColumn "b" "B" number] [row1].

Definition state1 : State := mkState [sheet1] "s1".

(** A sheet with the single column [a]. *)
Definition sheetOneColumn : DynamicSheet :=
  mkSheet "s1" "Hoja 1" [mkColumn "a" "A" text]
          [mkRow "r1" (<["a" := CStr "x"]> ∅) None].

Definition stateOneColumn : State := mkState [sheetOneColumn] "s1".

(** Two sheets, the second one active. *)
Definition sheet2 : DynamicSheet :=
  mkSheet "s2" "Hoja 2" DEFAULT_COLUMNS [].

Definition state2 : State := mkState [sheet1; sheet2] "s2".

(** One product whose stock equals the maximum threshold 100. *)
Definition stockSheet : DynamicSheet :=
  mkSheet "s1" "Hoja 1"
    [mkColumn "nombre" "Producto" text; mkColumn "stock_actual" "Stock Actual" number]
    [mkRow "r1" (<["nombre" := CStr "X"]> (<["stock_actual" := CNum 100]> ∅)) None].

(** Three products: one below the thresholds 10 and 100, one whose stock is
    no number, one above; the last carries a price and no cost. *)
Definition mixedStockSheet : DynamicSheet :=
  mkSheet "s1" "Hoja 1"
    [mkColumn "nombre" "Producto" text; mkColumn "stock" "Stock" text;
     mkColumn "precio" "Precio" number]
    [mkRow "r1" (<["nombre" := CStr "A"]> (<["stock" := CStr "5"]> ∅)) None;
     mkRow "r2" (<["nombre" := CStr "B"]> (<["stock" := CStr "abc"]> ∅)) None;
     mkRow "r3" (<["nombre" := CStr "C"]> (<["stock" := CNum 500]>
                   (<["precio" := CNum 2]> ∅))) None].

(** The source table [[["Producto","Stock"],["A","50"],["B","abc"]]]. *)
Definition productTable : Excel.JsonData :=
  Excel.Rows [Some (JS.VStr "Producto"); Some (JS.VStr "Stock")]
    [ [JS.VStr "A"; JS.VStr "50"]; [JS.VStr "B"; JS.VStr "abc"] ].

(** The source table [[["Producto","Stock"],["A","50"],["B",7]]]. *)
Definition numericTable : Excel.JsonData :=
  Excel.Rows [Some (JS.VStr "Producto"); Some (JS.VStr "Stock")]
    [ [JS.VStr "A"; JS.VStr "50"]; [JS.VStr "B"; JS.VNum 7] ].

(** One column whose ten first data rows are numeric texts and whose
    eleventh is not. *)
Definition lateTextTable : Excel.JsonData :=
  Excel.Rows [Some (JS.VStr "Cantidad")]
    (map (fun s => [JS.VStr s]) ["1"; "2"; "3"; "4"; "5"; "6"; "7"; "8"; "9"; "10"]
     ++ [[JS.VStr "abc"]]).

(** A first row [Producto], blank, [2024], with one data row. *)
Definition sparseTable : Excel.JsonData :=
  Excel.Rows [Some (JS.VStr "Producto"); None; Some (JS.VNum 2024)]
    [ [JS.VStr "A"; JS.VStr "x"; JS.VNum 3] ].

(** A sheet as an import leaves it, with one text column and one row. *)
Definition importedSheet1 : Excel.ImportedSheet :=
  Excel.mkImportedSheet "sheet-2" "Hoja1"
    [Some (Excel.mkImportedColumn "col-0" (JS.VStr "Producto") text)]
    [mkRow "row-1" (<["col-0" := CStr "A"]> ∅) None].

(** An id supply whose [n]-th id is the numeral [n]. *)
Definition countingUUID (n : nat) : string := pretty n.

End Examples.

(** ** The sheet invariant of the data model *)

Module Invariant.
Import Sheet.

(** Every key of every row's cell map is the id of a column of the sheet. *)
Definition cells_within_columns (s : DynamicSheet) : Prop :=
  forall r, In r (sheet_rows s) ->
  forall k, is_Some (row_cells r !! k) -> In k (map column_id (sheet_columns s)).

(** The ids a mutation can be handed that the current state does not know:
    no sheet has the id; no row, or no column, of a sheet carrying the active
    id has it; no sheet carries the active id itself. *)
Definition unknown_sheet (st : State) (sheetId : string) : Prop :=
  forall s, In s (sheets st) -> sheet_id s <> sheetId.

Definition unknown_row (st : State) (rowId : string) : Prop :=
  forall s, In s (sheets st) -> sheet_id s = activeSheetId st ->
  forall r, In r (sheet_rows s) -> row_id r <> rowId.

Definition unknown_column (st : State) (columnId : string) : Prop :=
  forall s, In s (sheets st) -> sheet_id s = activeSheetId st ->
  forall c, In c (sheet_columns s) -> column_id c <> columnId.

Definition stale_active (st : State) : Prop :=
  unknown_sheet st (activeSheetId st).

(** The keys of every row's cell map are exactly the ids of the columns. *)
Definition keys_are_columns (s : DynamicSheet) : Prop :=
  forall r, In r (sheet_rows s) ->
  dom (row_cells r) = list_to_set (map column_id (sheet_columns s)).

(** A sheet in order: at least one column, no two columns and no two rows
    with the same id, and rows keyed by the columns. *)
Definition sheet_ok (s : DynamicSheet) : Prop :=
  sheet_columns s <> [] /\
  NoDup (map column_id (sheet_columns s)) /\
  NoDup (map row_id (sheet_rows s)) /\
  keys_are_columns s.

(** A workbook in order: no two sheets with the same id, the active id is
    the id of a sheet (so there is a sheet), and every sheet is in order. *)
Definition state_ok (st : State) : Prop :=
  NoDup (map sheet_id (sheets st)) /\
  In (activeSheetId st) (map sheet_id (sheets st)) /\
  (forall s, In s (sheets st) -> sheet_ok s).

End Invariant.

(** ** Properties *)

(** *** Order facts on binary64 values *)

Lemma SFleb_trans_not_ltb (x y z : spec_float) :
  SFleb x y = true -> SFleb y z = true -> SFltb z x = false.
Proof.
  unfold SFleb, SFltb.
  destruct x as [sx|sx| |sx mx ex], y as [sy|sy| |sy my ey], z as [sz|sz| |sz mz ez];
    simpl; try discriminate; try reflexivity;
    repeat match goal with s : bool |- _ => destruct s end;
    simpl; try discriminate; try reflexivity.
  all: change (Pos.compare_cont Eq) with Pos.compare.
  all: repeat match goal with
         | |- context [(?a ?= ?b)%Z] => destruct (Z.compare_spec a b); subst
         | |- context [(?a ?= ?b)%positive] => destruct (Pos.compare_spec a b); subst
         end; simpl; try discriminate; try reflexivity; intros; try lia.
Qed.

(** [a <= b] and [b <= c] exclude [c < a]. *)
Lemma le_le_not_lt (a b c : float) :
  JS.le a b = true -> JS.le b c = true -> JS.lt c a = false.
Proof.
  unfold JS.le, JS.lt. rewrite !leb_spec, ltb_spec. apply SFleb_trans_not_ltb.
Qed.

(** *** Stock status *)

Section StockStatus.
Import Utils.

(** C3, as the code has it: the status is [bajo] exactly when
    [stock < minimum]; it is [alto] exactly when [stock >= maximum] and the
    stock is not below the minimum (the low test comes first); it is
    [correcto] in every other case.  With [minimum <= maximum] the status is
    [alto] exactly when [stock >= maximum].  With minimum 10 and maximum 100,
    10 is [correcto], 9 is [bajo], 100 is [alto] and 99 is [correcto]. *)
Theorem getStockStatus_boundaries (stock minimum maximum : float) :
  (getStockStatus stock minimum maximum = bajo <-> JS.lt stock minimum = true) /\
  (getStockStatus stock minimum maximum = alto <->
     JS.lt stock minimum = false /\ JS.ge stock maximum = true) /\
  (getStockStatus stock minimum maximum = correcto <->
     JS.lt stock minimum = false /\ JS.ge stock maximum = false) /\
  (JS.le minimum maximum = true ->
     (getStockStatus stock minimum maximum = alto <-> JS.ge stock maximum = true)) /\
  getStockStatus 10 10 100 = correcto /\
  getStockStatus 9 10 100 = bajo /\
  getStockStatus 100 10 100 = alto /\
  getStockStatus 99 10 100 = correcto.
Proof.
  assert (Hcases :
    (getStockStatus stock minimum maximum = bajo <-> JS.lt stock minimum = true) /\
    (getStockStatus stock minimum maximum = alto <->
       JS.lt stock minimum = false /\ JS.ge stock maximum = true) /\
    (getStockStatus stock minimum maximum = correcto <->
       JS.lt stock minimum = false /\ JS.ge stock maximum = false)).
  { unfold getStockStatus.
    destruct (JS.lt stock minimum), (JS.ge stock maximum);
      repeat split; intros; try discriminate; try reflexivity;
      repeat match goal with H : _ /\ _ |- _ => destruct H end; discriminate. }
  destruct Hcases as (Hb & Ha & Hc).
  split; [exact Hb|]. split; [exact Ha|]. split; [exact Hc|].
  split; [|repeat split].
  intros Hle. rewrite Ha. split; [intros [_ Hge]; exact Hge|].
  intros Hge. split; [|exact Hge].
  unfold JS.ge in Hge. exact (le_le_not_lt minimum maximum stock Hle Hge).
Qed.

Lemma getStockStatus_boundaries_witness :
  getStockStatus 100 10 100 = alto <-> JS.ge 100 100 = true.
Proof.
  apply (getStockStatus_boundaries 100 10 100). reflexivity.
Defined.

(** C3, the claim as stated fails: with minimum 100 and maximum 10 (the
    thresholds are free inputs), the stock 50 is at least the maximum and
    yet the status is [bajo], not [alto]. *)
Lemma getStockStatus_high_not_exact :
  JS.ge 50 10 = true /\ getStockStatus 50 100 10 = bajo /\ bajo <> alto.
Proof. repeat split. discriminate. Qed.

(** C2, at the boundary: a record whose stock equals the maximum (100, with
    minimum 10) is [alto] for [getStockStatus], while [handleCalculate]
    counts it in [productos_stock_correcto] and not in
    [productos_alto_stock], and [KPICards] counts it as healthy and not as
    excess. *)
Theorem aggregate_counts_at_maximum :
  getStockStatus 100 10 100 = alto /\
  (exists calc,
      Dashboard.handleCalculate [Examples.stockSheet] 10 100 = inr calc /\
      Dashboard.productos_bajo_stock calc = 0%nat /\
      Dashboard.productos_stock_correcto calc = 1%nat /\
      Dashboard.productos_alto_stock calc = 0%nat) /\
  Dashboard.criticalProducts
    (Dashboard.KPICards (Dashboard.getSpreadsheetDataForAI [Examples.stockSheet]) 10 100) = 0%nat /\
  Dashboard.healthyProducts
    (Dashboard.KPICards (Dashboard.getSpreadsheetDataForAI [Examples.stockSheet]) 10 100) = 1%nat /\
  Dashboard.excessProducts
    (Dashboard.KPICards (Dashboard.getSpreadsheetDataForAI [Examples.stockSheet]) 10 100) = 0%nat.
Proof.
  split; [reflexivity|]. split; [|repeat split; vm_compute; reflexivity].
  eexists. split; [vm_compute; reflexivity|]. repeat split.
Qed.

End StockStatus.

(** *** Sheets, columns and rows *)

Section SheetFacts.
Import Sheet.

Lemma map_fixed {A} (f : A -> A) (l : list A) :
  (forall x, In x l -> f x = x) -> map f l = l.
Proof.
  induction l as [|x l IH]; intros H; simpl; [reflexivity|].
  rewrite (H x (or_introl eq_refl)), IH; [reflexivity|].
  intros y Hy. apply H. right. exact Hy.
Qed.

Lemma filter_fixed {A} (p : A -> bool) (l : list A) :
  (forall x, In x l -> p x = true) -> List.filter p l = l.
Proof.
  induction l as [|x l IH]; intros H; simpl; [reflexivity|].
  rewrite (H x (or_introl eq_refl)), IH; [reflexivity|].
  intros y Hy. apply H. right. exact Hy.
Qed.

Lemma set_rows_same (s : DynamicSheet) : set_rows (sheet_rows s) s = s.
Proof. destruct s; reflexivity. Qed.

Lemma set_columns_same (s : DynamicSheet) : set_columns (sheet_columns s) s = s.
Proof. destruct s; reflexivity. Qed.

Lemma set_cells_same (r : Row) : set_cells (row_cells r) r = r.
Proof. destruct r; reflexivity. Qed.

(** A transformation that fixes every sheet carrying the active id leaves
    the state as it is. *)
Lemma mapActive_fixed (f : DynamicSheet -> DynamicSheet) (st : State) :
  (forall s, In s (sheets st) -> sheet_id s = activeSheetId st -> f s = s) ->
  mapActive f st = st.
Proof.
  intros H. destruct st as [sh act]. unfold mapActive. simpl in *.
  f_equal. apply map_fixed. intros s Hs.
  destruct (String.eqb (sheet_id s) act) eqn:E; [|reflexivity].
  apply H; [exact Hs|]. apply String.eqb_eq. exact E.
Qed.

Lemma mapActive_ids (f : DynamicSheet -> DynamicSheet) (st : State) :
  (forall s, sheet_id (f s) = sheet_id s) ->
  map sheet_id (sheets (mapActive f st)) = map sheet_id (sheets st).
Proof.
  intros H. unfold mapActive. simpl. rewrite map_map. apply map_ext.
  intros s. destruct (String.eqb (sheet_id s) (activeSheetId st)); [apply H|reflexivity].
Qed.

(** The sheets of the result that carry the active id are images of sheets
    that carried it. *)
Lemma mapActive_active (f : DynamicSheet -> DynamicSheet) (st : State) (s' : DynamicSheet) :
  In s' (sheets (mapActive f st)) ->
  sheet_id s' = activeSheetId st ->
  exists s, In s (sheets st) /\ sheet_id s = activeSheetId st /\ s' = f s.
Proof.
  unfold mapActive. simpl. intros Hin Hid.
  apply in_map_iff in Hin. destruct Hin as (s & Hs & Hin).
  destruct (String.eqb (sheet_id s) (activeSheetId st)) eqn:E.
  - exists s. apply String.eqb_eq in E. auto.
  - apply String.eqb_neq in E. subst s'. contradiction.
Qed.

Lemma in_splice_insert_new {A} (start : Z) (x : A) (l : list A) :
  In x (splice_insert start x l).
Proof. unfold splice_insert. apply in_or_app. right. left. reflexivity. Qed.

Lemma in_splice_insert_old {A} (start : Z) (x y : A) (l : list A) :
  In y l -> In y (splice_insert start x l).
Proof.
  unfold splice_insert. intros H.
  set (n := Z.to_nat _).
  rewrite <- (take_drop n l) in H. apply in_app_or in H.
  apply in_or_app. destruct H; [left|right; right]; assumption.
Qed.

(** An id that no element carries is not found, so the insertion position
    [idx + 1] is the front of the array. *)
Lemma findIndex_none {A} (p : A -> bool) (l : list A) :
  (forall x, In x l -> p x = false) -> findIndex p l = -1.
Proof.
  induction l as [|x l IH]; intros H; simpl; [reflexivity|].
  rewrite (H x (or_introl eq_refl)), IH; [reflexivity|].
  intros y Hy. apply H. right. exact Hy.
Qed.

Lemma activeSheet_in (st : State) (active : DynamicSheet) :
  activeSheet st = Some active -> In active (sheets st).
Proof.
  unfold activeSheet. destruct (List.find _ _) eqn:E.
  - intros [= <-]. apply find_some in E. tauto.
  - destruct (sheets st); simpl; [discriminate|]. intros [= <-]. left. reflexivity.
Qed.

End SheetFacts.

Section ColumnOperations.
Import Sheet Invariant.

Lemma addColumn_rows (afterColumnId : option string) (now : N) (st : State)
    (active : DynamicSheet) :
  activeSheet st = Some active ->
  exists st',
    addColumn afterColumnId now st = Returned st' /\
    map sheet_id (sheets st') = map sheet_id (sheets st) /\
    forall s', In s' (sheets st') -> sheet_id s' = activeSheetId st ->
      In (newColumnFor now active) (sheet_columns s') /\
      (forall c, In c (sheet_columns active) -> In c (sheet_columns s')) /\
      map row_id (sheet_rows s') = map row_id (sheet_rows active) /\
      (forall r, In r (sheet_rows s') ->
         row_cells r !! column_id (newColumnFor now active) = Some CNull) /\
      (cells_within_columns active -> cells_within_columns s').
Proof.
  intros Hact. unfold addColumn. rewrite Hact.
  eexists. split; [reflexivity|]. split; [apply mapActive_ids; reflexivity|].
  intros s' Hin Hid.
  destruct (mapActive_active _ _ _ Hin Hid) as (s & _ & _ & ->). simpl.
  set (c := newColumnFor now active).
  assert (Hnew : In c
    match given afterColumnId with
    | Some after =>
        splice_insert
          (findIndex (fun c0 => String.eqb (column_id c0) after) (sheet_columns active) + 1)
          c (sheet_columns active)
    | None => sheet_columns active ++ [c]
    end).
  { destruct (given afterColumnId).
    - apply in_splice_insert_new.
    - apply in_or_app. right. left. reflexivity. }
  assert (Hold : forall c0, In c0 (sheet_columns active) -> In c0
    match given afterColumnId with
    | Some after =>
        splice_insert
          (findIndex (fun c0 => String.eqb (column_id c0) after) (sheet_columns active) + 1)
          c (sheet_columns active)
    | None => sheet_columns active ++ [c]
    end).
  { intros c0 Hc0. destruct (given afterColumnId).
    - apply in_splice_insert_old. exact Hc0.
    - apply in_or_app. left. exact Hc0. }
  split; [exact Hnew|]. split; [exact Hold|].
  split; [rewrite map_map; reflexivity|].
  split.
  - intros r Hr. apply in_map_iff in Hr. destruct Hr as (r0 & <- & _).
    simpl. apply lookup_insert_eq.
  - intros Hinv r Hr k Hk. simpl in *.
    apply in_map_iff in Hr. destruct Hr as (r0 & <- & Hr0). simpl in Hk.
    destruct (decide (column_id c = k)) as [<-|Hne].
    + apply in_map. exact Hnew.
    + rewrite lookup_insert_ne in Hk by exact Hne.
      specialize (Hinv r0 Hr0 k Hk).
      apply in_map_iff in Hinv. destruct Hinv as (c0 & <- & Hc0).
      apply in_map. apply Hold. exact Hc0.
Qed.

Lemma deleteColumn_rows (columnId : string) (st : State) (active : DynamicSheet) :
  activeSheet st = Some active ->
  (1 < length (sheet_columns active))%nat ->
  exists st',
    deleteColumn columnId st = Returned st' /\
    map sheet_id (sheets st') = map sheet_id (sheets st) /\
    forall s', In s' (sheets st') -> sheet_id s' = activeSheetId st ->
      (forall c, In c (sheet_columns s') <->
                 In c (sheet_columns active) /\ column_id c <> columnId) /\
      map row_id (sheet_rows s') = map row_id (sheet_rows active) /\
      (forall r, In r (sheet_rows s') -> row_cells r !! columnId = None) /\
      (cells_within_columns active -> cells_within_columns s').
Proof.
  intros Hact Hlen. unfold deleteColumn. rewrite Hact.
  destruct (length (sheet_columns active) <=? 1)%nat eqn:E.
  { apply Nat.leb_le in E. lia. }
  eexists. split; [reflexivity|]. split; [apply mapActive_ids; reflexivity|].
  intros s' Hin Hid.
  destruct (mapActive_active _ _ _ Hin Hid) as (s & _ & _ & ->). simpl.
  assert (Hcols : forall c,
    In c (List.filter (fun c0 => negb (String.eqb (column_id c0) columnId))
                      (sheet_columns active)) <->
    In c (sheet_columns active) /\ column_id c <> columnId).
  { intros c. rewrite filter_In, negb_true_iff, String.eqb_neq. reflexivity. }
  split; [exact Hcols|].
  split; [rewrite map_map; reflexivity|].
  split.
  - intros r Hr. apply in_map_iff in Hr. destruct Hr as (r0 & <- & _).
    simpl. apply lookup_delete_eq.
  - intros Hinv r Hr k Hk. simpl in *.
    apply in_map_iff in Hr. destruct Hr as (r0 & <- & Hr0). simpl in Hk.
    destruct (decide (columnId = k)) as [<-|Hne].
    + rewrite lookup_delete_eq in Hk. destruct Hk as [? Hk]. discriminate.
    + rewrite lookup_delete_ne in Hk by exact Hne.
      specialize (Hinv r0 Hr0 k Hk).
      apply in_map_iff in Hinv. destruct Hinv as (c0 & <- & Hc0).
      apply in_map. apply Hcols. split; [exact Hc0|]. congruence.
Qed.

(** C1: inserting and deleting a column keep the rows in step with the
    column list within the one state transition.  For a state whose active
    sheet is [active]: [addColumn] returns, and in the result every sheet
    carrying the active id lists the new column beside the former ones, keeps
    the rows of [active] (same ids, same order), each with the key of the new
    column present and holding [null]; when [active] has more than one
    column [deleteColumn] returns, and in the result every sheet carrying
    the active id lists the columns of [active] but those of the deleted id,
    keeps the rows, and none of them has the deleted key.  Both preserve
    the invariant that the keys of the cell maps are ids of columns. *)
Theorem column_ops_keep_rows_in_step (st : State) (active : DynamicSheet) :
  activeSheet st = Some active ->
  (forall afterColumnId now, exists st',
      addColumn afterColumnId now st = Returned st' /\
      map sheet_id (sheets st') = map sheet_id (sheets st) /\
      forall s', In s' (sheets st') -> sheet_id s' = activeSheetId st ->
        In (newColumnFor now active) (sheet_columns s') /\
        (forall c, In c (sheet_columns active) -> In c (sheet_columns s')) /\
        map row_id (sheet_rows s') = map row_id (sheet_rows active) /\
        (forall r, In r (sheet_rows s') ->
           row_cells r !! column_id (newColumnFor now active) = Some CNull) /\
        (cells_within_columns active -> cells_within_columns s')) /\
  (forall columnId, (1 < length (sheet_columns active))%nat -> exists st',
      deleteColumn columnId st = Returned st' /\
      map sheet_id (sheets st') = map sheet_id (sheets st) /\
      forall s', In s' (sheets st') -> sheet_id s' = activeSheetId st ->
        (forall c, In c (sheet_columns s') <->
                   In c (sheet_columns active) /\ column_id c <> columnId) /\
        map row_id (sheet_rows s') = map row_id (sheet_rows active) /\
        (forall r, In r (sheet_rows s') -> row_cells r !! columnId = None) /\
        (cells_within_columns active -> cells_within_columns s')).
Proof.
  intros Hact. split.
  - intros afterColumnId now. apply addColumn_rows. exact Hact.
  - intros columnId Hlen. apply deleteColumn_rows; assumption.
Qed.

Lemma column_ops_keep_rows_in_step_witness :
  (exists st', addColumn (Some "a") 7 Examples.state1 = Returned st') /\
  (exists st', deleteColumn "b" Examples.state1 = Returned st').
Proof.
  destruct (column_ops_keep_rows_in_step Examples.state1 Examples.sheet1 eq_refl)
    as [Hadd Hdel].
  split.
  - destruct (Hadd (Some "a") 7%N) as (st' & H & _). exists st'. exact H.
  - destruct (Hdel "b") as (st' & H & _); [simpl; lia|]. exists st'. exact H.
Defined.

End ColumnOperations.

Section Protection.
Import Sheet.

(** C5: [deleteSheet] on a workbook of exactly one sheet returns with the
    state as it was, whatever the id; such a workbook always has an active
    sheet; and [deleteColumn] on an active sheet of exactly one column
    returns with the state, hence that sheet's columns and rows, as it was.
    Neither throws. *)
Theorem last_sheet_and_last_column_protected :
  (forall st sheetId, length (sheets st) = 1%nat -> deleteSheet sheetId st = Returned st) /\
  (forall st s, sheets st = [s] -> activeSheet st = Some s) /\
  (forall st active columnId,
      activeSheet st = Some active ->
      length (sheet_columns active) = 1%nat ->
      deleteColumn columnId st = Returned st).
Proof.
  split; [|split].
  - intros st sheetId Hlen. unfold deleteSheet. rewrite Hlen. reflexivity.
  - intros st s Hs. unfold activeSheet. rewrite Hs. simpl.
    destruct (String.eqb (sheet_id s) (activeSheetId st)); reflexivity.
  - intros st active columnId Hact Hlen. unfold deleteColumn.
    rewrite Hact, Hlen. reflexivity.
Qed.

Lemma last_sheet_and_last_column_protected_witness :
  deleteSheet "s1" Examples.stateOneColumn = Returned Examples.stateOneColumn /\
  deleteColumn "a" Examples.stateOneColumn = Returned Examples.stateOneColumn.
Proof.
  destruct last_sheet_and_last_column_protected as (Hsheet & Hactive & Hcolumn).
  split.
  - apply Hsheet. reflexivity.
  - apply (Hcolumn _ Examples.sheetOneColumn).
    + apply Hactive. reflexivity.
    + reflexivity.
Defined.

(** With an [afterColumnId] that is given and names no column of the active
    sheet, [findIndex] answers [-1] and the new column is spliced in at
    position 0. *)
Lemma addColumn_unknown_after (after : string) (now : N) (st : State)
    (active : DynamicSheet) :
  activeSheet st = Some active ->
  after <> "" ->
  (forall c, In c (sheet_columns active) -> column_id c <> after) ->
  exists st',
    addColumn (Some after) now st = Returned st' /\
    forall s', In s' (sheets st') -> sheet_id s' = activeSheetId st ->
      sheet_columns s' = newColumnFor now active :: sheet_columns active.
Proof.
  intros Hact Hne Hunknown. unfold addColumn. rewrite Hact.
  eexists. split; [reflexivity|]. intros s' Hin Hid.
  destruct (mapActive_active _ _ _ Hin Hid) as (s & _ & _ & ->). simpl.
  apply String.eqb_neq in Hne. rewrite Hne.
  rewrite findIndex_none.
  - unfold splice_insert. simpl.
    destruct (sheet_columns active); reflexivity.
  - intros c Hc. apply String.eqb_neq. apply Hunknown. exact Hc.
Qed.

(** C7, on the sheet with the columns [a] and [b]: [addColumn("zzz")], an id
    that names none of them, puts the new column first, not last. *)
Theorem addColumn_unknown_after_goes_first :
  exists st' s',
    addColumn (Some "zzz") 7 Examples.state1 = Returned st' /\
    sheets st' = [s'] /\
    map column_id (sheet_columns s') = ["col-7"; "a"; "b"] /\
    last (map column_id (sheet_columns s')) = Some "b".
Proof. do 2 eexists. repeat split. Qed.

End Protection.

Section CellEdits.
Import Sheet.

Lemma updateCell_rows (rowId columnId : string) (value : CellValue) (st : State) :
  exists st',
    updateCell rowId columnId value st = Returned st' /\
    map sheet_id (sheets st') = map sheet_id (sheets st) /\
    forall s', In s' (sheets st') -> sheet_id s' = activeSheetId st ->
      exists s, In s (sheets st) /\ sheet_id s = activeSheetId st /\
        sheet_columns s' = sheet_columns s /\
        map row_id (sheet_rows s') = map row_id (sheet_rows s) /\
        (forall r', In r' (sheet_rows s') -> row_id r' = rowId ->
           row_cells r' !! columnId = Some value) /\
        (forall r', In r' (sheet_rows s') -> row_id r' <> rowId -> In r' (sheet_rows s)).
Proof.
  unfold updateCell. eexists. split; [reflexivity|].
  split; [apply mapActive_ids; reflexivity|].
  intros s' Hin Hid.
  destruct (mapActive_active _ _ _ Hin Hid) as (s & Hs & Hsid & ->).
  exists s. split; [exact Hs|]. split; [exact Hsid|]. simpl.
  split; [reflexivity|]. split; [|split].
  - rewrite map_map. apply map_ext. intros r.
    destruct (String.eqb (row_id r) rowId); reflexivity.
  - intros r' Hr' Hrid. apply in_map_iff in Hr'. destruct Hr' as (r & <- & _).
    destruct (String.eqb (row_id r) rowId) eqn:E.
    + simpl. apply lookup_insert_eq.
    + apply String.eqb_neq in E. contradiction.
  - intros r' Hr' Hrid. apply in_map_iff in Hr'. destruct Hr' as (r & <- & Hr).
    destruct (String.eqb (row_id r) rowId) eqn:E.
    + simpl in Hrid. apply String.eqb_eq in E. contradiction.
    + exact Hr.
Qed.

(** What the cell [<input>] of a number column passes to [updateCell] is
    [null] or a number that is neither zero nor [NaN]. *)
Lemma numberOrNull_cases (input : string) :
  (numberOrNull input = CNull /\
   (PrimFloat.is_zero (JS.Number (JS.VStr input)) = true \/
    JS.isNaN (JS.Number (JS.VStr input)) = true)) \/
  (numberOrNull input = CNum (JS.Number (JS.VStr input)) /\
   PrimFloat.is_zero (JS.Number (JS.VStr input)) = false /\
   JS.isNaN (JS.Number (JS.VStr input)) = false).
Proof.
  unfold numberOrNull, JS.truthy, JS.isNaN.
  destruct (PrimFloat.is_zero _), (PrimFloat.is_nan _); simpl; auto.
Qed.

(** C4: for an input that does not convert to a number ([Number(input)] is
    [NaN]), the [onChange] handler of a cell of a number column passes
    [null] to [updateCell]; the handler returns, and in the result every row
    of the active sheet with the id of the edited row holds [null] under the
    column's key: neither [NaN] nor the input string. *)
Theorem non_numeric_input_stores_null (st : State) (row : Row) (col : Column)
    (input : string) :
  column_type col = number ->
  JS.isNaN (JS.Number (JS.VStr input)) = true ->
  numberOrNull input = CNull /\
  exists st',
    cellOnChange row col input st = Returned st' /\
    map sheet_id (sheets st') = map sheet_id (sheets st) /\
    forall s', In s' (sheets st') -> sheet_id s' = activeSheetId st ->
      exists s, In s (sheets st) /\ sheet_id s = activeSheetId st /\
        map row_id (sheet_rows s') = map row_id (sheet_rows s) /\
        forall r', In r' (sheet_rows s') -> row_id r' = row_id row ->
          row_cells r' !! column_id col = Some CNull.
Proof.
  intros Hty Hnan.
  assert (Hnull : numberOrNull input = CNull).
  { destruct (numberOrNull_cases input) as [[H _]|(_ & _ & H)]; [exact H|congruence]. }
  split; [exact Hnull|].
  unfold cellOnChange. rewrite Hty, Hnull.
  destruct (updateCell_rows (row_id row) (column_id col) CNull st) as (st' & Hret & Hids & Hrows).
  exists st'. split; [exact Hret|]. split; [exact Hids|].
  intros s' Hin Hid. destruct (Hrows s' Hin Hid) as (s & Hs & Hsid & _ & Hrid & Hcell & _).
  exists s. auto.
Qed.

Lemma non_numeric_input_stores_null_witness :
  numberOrNull "abc" = CNull /\
  exists st', cellOnChange Examples.row1 (mkColumn "b" "B" number) "abc" Examples.state1
              = Returned st'.
Proof.
  destruct (non_numeric_input_stores_null Examples.state1 Examples.row1
              (mkColumn "b" "B" number) "abc" eq_refl eq_refl) as (Hnull & st' & Hret & _).
  split; [exact Hnull|]. exists st'. exact Hret.
Defined.

(** C10: an input whose conversion is zero ([+0] or [-0]) makes the
    [onChange] handler of a number column pass [null], as do the inputs
    ["0"], ["0.0"] and the empty string; a number the handler passes is never
    zero; so after the handler returns, a row with the edited id holds
    [null] under the column's key for such an input, and whatever the input
    it never holds the number 0 there. *)
Theorem zero_input_stores_null :
  (forall input, PrimFloat.is_zero (JS.Number (JS.VStr input)) = true ->
                 numberOrNull input = CNull) /\
  numberOrNull "0" = CNull /\ numberOrNull "0.0" = CNull /\ numberOrNull "" = CNull /\
  (forall input f, numberOrNull input = CNum f -> PrimFloat.is_zero f = false) /\
  (forall st row col input,
      column_type col = number ->
      PrimFloat.is_zero (JS.Number (JS.VStr input)) = true ->
      exists st',
        cellOnChange row col input st = Returned st' /\
        forall s' r', In s' (sheets st') -> sheet_id s' = activeSheetId st ->
          In r' (sheet_rows s') -> row_id r' = row_id row ->
          row_cells r' !! column_id col = Some CNull) /\
  (forall st row col input st' s' r' f,
      column_type col = number ->
      cellOnChange row col input st = Returned st' ->
      In s' (sheets st') -> sheet_id s' = activeSheetId st ->
      In r' (sheet_rows s') -> row_id r' = row_id row ->
      row_cells r' !! column_id col = Some (CNum f) ->
      PrimFloat.is_zero f = false).
Proof.
  assert (Hzero : forall input, PrimFloat.is_zero (JS.Number (JS.VStr input)) = true ->
                                numberOrNull input = CNull).
  { intros input Hz.
    destruct (numberOrNull_cases input) as [[H _]|(_ & H & _)]; [exact H|congruence]. }
  assert (Hnum : forall input f, numberOrNull input = CNum f -> PrimFloat.is_zero f = false).
  { intros input f Hf.
    destruct (numberOrNull_cases input) as [[H _]|(H & Hz & _)]; congruence. }
  split; [exact Hzero|]. do 3 (split; [reflexivity|]). split; [exact Hnum|]. split.
  - intros st row col input Hty Hz. unfold cellOnChange. rewrite Hty, (Hzero input Hz).
    destruct (updateCell_rows (row_id row) (column_id col) CNull st) as (st' & Hret & _ & Hrows).
    exists st'. split; [exact Hret|]. intros s' r' Hin Hid Hr' Hrid.
    destruct (Hrows s' Hin Hid) as (s & _ & _ & _ & _ & Hcell & _). auto.
  - intros st row col input st' s' r' f Hty Hret Hin Hid Hr' Hrid Hcell.
    unfold cellOnChange in Hret. rewrite Hty in Hret.
    destruct (updateCell_rows (row_id row) (column_id col) (numberOrNull input) st)
      as (st'' & Hret' & _ & Hrows).
    rewrite Hret' in Hret. injection Hret as ->.
    destruct (Hrows s' Hin Hid) as (s & _ & _ & _ & _ & Hwritten & _).
    rewrite (Hwritten r' Hr' Hrid) in Hcell. injection Hcell as Hcell.
    exact (Hnum input f Hcell).
Qed.

Lemma zero_input_stores_null_witness :
  exists st', cellOnChange Examples.row1 (mkColumn "b" "B" number) "-0.00" Examples.state1
              = Returned st'.
Proof.
  destruct zero_input_stores_null as (_ & _ & _ & _ & _ & Hedit & _).
  destruct (Hedit Examples.state1 Examples.row1 (mkColumn "b" "B" number) "-0.00"
              eq_refl eq_refl) as (st' & Hret & _).
  exists st'. exact Hret.
Defined.

End CellEdits.

Section UnknownIds.
Import Sheet Invariant.

Lemma NoDup_map_eq {A B} (f : A -> B) (l : list A) (a b : A) :
  NoDup (map f l) -> In a l -> In b l -> f a = f b -> a = b.
Proof.
  induction l as [|x l IH]; simpl; intros Hnd Ha Hb Hf; [contradiction|].
  inversion Hnd as [|y l' Hnotin Hnd']; subst.
  destruct Ha as [->|Ha], Hb as [->|Hb].
  - reflexivity.
  - exfalso. apply Hnotin. rewrite Hf. apply list_elem_of_In, in_map. exact Hb.
  - exfalso. apply Hnotin. rewrite <- Hf. apply list_elem_of_In, in_map. exact Ha.
  - apply IH; assumption.
Qed.

(** With distinct sheet ids, the active sheet is the only sheet that can
    carry the active id. *)
Lemma activeSheet_unique (st : State) (active s : DynamicSheet) :
  NoDup (map sheet_id (sheets st)) ->
  activeSheet st = Some active ->
  In s (sheets st) -> sheet_id s = activeSheetId st -> s = active.
Proof.
  intros Hnd Hact Hs Hid. unfold activeSheet in Hact.
  destruct (List.find _ _) eqn:E.
  - injection Hact as ->. apply find_some in E. destruct E as [Hin E].
    apply String.eqb_eq in E.
    apply (NoDup_map_eq sheet_id (sheets st)); [assumption..|congruence].
  - exfalso. apply (find_none _ _ E) in Hs. apply String.eqb_neq in Hs. contradiction.
Qed.

Lemma stale_active_fixed (f : DynamicSheet -> DynamicSheet) (st : State) :
  stale_active st -> mapActive f st = st.
Proof.
  intros Hstale. apply mapActive_fixed. intros s Hs Hid.
  exfalso. exact (Hstale s Hs Hid).
Qed.

Lemma stale_active_has_sheet (st : State) :
  sheets st <> [] -> exists active, activeSheet st = Some active.
Proof.
  intros Hne. unfold activeSheet. destruct (List.find _ _); [eauto|].
  destruct (sheets st); [contradiction|]. simpl. eauto.
Qed.

(** C8, as the code has it.  An id that the state does not know makes each
    of these mutations return with the sheets as they were: [deleteSheet]
    and [renameSheet] for an unknown sheet id; [deleteRow], [updateCell]
    and [toggleSelectRow] for an unknown row id; [renameColumn] and
    [toggleColumnType] for an unknown column id; [deleteColumn] for an
    unknown column id when sheet ids are distinct and no row of the active
    sheet holds the key; and, when no sheet carries the active id and the
    workbook is not empty, every row, column and cell mutation.  A cell write
    to a row that exists stores the value under the given key, whether or
    not the key is the id of a column. *)
Theorem unknown_ids_leave_sheets (st : State) :
  (forall sheetId, unknown_sheet st sheetId ->
     exists st', deleteSheet sheetId st = Returned st' /\ sheets st' = sheets st) /\
  (forall sheetId newName, unknown_sheet st sheetId ->
     renameSheet sheetId newName st = Returned st) /\
  (forall rowId, unknown_row st rowId -> deleteRow rowId st = Returned st) /\
  (forall rowId columnId value, unknown_row st rowId ->
     updateCell rowId columnId value st = Returned st) /\
  (forall rowId, unknown_row st rowId -> toggleSelectRow rowId st = Returned st) /\
  (forall columnId newName, unknown_column st columnId ->
     renameColumn columnId newName st = Returned st) /\
  (forall columnId, unknown_column st columnId ->
     toggleColumnType columnId st = Returned st) /\
  (forall columnId active,
     activeSheet st = Some active ->
     NoDup (map sheet_id (sheets st)) ->
     unknown_column st columnId ->
     (forall r, In r (sheet_rows active) -> row_cells r !! columnId = None) ->
     deleteColumn columnId st = Returned st) /\
  (stale_active st -> sheets st <> [] ->
     (forall rowId columnId value, updateCell rowId columnId value st = Returned st) /\
     (forall rowId, deleteRow rowId st = Returned st) /\
     (forall rowId, toggleSelectRow rowId st = Returned st) /\
     toggleSelectAll st = Returned st /\
     (forall afterRowId now, addRow afterRowId now st = Returned st) /\
     (forall columnId newName, renameColumn columnId newName st = Returned st) /\
     (forall columnId, toggleColumnType columnId st = Returned st) /\
     (forall afterColumnId now, addColumn afterColumnId now st = Returned st) /\
     (forall columnId, deleteColumn columnId st = Returned st)) /\
  (forall rowId columnId value, exists st',
     updateCell rowId columnId value st = Returned st' /\
     forall s' r', In s' (sheets st') -> sheet_id s' = activeSheetId st ->
       In r' (sheet_rows s') -> row_id r' = rowId ->
       row_cells r' !! columnId = Some value).
Proof.
  repeat apply conj.
  - intros sheetId Hunk. unfold deleteSheet.
    destruct (length (sheets st) <=? 1)%nat eqn:Hlen; [eauto|].
    rewrite filter_fixed.
    2:{ intros s Hs. apply negb_true_iff, String.eqb_neq, Hunk, Hs. }
    destruct (String.eqb (activeSheetId st) sheetId); [|eauto].
    destruct (sheets st) eqn:E; [discriminate Hlen|eauto].
  - intros sheetId newName Hunk. unfold renameSheet. f_equal.
    destruct st as [sh act]. simpl in *. f_equal. apply map_fixed.
    intros s Hs. specialize (Hunk s Hs). apply String.eqb_neq in Hunk.
    rewrite Hunk. reflexivity.
  - intros rowId Hunk. unfold deleteRow. f_equal. apply mapActive_fixed.
    intros s Hs Hid. rewrite filter_fixed; [apply set_rows_same|].
    intros r Hr. apply negb_true_iff, String.eqb_neq. exact (Hunk s Hs Hid r Hr).
  - intros rowId columnId value Hunk. unfold updateCell. f_equal. apply mapActive_fixed.
    intros s Hs Hid. rewrite map_fixed; [apply set_rows_same|].
    intros r Hr. specialize (Hunk s Hs Hid r Hr). apply String.eqb_neq in Hunk.
    rewrite Hunk. reflexivity.
  - intros rowId Hunk. unfold toggleSelectRow. f_equal. apply mapActive_fixed.
    intros s Hs Hid. rewrite map_fixed; [apply set_rows_same|].
    intros r Hr. specialize (Hunk s Hs Hid r Hr). apply String.eqb_neq in Hunk.
    rewrite Hunk. reflexivity.
  - intros columnId newName Hunk. unfold renameColumn. f_equal. apply mapActive_fixed.
    intros s Hs Hid. rewrite map_fixed; [apply set_columns_same|].
    intros c Hc. specialize (Hunk s Hs Hid c Hc). apply String.eqb_neq in Hunk.
    rewrite Hunk. reflexivity.
  - intros columnId Hunk. unfold toggleColumnType. f_equal. apply mapActive_fixed.
    intros s Hs Hid. rewrite map_fixed; [apply set_columns_same|].
    intros c Hc. specialize (Hunk s Hs Hid c Hc). apply String.eqb_neq in Hunk.
    rewrite Hunk. reflexivity.
  - intros columnId active Hact Hnd Hunk Hkeys. unfold deleteColumn. rewrite Hact.
    destruct (length (sheet_columns active) <=? 1)%nat; [reflexivity|].
    f_equal. apply mapActive_fixed. intros s Hs Hid.
    assert (s = active) as -> by exact (activeSheet_unique st active s Hnd Hact Hs Hid).
    rewrite filter_fixed.
    2:{ intros c Hc. apply negb_true_iff, String.eqb_neq. exact (Hunk active Hs Hid c Hc). }
    rewrite map_fixed.
    2:{ intros r Hr. rewrite delete_id by (apply Hkeys; exact Hr). apply set_cells_same. }
    rewrite set_columns_same. apply set_rows_same.
  - intros Hstale Hne. repeat apply conj.
    + intros rowId columnId value. unfold updateCell. f_equal. apply stale_active_fixed, Hstale.
    + intros rowId. unfold deleteRow. f_equal. apply stale_active_fixed, Hstale.
    + intros rowId. unfold toggleSelectRow. f_equal. apply stale_active_fixed, Hstale.
    + destruct (stale_active_has_sheet st Hne) as [active Hact].
      unfold toggleSelectAll. rewrite Hact. f_equal. apply stale_active_fixed, Hstale.
    + intros afterRowId now. destruct (stale_active_has_sheet st Hne) as [active Hact].
      unfold addRow. rewrite Hact. f_equal. apply stale_active_fixed, Hstale.
    + intros columnId newName. unfold renameColumn. f_equal. apply stale_active_fixed, Hstale.
    + intros columnId. unfold toggleColumnType. f_equal. apply stale_active_fixed, Hstale.
    + intros afterColumnId now. destruct (stale_active_has_sheet st Hne) as [active Hact].
      unfold addColumn. rewrite Hact. f_equal. apply stale_active_fixed, Hstale.
    + intros columnId. destruct (stale_active_has_sheet st Hne) as [active Hact].
      unfold deleteColumn. rewrite Hact.
      destruct (length (sheet_columns active) <=? 1)%nat; [reflexivity|].
      f_equal. apply stale_active_fixed, Hstale.
  - intros rowId columnId value.
    destruct (updateCell_rows rowId columnId value st) as (st' & Hret & _ & Hrows).
    exists st'. split; [exact Hret|]. intros s' r' Hin Hid Hr' Hrid.
    destruct (Hrows s' Hin Hid) as (s & _ & _ & _ & _ & Hcell & _). auto.
Qed.

Lemma unknown_ids_leave_sheets_witness :
  updateCell "nope" "a" (CStr "v") Examples.state1 = Returned Examples.state1 /\
  deleteRow "nope" Examples.state1 = Returned Examples.state1 /\
  updateCell "r1" "a" (CStr "v") Examples.state2 = Returned Examples.state2.
Proof.
  destruct (unknown_ids_leave_sheets Examples.state1)
    as (_ & _ & HdeleteRow & HupdateCell & _).
  destruct (unknown_ids_leave_sheets Examples.state2)
    as (_ & _ & _ & HupdateCell2 & _).
  assert (Hrow : unknown_row Examples.state1 "nope").
  { intros s [<-|[]] _ r [<-|[]]. discriminate. }
  assert (Hrow2 : unknown_row Examples.state2 "r1").
  { intros s [<-|[<-|[]]] Hid r Hr; [discriminate Hid|destruct Hr]. }
  split; [|split].
  - apply HupdateCell. exact Hrow.
  - apply HdeleteRow. exact Hrow.
  - apply HupdateCell2. exact Hrow2.
Defined.

(** C8, the claim as stated fails: on the sheet with the columns [a] and
    [b], a cell write to the row [r1] under the id [ghost], which names no
    column, does not leave the row as it was: the key [ghost] is added to
    its cell map. *)
Lemma updateCell_unknown_column_adds_key :
  forallb (fun c => negb (String.eqb (column_id c) "ghost"))
          (sheet_columns Examples.sheet1) = true /\
  row_cells Examples.row1 !! "ghost" = None /\
  exists st' s' r',
    updateCell "r1" "ghost" (CStr "v") Examples.state1 = Returned st' /\
    sheets st' = [s'] /\ sheet_rows s' = [r'] /\
    row_cells r' !! "ghost" = Some (CStr "v") /\
    st' <> Examples.state1.
Proof.
  split; [reflexivity|]. split; [reflexivity|].
  do 3 eexists. split; [reflexivity|]. split; [reflexivity|]. split; [reflexivity|].
  split; [reflexivity|].
  intros H.
  apply (f_equal (fun st => match sheets st with
                            | [s] => match sheet_rows s with
                                     | [r] => row_cells r !! "ghost"
                                     | _ => None
                                     end
                            | _ => None
                            end)) in H.
  vm_compute in H. discriminate H.
Qed.

End UnknownIds.

(** *** Import *)

Section ImportFacts.
Import Sheet Excel.

Lemma sampleWindow_take (rawRows : list (list JS.Value)) :
  sampleWindow rawRows = take 10 rawRows.
Proof.
  unfold sampleWindow.
  destruct (Nat.le_gt_cases (length rawRows) 10) as [Hle|Hgt].
  - rewrite Nat.min_l by exact Hle.
    rewrite !take_ge by lia. reflexivity.
  - rewrite Nat.min_r by lia. reflexivity.
Qed.

(** The loop over a sample, started with [isNumber = true]: it ends with
    [isNumber] still true exactly when no cell with a value fails to
    convert, and then [hasContent] tells whether some cell had a value; a
    cell that fails to convert ends it with [hasContent] true. *)
Lemma sampleLoop_true (sample : list (list JS.Value)) (colIndex : nat) (hasContent : bool) :
  sampleLoop sample colIndex true hasContent =
  if forallb (fun row => negb (hasValue (field row colIndex))
                         || negb (JS.isNaN (JS.Number (field row colIndex)))) sample
  then (true, hasContent || existsb (fun row => hasValue (field row colIndex)) sample)
  else (false, true).
Proof.
  revert hasContent. induction sample as [|row rest IH]; intros hasContent; simpl.
  - rewrite orb_false_r. reflexivity.
  - destruct (hasValue (field row colIndex)); simpl.
    + destruct (JS.isNaN (JS.Number (field row colIndex))); simpl; [reflexivity|].
      rewrite IH. rewrite orb_true_r. reflexivity.
    + rewrite IH. reflexivity.
Qed.

Lemma forallb_false_exists {A} (p : A -> bool) (l : list A) :
  forallb p l = false -> exists x, In x l /\ p x = false.
Proof.
  induction l as [|x l IH]; simpl; [discriminate|].
  destruct (p x) eqn:Hx; simpl.
  - intros H. destruct (IH H) as (y & Hy & Hpy). eauto.
  - intros _. eauto.
Qed.

Lemma existsb_false_forall {A} (p : A -> bool) (l : list A) :
  existsb p l = false -> forall x, In x l -> p x = false.
Proof.
  intros H x Hx. destruct (p x) eqn:Hpx; [|reflexivity].
  assert (existsb p l = true) by (apply existsb_exists; eauto). congruence.
Qed.

(** The inferred type as a test on the first ten rows. *)
Lemma detectType_test (rawRows : list (list JS.Value)) (colIndex : nat) :
  detectType rawRows colIndex =
  if existsb (fun row => hasValue (field row colIndex)) (take 10 rawRows)
     && forallb (fun row => negb (hasValue (field row colIndex))
                            || negb (JS.isNaN (JS.Number (field row colIndex))))
                (take 10 rawRows)
  then number else text.
Proof.
  unfold detectType. rewrite sampleLoop_true, sampleWindow_take.
  destruct (forallb _ (take 10 rawRows)); simpl.
  - rewrite andb_true_r. reflexivity.
  - rewrite andb_false_r. reflexivity.
Qed.

(** A cell counts in the sampling exactly when it is not [undefined], not
    [null] and not the empty text. *)
Lemma hasValue_true (v : JS.Value) :
  hasValue v = true <-> v <> JS.VUndefined /\ v <> JS.VNull /\ v <> JS.VStr "".
Proof.
  destruct v as [| |b|f|s]; simpl.
  - split; [discriminate|]. intros (H & _). contradiction.
  - split; [discriminate|]. intros (_ & H & _). contradiction.
  - split; [|reflexivity]. intros _. repeat split; discriminate.
  - split; [|reflexivity]. intros _. repeat split; discriminate.
  - rewrite negb_true_iff, String.eqb_neq. split.
    + intros H. repeat split; try discriminate. congruence.
    + intros (_ & _ & H) ->. contradiction.
Qed.

Lemma hasValue_false (v : JS.Value) :
  hasValue v = false <-> v = JS.VUndefined \/ v = JS.VNull \/ v = JS.VStr "".
Proof.
  destruct v as [| |b|f|s]; simpl.
  - split; auto.
  - split; auto.
  - split; [discriminate|]. intros [H|[H|H]]; discriminate H.
  - split; [discriminate|]. intros [H|[H|H]]; discriminate H.
  - rewrite negb_false_iff, String.eqb_eq. split.
    + intros ->. auto.
    + intros [H|[H|H]]; try discriminate H. congruence.
Qed.

(** C6: the type inferred for a column reads the first ten data rows at
    most; it is [number] exactly when some sampled cell is not empty (not
    [undefined], not [null], not the empty text) and every sampled cell that
    is not empty converts to a number ([Number] of it is not [NaN]); it is
    [text] exactly when every sampled cell is empty or some sampled cell that
    is not empty does not convert.  So a column of ["50"], a missing field,
    [null], the empty text, [7] and [true] is [number]; a column of one
    missing field is [text], and so is a column of [null] and the empty
    text; a column of ["50"] and ["abc"] is [text]; and a column whose first
    ten cells are numerals is [number] though its eleventh is ["abc"].  The table
    [[["Producto","Stock"],["A","50"],["B","abc"]]] is imported as one sheet
    whose columns are [Producto] and [Stock], both [text], with two rows;
    with [7] in place of ["abc"] the column [Stock] is [number]. *)
Theorem detectType_samples_ten_rows (rawRows : list (list JS.Value)) (colIndex : nat) :
  detectType rawRows colIndex = detectType (take 10 rawRows) colIndex /\
  (detectType rawRows colIndex = number <->
     (exists row, In row (take 10 rawRows) /\
        field row colIndex <> JS.VUndefined /\ field row colIndex <> JS.VNull /\
        field row colIndex <> JS.VStr "") /\
     (forall row, In row (take 10 rawRows) ->
        field row colIndex <> JS.VUndefined -> field row colIndex <> JS.VNull ->
        field row colIndex <> JS.VStr "" ->
        JS.isNaN (JS.Number (field row colIndex)) = false)) /\
  (detectType rawRows colIndex = text <->
     (forall row, In row (take 10 rawRows) ->
        field row colIndex = JS.VUndefined \/ field row colIndex = JS.VNull \/
        field row colIndex = JS.VStr "") \/
     (exists row, In row (take 10 rawRows) /\
        field row colIndex <> JS.VUndefined /\ field row colIndex <> JS.VNull /\
        field row colIndex <> JS.VStr "" /\
        JS.isNaN (JS.Number (field row colIndex)) = true)) /\
  detectType [[JS.VStr "50"]; []; [JS.VNull]; [JS.VStr ""]; [JS.VNum 7]; [JS.VBool true]] 0
  = number /\
  detectType [[]] 0 = text /\
  detectType [[JS.VNull]; [JS.VStr ""]] 0 = text /\
  detectType [[JS.VStr "50"]; [JS.VStr "abc"]] 0 = text /\
  detectType (map (fun s => [JS.VStr s]) ["1"; "2"; "3"; "4"; "5"; "6"; "7"; "8"; "9"; "10"]
              ++ [[JS.VStr "abc"]]) 0 = number /\
  (forall randomUUID sheetName n, exists sh n',
     parseExcelFile randomUUID (Some [(sheetName, Examples.productTable)]) n
       = (Resolved [sh], n') /\
     imported_sheet_name sh = sheetName /\
     imported_columns sh
       = [Some (mkImportedColumn ("col-" +:+ randomUUID n) (JS.VStr "Producto") text);
          Some (mkImportedColumn ("col-" +:+ randomUUID (S n)) (JS.VStr "Stock") text)] /\
     length (imported_rows sh) = 2%nat) /\
  (forall randomUUID sheetName n, exists sh n',
     parseExcelFile randomUUID (Some [(sheetName, Examples.numericTable)]) n
       = (Resolved [sh], n') /\
     imported_columns sh
       = [Some (mkImportedColumn ("col-" +:+ randomUUID n) (JS.VStr "Producto") text);
          Some (mkImportedColumn ("col-" +:+ randomUUID (S n)) (JS.VStr "Stock") number)]).
Proof.
  set (sample := take 10 rawRows).
  set (valued := fun row : list JS.Value => hasValue (field row colIndex)).
  set (converts := fun row : list JS.Value =>
         negb (hasValue (field row colIndex))
         || negb (JS.isNaN (JS.Number (field row colIndex)))).
  pose proof (detectType_test rawRows colIndex) as Htest.
  fold sample valued converts in Htest.
  assert (Hconv : forallb converts sample = true <->
            forall row, In row sample -> hasValue (field row colIndex) = true ->
                        JS.isNaN (JS.Number (field row colIndex)) = false).
  { rewrite forallb_forall. unfold converts. split.
    - intros H row Hrow Hval. specialize (H row Hrow). rewrite Hval in H.
      apply negb_true_iff. exact H.
    - intros H row Hrow. destruct (hasValue (field row colIndex)) eqn:Hval; [|reflexivity].
      rewrite (H row Hrow Hval). reflexivity. }
  split; [|split; [|split]].
  - rewrite (detectType_test (take 10 rawRows)), take_take. exact Htest.
  - rewrite Htest. split.
    + intros H. destruct (existsb valued sample) eqn:Hex; [|discriminate H].
      destruct (forallb converts sample) eqn:Hall; [|discriminate H].
      split.
      * apply existsb_exists in Hex. destruct Hex as (row & Hrow & Hval).
        exists row. split; [exact Hrow|]. apply hasValue_true. exact Hval.
      * intros row Hrow H1 H2 H3. apply (proj1 Hconv eq_refl row Hrow).
        apply hasValue_true. auto.
    + intros [(row & Hrow & Hval) Hall].
      assert (Hex : existsb valued sample = true).
      { apply existsb_exists. exists row. split; [exact Hrow|].
        apply hasValue_true. exact Hval. }
      assert (Hall' : forallb converts sample = true).
      { apply Hconv. intros row' Hrow' Hval'. apply hasValue_true in Hval'.
        destruct Hval' as (H1 & H2 & H3). auto. }
      rewrite Hex, Hall'. reflexivity.
  - rewrite Htest. split.
    + intros H. destruct (existsb valued sample) eqn:Hex.
      * destruct (forallb converts sample) eqn:Hall; [discriminate H|].
        right. apply forallb_false_exists in Hall. destruct Hall as (row & Hrow & Hbad).
        exists row. split; [exact Hrow|]. unfold converts in Hbad.
        apply orb_false_iff in Hbad. destruct Hbad as [Hval Hnan].
        apply negb_false_iff in Hval, Hnan. apply hasValue_true in Hval.
        destruct Hval as (H1 & H2 & H3). auto.
      * left. intros row Hrow. apply hasValue_false.
        exact (existsb_false_forall _ _ Hex row Hrow).
    + intros [Hnone|(row & Hrow & H1 & H2 & H3 & Hnan)].
      * destruct (existsb valued sample) eqn:Hex; [|reflexivity].
        apply existsb_exists in Hex. destruct Hex as (row & Hrow & Hval).
        unfold valued in Hval. rewrite (proj2 (hasValue_false _) (Hnone row Hrow)) in Hval.
        discriminate Hval.
      * assert (Hval : hasValue (field row colIndex) = true) by (apply hasValue_true; auto).
        destruct (forallb converts sample) eqn:Hall.
        -- rewrite (proj1 Hconv eq_refl row Hrow Hval) in Hnan. discriminate Hnan.
        -- rewrite andb_false_r. reflexivity.
  - split; [reflexivity|]. split; [reflexivity|]. split; [reflexivity|].
    split; [reflexivity|]. split; [vm_compute; reflexivity|]. split.
    + intros randomUUID sheetName n. do 2 eexists.
      split; [reflexivity|]. repeat split.
    + intros randomUUID sheetName n. do 2 eexists.
      split; [reflexivity|]. reflexivity.
Qed.

(** Successive assignments [cells[col.id] = v] over the columns that are no
    holes: a key that none of them writes keeps what it had. *)
Lemma importCells_keep (rowArray : list JS.Value) (l : list (nat * option ImportedColumn))
    (cells : gmap string CellValue) (k : string) :
  (forall i col, In (i, Some col) l -> imported_id col <> k) ->
  fold_left
    (fun cells '(idx, slot) =>
       match slot with
       | Some col =>
           <[imported_id col := importCell (imported_type col) (field rowArray idx)]> cells
       | None => cells
       end) l cells !! k
  = cells !! k.
Proof.
  revert cells. induction l as [|[i [col|]] l IH]; intros cells Hne; simpl; [reflexivity| |].
  - rewrite IH by (intros i' col' Hin; apply (Hne i'); right; exact Hin).
    apply lookup_insert_ne. apply (Hne i). left. reflexivity.
  - apply IH. intros i' col' Hin. apply (Hne i'). right. exact Hin.
Qed.

(** The cell stored for the column at position [idx], when no later column
    has the same id. *)
Lemma importCells_lookup (columns : list (option ImportedColumn)) (rowArray : list JS.Value)
    (idx : nat) (col : ImportedColumn) :
  columns !! idx = Some (Some col) ->
  (forall idx' col', columns !! idx' = Some (Some col') -> (idx < idx')%nat ->
                     imported_id col' <> imported_id col) ->
  importCells columns rowArray !! imported_id col
    = Some (importCell (imported_type col) (field rowArray idx)).
Proof.
  intros Hcol Hlater. unfold importCells.
  rewrite <- (take_drop_middle columns idx (Some col) Hcol) at 1.
  rewrite imap_app, fold_left_app. cbn [imap fold_left].
  assert (Hlen : length (take idx columns) = idx).
  { rewrite length_take. apply Nat.min_l.
    apply Nat.lt_le_incl, (lookup_lt_Some _ _ _ Hcol). }
  rewrite importCells_keep.
  - rewrite Hlen, Nat.add_0_r. apply lookup_insert_eq.
  - intros i col' Hin. apply list_elem_of_In, elem_of_lookup_imap_1 in Hin.
    destruct Hin as (j & slot & Heq & Hj). unfold compose in Heq.
    injection Heq as -> <-. rewrite lookup_drop in Hj.
    apply (Hlater _ col' Hj). lia.
Qed.

(** C9: where the code leaves the claim.  In the one-column table whose
    first ten data rows hold the texts ["1"] to ["10"] and whose eleventh
    holds ["abc"], the column is inferred [number]; the import resolves, and
    the eleventh row stores the number [NaN] under the column's key, not the
    text ["abc"]. *)
Lemma import_beyond_window_not_literal :
  exists sh n' row,
    parseExcelFile Examples.countingUUID (Some [("Hoja1", Examples.lateTextTable)]) 0%nat
      = (Resolved [sh], n') /\
    imported_columns sh = [Some (mkImportedColumn "col-0" (JS.VStr "Cantidad") number)] /\
    imported_rows sh !! 10%nat = Some row /\
    row_cells row !! "col-0" = Some (CNum PrimFloat.nan) /\
    row_cells row !! "col-0" <> Some (CStr "abc").
Proof.
  do 3 eexists. split; [vm_compute; reflexivity|].
  split; [reflexivity|]. split; [reflexivity|]. split; [reflexivity|].
  discriminate.
Qed.

End ImportFacts.

(** ** Further properties of the modelled code *)

(** *** Composition of handlers of the spreadsheet *)

Section HandlerFacts.
Import Sheet Invariant.

Lemma mapActive_compose (f g : DynamicSheet -> DynamicSheet) (st : State) :
  (forall s, sheet_id (f s) = sheet_id s) ->
  mapActive g (mapActive f st) = mapActive (fun s => g (f s)) st.
Proof.
  intros Hid. unfold mapActive. simpl. f_equal. rewrite map_map. apply map_ext.
  intros s. destruct (String.eqb (sheet_id s) (activeSheetId st)) eqn:E.
  - rewrite Hid, E. reflexivity.
  - rewrite E. reflexivity.
Qed.

Lemma find_map_same {A} (p : A -> bool) (f : A -> A) (l : list A) :
  (forall x, p (f x) = p x) ->
  List.find p (map f l) = option_map f (List.find p l).
Proof.
  intros Hp. induction l as [|x l IH]; simpl; [reflexivity|].
  rewrite Hp. destruct (p x); [reflexivity|exact IH].
Qed.

(** The active sheet after a transformation of the sheets carrying the
    active id. *)
Lemma activeSheet_mapActive (f : DynamicSheet -> DynamicSheet) (st : State) :
  (forall s, sheet_id (f s) = sheet_id s) ->
  activeSheet (mapActive f st) =
  option_map (fun s => if String.eqb (sheet_id s) (activeSheetId st) then f s else s)
             (activeSheet st).
Proof.
  intros Hid. unfold activeSheet, mapActive. simpl.
  rewrite find_map_same.
  - destruct (List.find _ (sheets st)); [reflexivity|].
    destruct (sheets st); reflexivity.
  - intros s. destruct (String.eqb (sheet_id s) (activeSheetId st)) eqn:E.
    + rewrite Hid. exact E.
    + exact E.
Qed.

Lemma findIndex_first {A} (p : A -> bool) (l1 l2 : list A) (x : A) :
  (forall y, In y l1 -> p y = false) -> p x = true ->
  findIndex p (l1 ++ x :: l2) = Z.of_nat (length l1).
Proof.
  intros Hl1 Hx. induction l1 as [|y l1 IH]; simpl.
  - rewrite Hx. reflexivity.
  - rewrite (Hl1 y (or_introl eq_refl)).
    rewrite IH by (intros z Hz; apply Hl1; right; exact Hz).
    destruct (Z.of_nat (length l1)) eqn:E; lia.
Qed.

Lemma splice_insert_after {A} (l1 l2 : list A) (x new : A) :
  splice_insert (Z.of_nat (length l1) + 1) new (l1 ++ x :: l2) = l1 ++ x :: new :: l2.
Proof.
  unfold splice_insert.
  assert (Hlt : (Z.of_nat (length l1) + 1 <? 0) = false) by (apply Z.ltb_ge; lia).
  rewrite Hlt, length_app. simpl.
  replace (Z.to_nat (Z.min (Z.of_nat (length l1) + 1) (Z.of_nat (length l1 + S (length l2)))))
    with (length (l1 ++ [x])) by (rewrite length_app; simpl; lia).
  replace (l1 ++ x :: l2) with ((l1 ++ [x]) ++ l2) by (rewrite <- app_assoc; reflexivity).
  rewrite take_app_length, drop_app_length, <- app_assoc. reflexivity.
Qed.

(** What [splice(start, 0, x)] gives is the array with [x] put between
    two parts of it. *)
Lemma splice_insert_split {A} (start : Z) (x : A) (l : list A) :
  exists l1 l2, l = l1 ++ l2 /\ splice_insert start x l = l1 ++ x :: l2.
Proof.
  unfold splice_insert. set (n := Z.to_nat _).
  exists (take n l), (drop n l). split; [symmetry; apply take_drop|reflexivity].
Qed.

Lemma filter_app_mid {A} (p : A -> bool) (l1 l2 : list A) (x : A) :
  p x = false ->
  (forall y, In y (l1 ++ l2) -> p y = true) ->
  List.filter p (l1 ++ x :: l2) = l1 ++ l2.
Proof.
  intros Hx Hall. rewrite List.filter_app. simpl. rewrite Hx, <- List.filter_app.
  apply filter_fixed. exact Hall.
Qed.

End HandlerFacts.

Section Positions.
Import Sheet Invariant.

(** X1: where [addColumn] puts the new column.  Without an id (or with the
    empty id) it is appended after the columns of the active sheet; with the
    id of a column it is put right after the first column carrying that
    id, the columns before and after keeping their order. *)
Theorem addColumn_position (st : State) (active : DynamicSheet) (now : N) :
  activeSheet st = Some active ->
  (forall afterColumnId, afterColumnId = None \/ afterColumnId = Some "" ->
     exists st', addColumn afterColumnId now st = Returned st' /\
       forall s', In s' (sheets st') -> sheet_id s' = activeSheetId st ->
         sheet_columns s' = sheet_columns active ++ [newColumnFor now active]) /\
  (forall after l1 c l2,
     after <> "" ->
     sheet_columns active = l1 ++ c :: l2 ->
     column_id c = after ->
     (forall y, In y l1 -> column_id y <> after) ->
     exists st', addColumn (Some after) now st = Returned st' /\
       forall s', In s' (sheets st') -> sheet_id s' = activeSheetId st ->
         sheet_columns s' = l1 ++ c :: newColumnFor now active :: l2).
Proof.
  intros Hact. split.
  - intros afterColumnId Hnone. unfold addColumn. rewrite Hact.
    eexists. split; [reflexivity|]. intros s' Hin Hid.
    destruct (mapActive_active _ _ _ Hin Hid) as (s & _ & _ & ->). simpl.
    destruct Hnone as [->| ->]; reflexivity.
  - intros after l1 c l2 Hne Hcols Hc Hl1. unfold addColumn. rewrite Hact.
    eexists. split; [reflexivity|]. intros s' Hin Hid.
    destruct (mapActive_active _ _ _ Hin Hid) as (s & _ & _ & ->). simpl.
    apply String.eqb_neq in Hne. rewrite Hne, Hcols.
    rewrite (findIndex_first _ l1 l2 c).
    + apply splice_insert_after.
    + intros y Hy. apply String.eqb_neq. exact (Hl1 y Hy).
    + apply String.eqb_eq. exact Hc.
Qed.

Lemma addColumn_position_witness :
  exists st', addColumn (Some "a") 7 Examples.state1 = Returned st' /\
    forall s', In s' (sheets st') -> sheet_id s' = "s1" ->
      sheet_columns s' =
      [mkColumn "a" "A" text; newColumnFor 7 Examples.sheet1; mkColumn "b" "B" number].
Proof.
  destruct (addColumn_position Examples.state1 Examples.sheet1 7%N eq_refl) as [_ Hafter].
  apply (Hafter "a" [] (mkColumn "a" "A" text) [mkColumn "b" "B" number]).
  - discriminate.
  - reflexivity.
  - reflexivity.
  - intros y [].
Defined.

(** X2: the row [addRow] makes has the id [row-] followed by the time
    stamp, no selection flag, and a cell map whose keys are exactly the ids
    of the columns of the active sheet, every value [null].  Without an id
    (or with the empty id) the row is appended; with the id of a row it is
    put right after the first row carrying that id.  The columns are left as
    they are. *)
Theorem addRow_new_row (st : State) (active : DynamicSheet) (now : N) :
  activeSheet st = Some active ->
  exists newRow,
    row_id newRow = "row-" +:+ pretty now /\
    row_selected newRow = None /\
    dom (row_cells newRow) = list_to_set (map column_id (sheet_columns active)) /\
    (forall k v, row_cells newRow !! k = Some v -> v = CNull) /\
    (forall afterRowId, afterRowId = None \/ afterRowId = Some "" ->
       exists st', addRow afterRowId now st = Returned st' /\
         forall s', In s' (sheets st') -> sheet_id s' = activeSheetId st ->
           sheet_rows s' = sheet_rows active ++ [newRow] /\
           exists s, In s (sheets st) /\ sheet_columns s' = sheet_columns s) /\
    (forall after l1 r l2,
       after <> "" ->
       sheet_rows active = l1 ++ r :: l2 ->
       row_id r = after ->
       (forall y, In y l1 -> row_id y <> after) ->
       exists st', addRow (Some after) now st = Returned st' /\
         forall s', In s' (sheets st') -> sheet_id s' = activeSheetId st ->
           sheet_rows s' = l1 ++ r :: newRow :: l2 /\
           exists s, In s (sheets st) /\ sheet_columns s' = sheet_columns s).
Proof.
  intros Hact. eexists. split; [|split; [|split; [|split; [|split]]]].
  5:{ intros afterRowId Hnone. unfold addRow. rewrite Hact.
      eexists. split; [reflexivity|]. intros s' Hin Hid.
      destruct (mapActive_active _ _ _ Hin Hid) as (s & Hs & _ & ->). simpl.
      split; [|exists s; split; [exact Hs|reflexivity]].
      destruct Hnone as [->| ->]; reflexivity. }
  5:{ intros after l1 r l2 Hne Hrows Hr Hl1. unfold addRow. rewrite Hact.
      eexists. split; [reflexivity|]. intros s' Hin Hid.
      destruct (mapActive_active _ _ _ Hin Hid) as (s & Hs & _ & ->). simpl.
      split; [|exists s; split; [exact Hs|reflexivity]].
      apply String.eqb_neq in Hne. rewrite Hne, Hrows.
      rewrite (findIndex_first _ l1 l2 r).
      - apply splice_insert_after.
      - intros y Hy. apply String.eqb_neq. exact (Hl1 y Hy).
      - apply String.eqb_eq. exact Hr. }
  - reflexivity.
  - reflexivity.
  - simpl. rewrite dom_list_to_map_L. f_equal.
    change (map (fun c => (column_id c, CNull)) (sheet_columns active))
      with ((fun c => (column_id c, CNull)) <$> sheet_columns active).
    rewrite <- list_fmap_compose. reflexivity.
  - simpl. intros k v Hk. apply elem_of_list_to_map_2 in Hk.
    apply list_elem_of_In, in_map_iff in Hk. destruct Hk as (c & [= _ <-] & _).
    reflexivity.
Qed.

Lemma addRow_new_row_witness :
  exists newRow st',
    dom (row_cells newRow) = list_to_set ["a"; "b"] /\
    addRow (Some "r1") 9 Examples.state1 = Returned st' /\
    forall s', In s' (sheets st') -> sheet_id s' = "s1" ->
      sheet_rows s' = [Examples.row1; newRow].
Proof.
  destruct (addRow_new_row Examples.state1 Examples.sheet1 9%N eq_refl)
    as (newRow & _ & _ & Hdom & _ & _ & Hafter).
  destruct (Hafter "r1" [] Examples.row1 []) as (st' & Hret & Hrows).
  - discriminate.
  - reflexivity.
  - reflexivity.
  - intros y [].
  - exists newRow, st'. split; [exact Hdom|]. split; [exact Hret|].
    intros s' Hin Hid. exact (proj1 (Hrows s' Hin Hid)).
Defined.

End Positions.

Section RoundTrips.
Import Sheet Invariant.

(** X3: adding a row and deleting it again gives the state back.  For a
    state in which only the active sheet carries the active id and no row
    of it has the id [row-] followed by the time stamp, [addRow] (wherever it
    puts the row) followed by [deleteRow] of the new id returns the state
    it started from. *)
Theorem addRow_then_deleteRow (st : State) (active : DynamicSheet) (now : N)
    (afterRowId : option string) :
  activeSheet st = Some active ->
  (forall s, In s (sheets st) -> sheet_id s = activeSheetId st -> s = active) ->
  (forall r, In r (sheet_rows active) -> row_id r <> "row-" +:+ pretty now) ->
  exists st1,
    addRow afterRowId now st = Returned st1 /\
    deleteRow ("row-" +:+ pretty now) st1 = Returned st.
Proof.
  intros Hact Honly Hfresh. unfold addRow. rewrite Hact.
  eexists. split; [reflexivity|].
  unfold deleteRow. f_equal.
  rewrite mapActive_compose by reflexivity.
  apply mapActive_fixed. intros s Hs Hid. rewrite (Honly s Hs Hid). simpl.
  set (newRow := mkRow _ _ _).
  assert (Hsplit : exists l1 l2, sheet_rows active = l1 ++ l2 /\
            match given afterRowId with
            | Some after =>
                splice_insert
                  (findIndex (fun r => String.eqb (row_id r) after) (sheet_rows active) + 1)
                  newRow (sheet_rows active)
            | None => sheet_rows active ++ [newRow]
            end = l1 ++ newRow :: l2).
  { destruct (given afterRowId).
    - apply splice_insert_split.
    - exists (sheet_rows active), []. rewrite app_nil_r. split; reflexivity. }
  destruct Hsplit as (l1 & l2 & Hrows & ->).
  rewrite filter_app_mid.
  - rewrite <- Hrows. unfold set_rows. simpl. destruct active; reflexivity.
  - simpl. rewrite String.eqb_refl. reflexivity.
  - intros y Hy. rewrite <- Hrows in Hy.
    apply negb_true_iff, String.eqb_neq. exact (Hfresh y Hy).
Qed.

Lemma addRow_then_deleteRow_witness :
  exists st1,
    addRow (Some "r1") 9 Examples.state1 = Returned st1 /\
    deleteRow "row-9" st1 = Returned Examples.state1.
Proof.
  apply (addRow_then_deleteRow Examples.state1 Examples.sheet1 9%N (Some "r1") eq_refl).
  - intros s [<-|[]] _. reflexivity.
  - intros r [<-|[]]. discriminate.
Defined.

(** X4: adding a column and deleting it again gives the state back.  For a
    state in which only the active sheet carries the active id, the active
    sheet has a column, none of its columns has the id [col-] followed by
    the time stamp and none of its rows has that key, [addColumn] (wherever
    it puts the column) followed by [deleteColumn] of the new id returns
    the state it started from. *)
Theorem addColumn_then_deleteColumn (st : State) (active : DynamicSheet) (now : N)
    (afterColumnId : option string) :
  activeSheet st = Some active ->
  (forall s, In s (sheets st) -> sheet_id s = activeSheetId st -> s = active) ->
  sheet_columns active <> [] ->
  (forall c, In c (sheet_columns active) -> column_id c <> "col-" +:+ pretty now) ->
  (forall r, In r (sheet_rows active) -> row_cells r !! ("col-" +:+ pretty now) = None) ->
  exists st1,
    addColumn afterColumnId now st = Returned st1 /\
    deleteColumn ("col-" +:+ pretty now) st1 = Returned st.
Proof.
  intros Hact Honly Hcols Hfresh Hkeys. unfold addColumn. rewrite Hact.
  eexists. split; [reflexivity|].
  set (newColumn := newColumnFor now active).
  set (newColumns := match given afterColumnId with
                     | Some after => splice_insert _ newColumn (sheet_columns active)
                     | None => sheet_columns active ++ [newColumn]
                     end).
  set (newRows := map _ (sheet_rows active)).
  assert (Hsplit : exists l1 l2, sheet_columns active = l1 ++ l2 /\
                                 newColumns = l1 ++ newColumn :: l2).
  { unfold newColumns. destruct (given afterColumnId).
    - apply splice_insert_split.
    - exists (sheet_columns active), []. rewrite app_nil_r. split; reflexivity. }
  destruct Hsplit as (l1 & l2 & Hsplit & Hnew).
  unfold deleteColumn.
  rewrite activeSheet_mapActive by reflexivity. rewrite Hact. simpl.
  destruct (String.eqb (sheet_id active) (activeSheetId st)) eqn:Hid.
  - simpl.
    assert (Hlen : (length newColumns <=? 1)%nat = false).
    { apply Nat.leb_gt. rewrite Hnew, length_app. simpl.
      destruct l1, l2; simpl; try lia.
      exfalso. apply Hcols. exact Hsplit. }
    rewrite Hlen. f_equal.
    rewrite mapActive_compose by reflexivity.
    apply mapActive_fixed. intros s Hs Hsid. rewrite (Honly s Hs Hsid). simpl.
    rewrite Hnew, filter_app_mid.
    + rewrite <- Hsplit. unfold newRows. rewrite map_map, map_fixed.
      * destruct active; reflexivity.
      * intros r Hr. unfold set_cells. simpl.
        rewrite delete_insert_eq, delete_id by (apply Hkeys; exact Hr).
        destruct r; reflexivity.
    + simpl. rewrite String.eqb_refl. reflexivity.
    + intros y Hy. rewrite <- Hsplit in Hy.
      apply negb_true_iff, String.eqb_neq. exact (Hfresh y Hy).
  - assert (Hstale : forall f, mapActive f st = st).
    { intros f. apply mapActive_fixed. intros s Hs Hsid.
      rewrite (Honly s Hs Hsid) in Hsid. apply String.eqb_neq in Hid. contradiction. }
    destruct (length (sheet_columns active) <=? 1)%nat.
    + rewrite Hstale. reflexivity.
    + rewrite !Hstale. reflexivity.
Qed.

Lemma addColumn_then_deleteColumn_witness :
  exists st1,
    addColumn (Some "a") 7 Examples.state1 = Returned st1 /\
    deleteColumn "col-7" st1 = Returned Examples.state1.
Proof.
  apply (addColumn_then_deleteColumn Examples.state1 Examples.sheet1 7%N (Some "a") eq_refl).
  - intros s [<-|[]] _. reflexivity.
  - discriminate.
  - intros c [<-|[<-|[]]]; discriminate.
  - intros r [<-|[]]. reflexivity.
Defined.

(** X5: adding a sheet and deleting it again gives the sheets back.  In a
    workbook with a sheet, none carrying the id [sheet-] followed by the
    time stamp, [addSheet] makes the new sheet active, and [deleteSheet] of
    the new id then returns the former sheets with the first of them
    active. *)
Theorem addSheet_then_deleteSheet (st : State) (now : N) (first : DynamicSheet)
    (others : list DynamicSheet) :
  sheets st = first :: others ->
  (forall s, In s (sheets st) -> sheet_id s <> "sheet-" +:+ pretty now) ->
  exists st1,
    addSheet now st = Returned st1 /\
    activeSheetId st1 = "sheet-" +:+ pretty now /\
    deleteSheet ("sheet-" +:+ pretty now) st1
      = Returned (mkState (sheets st) (sheet_id first)).
Proof.
  intros Hsheets Hfresh. unfold addSheet. eexists. split; [reflexivity|].
  split; [reflexivity|]. unfold deleteSheet. simpl.
  rewrite length_app. simpl.
  assert (Hlen : (length (sheets st) + 1 <=? 1)%nat = false).
  { apply Nat.leb_gt. rewrite Hsheets. simpl. lia. }
  rewrite Hlen, String.eqb_refl.
  rewrite List.filter_app. simpl. rewrite String.eqb_refl. simpl.
  rewrite app_nil_r, filter_fixed.
  - rewrite Hsheets. reflexivity.
  - intros s Hs. apply negb_true_iff, String.eqb_neq. exact (Hfresh s Hs).
Qed.

Lemma addSheet_then_deleteSheet_witness :
  exists st1,
    addSheet 3 Examples.state2 = Returned st1 /\
    activeSheetId st1 = "sheet-3" /\
    deleteSheet "sheet-3" st1 = Returned (mkState (sheets Examples.state2) "s1").
Proof.
  apply (addSheet_then_deleteSheet Examples.state2 3%N Examples.sheet1 [Examples.sheet2]).
  - reflexivity.
  - intros s [<-|[<-|[]]]; discriminate.
Defined.

End RoundTrips.

Section Toggles.
Import Sheet Invariant.

Lemma mapActive_ext (f g : DynamicSheet -> DynamicSheet) (st : State) :
  (forall s, In s (sheets st) -> f s = g s) -> mapActive f st = mapActive g st.
Proof.
  intros H. unfold mapActive. f_equal. apply map_ext_in. intros s Hs.
  rewrite (H s Hs). reflexivity.
Qed.

(** X6: switching the type of a column twice gives the state back, and
    switching it once changes neither the rows nor the ids and names of the
    columns of any sheet: the cells keep the values they had under the
    former type. *)
Theorem toggleColumnType_twice (st : State) (columnId : string) :
  exists st1,
    toggleColumnType columnId st = Returned st1 /\
    toggleColumnType columnId st1 = Returned st /\
    map sheet_rows (sheets st1) = map sheet_rows (sheets st) /\
    map (fun s => map (fun c => (column_id c, column_name c)) (sheet_columns s)) (sheets st1)
    = map (fun s => map (fun c => (column_id c, column_name c)) (sheet_columns s)) (sheets st).
Proof.
  unfold toggleColumnType. eexists. split; [reflexivity|]. split; [|split].
  - f_equal. rewrite mapActive_compose by reflexivity.
    apply mapActive_fixed. intros s _ _. simpl. rewrite map_map, map_fixed.
    + destruct s; reflexivity.
    + intros c _. destruct (String.eqb (column_id c) columnId) eqn:E; simpl.
      * rewrite E. destruct c as [i n []]; reflexivity.
      * rewrite E. reflexivity.
  - unfold mapActive. simpl. rewrite map_map. apply map_ext. intros s.
    destruct (String.eqb (sheet_id s) (activeSheetId st)); reflexivity.
  - unfold mapActive. simpl. rewrite map_map. apply map_ext. intros s.
    destruct (String.eqb (sheet_id s) (activeSheetId st)); [|reflexivity].
    simpl. rewrite map_map. apply map_ext. intros c.
    destruct (String.eqb (column_id c) columnId); reflexivity.
Qed.

(** X7: ticking a row's box twice gives back every row's id, cells and
    selection (a missing flag reads as not selected), and ticking it once
    changes no id, no cell and no column. *)
Theorem toggleSelectRow_twice (st : State) (rowId : string) :
  exists st1 st2,
    toggleSelectRow rowId st = Returned st1 /\
    toggleSelectRow rowId st1 = Returned st2 /\
    map (fun s => map (fun r => (row_id r, row_cells r)) (sheet_rows s)) (sheets st1)
    = map (fun s => map (fun r => (row_id r, row_cells r)) (sheet_rows s)) (sheets st) /\
    map sheet_columns (sheets st1) = map sheet_columns (sheets st) /\
    map (fun s => map (fun r => (row_id r, row_cells r, is_selected r)) (sheet_rows s))
        (sheets st2)
    = map (fun s => map (fun r => (row_id r, row_cells r, is_selected r)) (sheet_rows s))
          (sheets st) /\
    map sheet_columns (sheets st2) = map sheet_columns (sheets st).
Proof.
  unfold toggleSelectRow. do 2 eexists. split; [reflexivity|]. split; [reflexivity|].
  rewrite mapActive_compose by reflexivity.
  unfold mapActive. simpl. rewrite !map_map.
  repeat split; apply map_ext; intros s;
    destruct (String.eqb (sheet_id s) (activeSheetId st)); try reflexivity;
    simpl; rewrite ?map_map; apply map_ext; intros r;
    destruct (String.eqb (row_id r) rowId) eqn:E; simpl; rewrite ?E; simpl;
    try reflexivity.
  unfold is_selected. simpl. rewrite negb_involutive. reflexivity.
Qed.

(** X8: the header box selects every row unless every row is selected
    already, in which case it clears every row.  After [toggleSelectAll],
    in each sheet carrying the active id every row reads as selected exactly
    when some row of the active sheet did not; ids, cells and columns stay. *)
Theorem toggleSelectAll_all_or_none (st : State) (active : DynamicSheet) :
  activeSheet st = Some active ->
  exists st',
    toggleSelectAll st = Returned st' /\
    forall s', In s' (sheets st') -> sheet_id s' = activeSheetId st ->
      (forall r, In r (sheet_rows s') ->
         is_selected r = negb (forallb is_selected (sheet_rows active))) /\
      exists s, In s (sheets st) /\
        map (fun r => (row_id r, row_cells r)) (sheet_rows s')
        = map (fun r => (row_id r, row_cells r)) (sheet_rows s) /\
        sheet_columns s' = sheet_columns s.
Proof.
  intros Hact. unfold toggleSelectAll. rewrite Hact.
  eexists. split; [reflexivity|]. intros s' Hin Hid.
  destruct (mapActive_active _ _ _ Hin Hid) as (s & Hs & _ & ->). simpl. split.
  - intros r Hr. apply in_map_iff in Hr. destruct Hr as (r0 & <- & _). reflexivity.
  - exists s. split; [exact Hs|]. split; [|reflexivity].
    rewrite map_map. reflexivity.
Qed.

Lemma toggleSelectAll_all_or_none_witness :
  exists st',
    toggleSelectAll Examples.state1 = Returned st' /\
    forall s', In s' (sheets st') -> sheet_id s' = "s1" ->
      forall r, In r (sheet_rows s') -> is_selected r = true.
Proof.
  destruct (toggleSelectAll_all_or_none Examples.state1 Examples.sheet1 eq_refl)
    as (st' & Hret & Hall).
  exists st'. split; [exact Hret|]. intros s' Hin Hid r Hr.
  exact (proj1 (Hall s' Hin Hid) r Hr).
Defined.

(** X9: cell writes compose as assignments do.  A second write to the same
    cell replaces the first; writes to two different cells (another row or
    another key) give the same state in either order; repeating a write
    changes nothing more. *)
Theorem updateCell_algebra (st : State) :
  (forall rowId columnId v1 v2, exists st1,
     updateCell rowId columnId v1 st = Returned st1 /\
     updateCell rowId columnId v2 st1 = updateCell rowId columnId v2 st) /\
  (forall row1 col1 v1 row2 col2 v2,
     row1 <> row2 \/ col1 <> col2 ->
     exists st1 st2,
       updateCell row1 col1 v1 st = Returned st1 /\
       updateCell row2 col2 v2 st = Returned st2 /\
       updateCell row2 col2 v2 st1 = updateCell row1 col1 v1 st2) /\
  (forall rowId columnId v, exists st1,
     updateCell rowId columnId v st = Returned st1 /\
     updateCell rowId columnId v st1 = Returned st1).
Proof.
  assert (Hagain : forall rowId columnId v1 v2,
    mapActive (fun s => set_rows (map (fun r => if String.eqb (row_id r) rowId
                                               then set_cells (<[columnId := v2]> (row_cells r)) r
                                               else r) (sheet_rows s)) s)
      (mapActive (fun s => set_rows (map (fun r => if String.eqb (row_id r) rowId
                                                   then set_cells (<[columnId := v1]> (row_cells r)) r
                                                   else r) (sheet_rows s)) s) st)
    = mapActive (fun s => set_rows (map (fun r => if String.eqb (row_id r) rowId
                                               then set_cells (<[columnId := v2]> (row_cells r)) r
                                               else r) (sheet_rows s)) s) st).
  { intros rowId columnId v1 v2. rewrite mapActive_compose by reflexivity.
    apply mapActive_ext. intros s _. unfold set_rows. simpl. f_equal.
    rewrite map_map. apply map_ext. intros r.
    destruct (String.eqb (row_id r) rowId) eqn:E; simpl; rewrite E; [|reflexivity].
    unfold set_cells. simpl. rewrite insert_insert_eq. reflexivity. }
  split; [|split].
  - intros rowId columnId v1 v2. unfold updateCell. eexists. split; [reflexivity|].
    f_equal. apply Hagain.
  - intros row1 col1 v1 row2 col2 v2 Hdiff. unfold updateCell.
    do 2 eexists. split; [reflexivity|]. split; [reflexivity|]. f_equal.
    rewrite !mapActive_compose by reflexivity.
    apply mapActive_ext. intros s _. unfold set_rows. simpl. f_equal.
    rewrite !map_map. apply map_ext. intros r.
    destruct (String.eqb (row_id r) row1) eqn:E1, (String.eqb (row_id r) row2) eqn:E2;
      simpl; rewrite ?E1, ?E2; try reflexivity.
    unfold set_cells. simpl. f_equal.
    apply String.eqb_eq in E1, E2.
    destruct Hdiff as [Hrow|Hcol]; [congruence|].
    apply insert_insert_ne. congruence.
  - intros rowId columnId v. unfold updateCell. eexists. split; [reflexivity|].
    f_equal. apply Hagain.
Qed.

Lemma updateCell_algebra_witness :
  exists st1 st2,
    updateCell "r1" "a" (CStr "y") Examples.state1 = Returned st1 /\
    updateCell "r1" "b" (CNum 6) Examples.state1 = Returned st2 /\
    updateCell "r1" "b" (CNum 6) st1 = updateCell "r1" "a" (CStr "y") st2.
Proof.
  destruct (updateCell_algebra Examples.state1) as (_ & Hcommute & _).
  apply Hcommute. right. discriminate.
Defined.

End Toggles.

(** *** The workbook stays in order *)

Section InOrder.
Import Sheet Invariant.

Lemma NoDup_map_filter {A B} (f : A -> B) (p : A -> bool) (l : list A) :
  NoDup (map f l) -> NoDup (map f (List.filter p l)).
Proof.
  induction l as [|x l IH]; simpl; intros Hnd; [constructor|].
  apply NoDup_cons in Hnd. destruct Hnd as [Hx Hnd].
  destruct (p x); simpl; [|apply IH; exact Hnd].
  apply NoDup_cons. split; [|apply IH; exact Hnd].
  intros Hin. apply Hx. apply list_elem_of_In in Hin. apply list_elem_of_In.
  apply in_map_iff in Hin. destruct Hin as (y & Hy & Hin).
  apply filter_In in Hin. apply in_map_iff. exists y. tauto.
Qed.

Lemma NoDup_map_insert {A B} (f : A -> B) (l1 l2 : list A) (x : A) :
  NoDup (map f (l1 ++ l2)) ->
  (forall y, In y (l1 ++ l2) -> f y <> f x) ->
  NoDup (map f (l1 ++ x :: l2)).
Proof.
  intros Hnd Hfresh. rewrite map_app. simpl. rewrite <- Permutation_middle.
  apply NoDup_cons. rewrite <- map_app. split; [|exact Hnd].
  intros Hin. apply list_elem_of_In, in_map_iff in Hin.
  destruct Hin as (y & Hy & Hin). exact (Hfresh y Hin Hy).
Qed.

Lemma list_to_set_map_insert {A} (f : A -> string) (l1 l2 : list A) (x : A) :
  list_to_set (C := gset string) (map f (l1 ++ x :: l2))
  = {[f x]} ∪ list_to_set (map f (l1 ++ l2)).
Proof.
  apply set_eq. intros k.
  rewrite elem_of_union, elem_of_singleton, !elem_of_list_to_set, !list_elem_of_In.
  rewrite !map_app, !in_app_iff. simpl. intuition congruence.
Qed.

Lemma list_to_set_map_filter {A} (f : A -> string) (c : string) (l : list A) :
  list_to_set (C := gset string)
    (map f (List.filter (fun x => negb (String.eqb (f x) c)) l))
  = list_to_set (map f l) ∖ {[c]}.
Proof.
  apply set_eq. intros k.
  rewrite elem_of_difference, elem_of_singleton, !elem_of_list_to_set, !list_elem_of_In.
  rewrite !in_map_iff. split.
  - intros (x & <- & Hx). apply filter_In in Hx. destruct Hx as [Hx Hne].
    apply negb_true_iff, String.eqb_neq in Hne. eauto.
  - intros [(x & <- & Hx) Hne]. exists x. split; [reflexivity|].
    apply filter_In. split; [exact Hx|]. apply negb_true_iff, String.eqb_neq. exact Hne.
Qed.

(** Of elements with distinct keys, removing a key removes one at most. *)
Lemma filter_key_length {A} (f : A -> string) (c : string) (l : list A) :
  NoDup (map f l) ->
  (length l <= S (length (List.filter (fun x => negb (String.eqb (f x) c)) l)))%nat.
Proof.
  induction l as [|x l IH]; simpl; intros Hnd; [lia|].
  apply NoDup_cons in Hnd. destruct Hnd as [Hx Hnd].
  destruct (String.eqb (f x) c) eqn:E; simpl.
  - apply String.eqb_eq in E. rewrite filter_fixed; [lia|].
    intros y Hy. apply negb_true_iff, String.eqb_neq. intros Hyc.
    apply Hx. apply list_elem_of_In, in_map_iff. exists y. split; [congruence|exact Hy].
  - specialize (IH Hnd). lia.
Qed.

(** In a workbook in order the active sheet is the one sheet carrying the
    active id. *)
Lemma state_ok_active (st : State) :
  state_ok st ->
  exists active,
    activeSheet st = Some active /\ In active (sheets st) /\
    sheet_id active = activeSheetId st /\ sheet_ok active /\
    (forall s, In s (sheets st) -> sheet_id s = activeSheetId st -> s = active).
Proof.
  intros (Hnd & Hact & Hok).
  apply in_map_iff in Hact. destruct Hact as (s0 & Hid0 & Hs0).
  destruct (activeSheet st) as [active|] eqn:E.
  - assert (Hin := activeSheet_in st active E).
    assert (Hid : sheet_id active = activeSheetId st).
    { rewrite <- (activeSheet_unique st active s0 Hnd E Hs0 Hid0). exact Hid0. }
    exists active. split; [reflexivity|]. split; [exact Hin|]. split; [exact Hid|].
    split; [apply Hok; exact Hin|].
    intros s Hs Hsid. exact (activeSheet_unique st active s Hnd E Hs Hsid).
  - exfalso. unfold activeSheet in E.
    destruct (List.find _ (sheets st)); [discriminate|].
    destruct (sheets st); [contradiction|discriminate].
Qed.

Lemma state_ok_mapActive (f : DynamicSheet -> DynamicSheet) (st : State)
    (active : DynamicSheet) :
  state_ok st ->
  activeSheet st = Some active ->
  (forall s, sheet_id (f s) = sheet_id s) ->
  sheet_ok (f active) ->
  state_ok (mapActive f st).
Proof.
  intros Hst Hact Hid Hf.
  destruct (state_ok_active st Hst) as (a & Ha & _ & _ & _ & Honly).
  rewrite Hact in Ha. injection Ha as <-.
  destruct Hst as (Hnd & Hin & Hok).
  split; [|split].
  - rewrite (mapActive_ids f st Hid). exact Hnd.
  - rewrite (mapActive_ids f st Hid). exact Hin.
  - intros s' Hs'. unfold mapActive in Hs'. simpl in Hs'.
    apply in_map_iff in Hs'. destruct Hs' as (s & <- & Hs).
    destruct (String.eqb (sheet_id s) (activeSheetId st)) eqn:E.
    + apply String.eqb_eq in E. rewrite (Honly s Hs E). exact Hf.
    + apply Hok. exact Hs.
Qed.

(** Rows changed without touching their ids or the keys of their cells. *)
Lemma sheet_ok_set_rows (s : DynamicSheet) (rows : list Row) :
  sheet_ok s ->
  map row_id rows = map row_id (sheet_rows s) ->
  (forall r', In r' rows -> exists r, In r (sheet_rows s) /\
                                      dom (row_cells r') = dom (row_cells r)) ->
  sheet_ok (set_rows rows s).
Proof.
  intros (Hne & Hcols & Hrows & Hkeys) Hids Hdom.
  split; [exact Hne|]. split; [exact Hcols|]. split; [simpl; rewrite Hids; exact Hrows|].
  intros r' Hr'. simpl in *. destruct (Hdom r' Hr') as (r & Hr & ->). exact (Hkeys r Hr).
Qed.

(** Columns changed without touching their ids. *)
Lemma sheet_ok_set_columns (s : DynamicSheet) (cols : list Column) :
  sheet_ok s ->
  map column_id cols = map column_id (sheet_columns s) ->
  sheet_ok (set_columns cols s).
Proof.
  intros (Hne & Hcols & Hrows & Hkeys) Hids.
  split; [|split; [|split]]; simpl.
  - intros ->. destruct (sheet_columns s); [contradiction|discriminate].
  - rewrite Hids. exact Hcols.
  - exact Hrows.
  - intros r Hr. simpl in *. rewrite Hids. exact (Hkeys r Hr).
Qed.

End InOrder.

Section HandlersKeepOrder.
Import Sheet Invariant.

Lemma sheet_ok_renamed (s : DynamicSheet) (newName : string) :
  sheet_ok s -> sheet_ok (mkSheet (sheet_id s) newName (sheet_columns s) (sheet_rows s)).
Proof. intros H. exact H. Qed.

Lemma state1_ok : state_ok Examples.state1.
Proof.
  split; [|split].
  - apply (bool_decide_unpack _). vm_compute. reflexivity.
  - left. reflexivity.
  - intros s [<-|[]]. split; [discriminate|]. split; [|split].
    + apply (bool_decide_unpack _). vm_compute. reflexivity.
    + apply (bool_decide_unpack _). vm_compute. reflexivity.
    + intros r [<-|[]]. apply (bool_decide_unpack _). vm_compute. reflexivity.
Qed.

(** X10: the sheet handlers keep the workbook in order.  From a state in
    order (distinct sheet ids, an active id that names a sheet, every sheet
    with a column, distinct column ids, distinct row ids and rows keyed by
    exactly the columns), [addSheet] with a fresh id, [deleteSheet] and
    [renameSheet] all return, and the state they return is in order: in
    particular [deleteSheet] never leaves the workbook without a sheet nor
    the active id without its sheet. *)
Theorem sheet_handlers_keep_order (st : State) :
  state_ok st ->
  (forall now,
     (forall s, In s (sheets st) -> sheet_id s <> "sheet-" +:+ pretty now) ->
     exists st', addSheet now st = Returned st' /\ state_ok st') /\
  (forall sheetId, exists st',
     deleteSheet sheetId st = Returned st' /\ state_ok st' /\
     forall s, In s (sheets st') -> In s (sheets st)) /\
  (forall sheetId newName, exists st',
     renameSheet sheetId newName st = Returned st' /\ state_ok st').
Proof.
  intros Hst. pose proof Hst as (Hnd & Hact & Hok). split; [|split].
  - intros now Hfresh. unfold addSheet. eexists. split; [reflexivity|].
    split; [|split]; simpl.
    + rewrite map_app. simpl. apply NoDup_app. split; [exact Hnd|]. split.
      * intros x Hx Hnew. apply list_elem_of_In, in_map_iff in Hx.
        destruct Hx as (s & <- & Hs). apply list_elem_of_In in Hnew.
        destruct Hnew as [Hnew|[]]. exact (Hfresh s Hs (eq_sym Hnew)).
      * apply NoDup_singleton.
    + rewrite map_app. apply in_or_app. right. left. reflexivity.
    + intros s Hs. apply in_app_or in Hs. destruct Hs as [Hs|[<-|[]]]; [exact (Hok s Hs)|].
      split; [discriminate|]. split; [|split]; simpl.
      * apply (bool_decide_unpack _). vm_compute. reflexivity.
      * constructor.
      * intros r [].
  - intros sheetId. unfold deleteSheet.
    destruct (length (sheets st) <=? 1)%nat eqn:Hlen; [eauto|].
    apply Nat.leb_gt in Hlen.
    set (newSheets := List.filter _ (sheets st)).
    assert (Hsub : forall s, In s newSheets -> In s (sheets st)).
    { intros s Hs. apply filter_In in Hs. tauto. }
    assert (Hnd' : NoDup (map sheet_id newSheets)) by (apply NoDup_map_filter; exact Hnd).
    assert (Hlen' : (1 <= length newSheets)%nat).
    { pose proof (filter_key_length sheet_id sheetId (sheets st) Hnd) as H.
      fold newSheets in H. lia. }
    destruct (String.eqb (activeSheetId st) sheetId) eqn:E.
    + destruct newSheets as [|s rest] eqn:Hnew; [simpl in Hlen'; lia|].
      eexists. split; [reflexivity|]. split; [|exact Hsub].
      split; [exact Hnd'|]. split; [left; reflexivity|].
      intros s' Hs'. apply Hok, Hsub, Hs'.
    + eexists. split; [reflexivity|]. split; [|exact Hsub].
      split; [exact Hnd'|]. split; [|intros s' Hs'; apply Hok, Hsub, Hs'].
      simpl. apply in_map_iff in Hact. destruct Hact as (a & Ha & Hin).
      apply in_map_iff. exists a. split; [exact Ha|].
      apply filter_In. split; [exact Hin|].
      apply negb_true_iff, String.eqb_neq. rewrite Ha.
      apply String.eqb_neq. exact E.
  - intros sheetId newName. unfold renameSheet. eexists. split; [reflexivity|].
    assert (Hids : map sheet_id
              (map (fun s => if String.eqb (sheet_id s) sheetId
                             then mkSheet (sheet_id s) newName (sheet_columns s) (sheet_rows s)
                             else s) (sheets st)) = map sheet_id (sheets st)).
    { rewrite map_map. apply map_ext. intros s.
      destruct (String.eqb (sheet_id s) sheetId); reflexivity. }
    split; [|split]; simpl.
    + rewrite Hids. exact Hnd.
    + rewrite Hids. exact Hact.
    + intros s' Hs'. apply in_map_iff in Hs'. destruct Hs' as (s & <- & Hs).
      destruct (String.eqb (sheet_id s) sheetId); [|exact (Hok s Hs)].
      apply sheet_ok_renamed. exact (Hok s Hs).
Qed.

Lemma sheet_handlers_keep_order_witness :
  (exists st', addSheet 3 Examples.state1 = Returned st' /\ state_ok st') /\
  (exists st', deleteSheet "s1" Examples.state1 = Returned st' /\ state_ok st').
Proof.
  destruct (sheet_handlers_keep_order Examples.state1 state1_ok) as (Hadd & Hdel & _).
  split.
  - apply Hadd. intros s [<-|[]]. discriminate.
  - destruct (Hdel "s1") as (st' & Hret & Hok & _). exists st'. split; assumption.
Defined.

(** X11: the column handlers keep the workbook in order.  From a state in
    order, [addColumn] with an id that no column of the active sheet has,
    [deleteColumn], [renameColumn] and [toggleColumnType] all return, and
    the state they return is in order: every row still has exactly the
    columns of its sheet as keys, and a sheet never loses its last
    column. *)
Theorem column_handlers_keep_order (st : State) :
  state_ok st ->
  (forall afterColumnId now active,
     activeSheet st = Some active ->
     (forall c, In c (sheet_columns active) -> column_id c <> "col-" +:+ pretty now) ->
     exists st', addColumn afterColumnId now st = Returned st' /\ state_ok st') /\
  (forall columnId, exists st', deleteColumn columnId st = Returned st' /\ state_ok st') /\
  (forall columnId newName, exists st',
     renameColumn columnId newName st = Returned st' /\ state_ok st') /\
  (forall columnId, exists st', toggleColumnType columnId st = Returned st' /\ state_ok st').
Proof.
  intros Hst.
  destruct (state_ok_active st Hst) as (active & Hact & Hin & Hid & Hactive & Honly).
  pose proof Hactive as (Hne & Hcols & Hrows & Hkeys).
  split; [|split; [|split]].
  - intros afterColumnId now active' Hact' Hfresh.
    rewrite Hact in Hact'. injection Hact' as <-.
    unfold addColumn. rewrite Hact. eexists. split; [reflexivity|].
    apply (state_ok_mapActive _ st active Hst Hact); [reflexivity|].
    set (newColumn := newColumnFor now active).
    assert (Hsplit : exists l1 l2, sheet_columns active = l1 ++ l2 /\
              match given afterColumnId with
              | Some after =>
                  splice_insert
                    (findIndex (fun c => String.eqb (column_id c) after) (sheet_columns active) + 1)
                    newColumn (sheet_columns active)
              | None => sheet_columns active ++ [newColumn]
              end = l1 ++ newColumn :: l2).
    { destruct (given afterColumnId).
      - apply splice_insert_split.
      - exists (sheet_columns active), []. rewrite app_nil_r. split; reflexivity. }
    destruct Hsplit as (l1 & l2 & Hsplit & ->).
    split; [|split; [|split]]; simpl.
    + destruct l1; discriminate.
    + apply NoDup_map_insert; rewrite <- Hsplit; [exact Hcols|exact Hfresh].
    + rewrite map_map. exact Hrows.
    + intros r' Hr'. simpl in Hr'. apply in_map_iff in Hr'. destruct Hr' as (r & <- & Hr).
      simpl. rewrite dom_insert_L, (Hkeys r Hr), list_to_set_map_insert, <- Hsplit.
      reflexivity.
  - intros columnId. unfold deleteColumn. rewrite Hact.
    destruct (length (sheet_columns active) <=? 1)%nat eqn:Hlen; [eauto|].
    apply Nat.leb_gt in Hlen. eexists. split; [reflexivity|].
    apply (state_ok_mapActive _ st active Hst Hact); [reflexivity|].
    split; [|split; [|split]]; simpl.
    + pose proof (filter_key_length column_id columnId (sheet_columns active) Hcols) as H.
      intros Hnil. rewrite Hnil in H. simpl in H. lia.
    + apply NoDup_map_filter. exact Hcols.
    + rewrite map_map. exact Hrows.
    + intros r' Hr'. simpl in Hr'. apply in_map_iff in Hr'. destruct Hr' as (r & <- & Hr).
      simpl. rewrite dom_delete_L, (Hkeys r Hr), list_to_set_map_filter. reflexivity.
  - intros columnId newName. unfold renameColumn. eexists. split; [reflexivity|].
    apply (state_ok_mapActive _ st active Hst Hact); [reflexivity|].
    apply sheet_ok_set_columns; [exact Hactive|].
    rewrite map_map. apply map_ext. intros c.
    destruct (String.eqb (column_id c) columnId); reflexivity.
  - intros columnId. unfold toggleColumnType. eexists. split; [reflexivity|].
    apply (state_ok_mapActive _ st active Hst Hact); [reflexivity|].
    apply sheet_ok_set_columns; [exact Hactive|].
    rewrite map_map. apply map_ext. intros c.
    destruct (String.eqb (column_id c) columnId); reflexivity.
Qed.

Lemma column_handlers_keep_order_witness :
  (exists st', addColumn None 7 Examples.state1 = Returned st' /\ state_ok st') /\
  (exists st', deleteColumn "a" Examples.state1 = Returned st' /\ state_ok st').
Proof.
  destruct (column_handlers_keep_order Examples.state1 state1_ok) as (Hadd & Hdel & _).
  split.
  - apply (Hadd None 7%N Examples.sheet1 eq_refl).
    intros c [<-|[<-|[]]]; discriminate.
  - apply Hdel.
Defined.

(** X12: the row and cell handlers keep the workbook in order.  From a
    state in order, [addRow] with an id that no row of the active sheet has,
    [deleteRow], [toggleSelectRow], [toggleSelectAll], and [updateCell]
    under the id of a column of the active sheet all return, and the state
    they return is in order. *)
Theorem row_handlers_keep_order (st : State) :
  state_ok st ->
  (forall afterRowId now active,
     activeSheet st = Some active ->
     (forall r, In r (sheet_rows active) -> row_id r <> "row-" +:+ pretty now) ->
     exists st', addRow afterRowId now st = Returned st' /\ state_ok st') /\
  (forall rowId, exists st', deleteRow rowId st = Returned st' /\ state_ok st') /\
  (forall rowId columnId value active,
     activeSheet st = Some active ->
     In columnId (map column_id (sheet_columns active)) ->
     exists st', updateCell rowId columnId value st = Returned st' /\ state_ok st') /\
  (forall rowId, exists st', toggleSelectRow rowId st = Returned st' /\ state_ok st') /\
  (exists st', toggleSelectAll st = Returned st' /\ state_ok st').
Proof.
  intros Hst.
  destruct (state_ok_active st Hst) as (active & Hact & Hin & Hid & Hactive & Honly).
  pose proof Hactive as (Hne & Hcols & Hrows & Hkeys).
  split; [|split; [|split; [|split]]].
  - intros afterRowId now active' Hact' Hfresh.
    rewrite Hact in Hact'. injection Hact' as <-.
    unfold addRow. rewrite Hact. eexists. split; [reflexivity|].
    apply (state_ok_mapActive _ st active Hst Hact); [reflexivity|].
    set (newRow := mkRow _ _ _).
    assert (Hsplit : exists l1 l2, sheet_rows active = l1 ++ l2 /\
              match given afterRowId with
              | Some after =>
                  splice_insert
                    (findIndex (fun r => String.eqb (row_id r) after) (sheet_rows active) + 1)
                    newRow (sheet_rows active)
              | None => sheet_rows active ++ [newRow]
              end = l1 ++ newRow :: l2).
    { destruct (given afterRowId).
      - apply splice_insert_split.
      - exists (sheet_rows active), []. rewrite app_nil_r. split; reflexivity. }
    destruct Hsplit as (l1 & l2 & Hsplit & ->).
    split; [exact Hne|]. split; [exact Hcols|]. split; simpl.
    + apply NoDup_map_insert; rewrite <- Hsplit; [exact Hrows|exact Hfresh].
    + intros r Hr. simpl in Hr. apply in_app_or in Hr.
      destruct Hr as [Hr|[<-|Hr]].
      * apply Hkeys. rewrite Hsplit. apply in_or_app. left. exact Hr.
      * simpl. rewrite dom_list_to_map_L. f_equal.
        change (map (fun c => (column_id c, CNull)) (sheet_columns active))
          with ((fun c => (column_id c, CNull)) <$> sheet_columns active).
        rewrite <- list_fmap_compose. reflexivity.
      * apply Hkeys. rewrite Hsplit. apply in_or_app. right. exact Hr.
  - intros rowId. unfold deleteRow. eexists. split; [reflexivity|].
    apply (state_ok_mapActive _ st active Hst Hact); [reflexivity|].
    split; [exact Hne|]. split; [exact Hcols|]. split; simpl.
    + apply NoDup_map_filter. exact Hrows.
    + intros r Hr. simpl in Hr. apply filter_In in Hr. apply Hkeys. tauto.
  - intros rowId columnId value active' Hact' Hcolumn.
    rewrite Hact in Hact'. injection Hact' as <-.
    unfold updateCell. eexists. split; [reflexivity|].
    apply (state_ok_mapActive _ st active Hst Hact); [reflexivity|].
    apply sheet_ok_set_rows; [exact Hactive| |].
    + rewrite map_map. apply map_ext. intros r.
      destruct (String.eqb (row_id r) rowId); reflexivity.
    + intros r' Hr'. apply in_map_iff in Hr'. destruct Hr' as (r & <- & Hr).
      exists r. split; [exact Hr|].
      destruct (String.eqb (row_id r) rowId); [|reflexivity].
      simpl. rewrite dom_insert_L, (Hkeys r Hr).
      apply list_elem_of_In, (elem_of_list_to_set (C := gset string)) in Hcolumn.
      apply subseteq_union_1_L, singleton_subseteq_l. exact Hcolumn.
  - intros rowId. unfold toggleSelectRow. eexists. split; [reflexivity|].
    apply (state_ok_mapActive _ st active Hst Hact); [reflexivity|].
    apply sheet_ok_set_rows; [exact Hactive| |].
    + rewrite map_map. apply map_ext. intros r.
      destruct (String.eqb (row_id r) rowId); reflexivity.
    + intros r' Hr'. apply in_map_iff in Hr'. destruct Hr' as (r & <- & Hr).
      exists r. split; [exact Hr|].
      destruct (String.eqb (row_id r) rowId); reflexivity.
  - unfold toggleSelectAll. rewrite Hact. eexists. split; [reflexivity|].
    apply (state_ok_mapActive _ st active Hst Hact); [reflexivity|].
    apply sheet_ok_set_rows; [exact Hactive| |].
    + rewrite map_map. reflexivity.
    + intros r' Hr'. apply in_map_iff in Hr'. destruct Hr' as (r & <- & Hr).
      exists r. split; [exact Hr|reflexivity].
Qed.

Lemma row_handlers_keep_order_witness :
  (exists st', addRow None 9 Examples.state1 = Returned st' /\ state_ok st') /\
  (exists st', updateCell "r1" "b" (CNum 6) Examples.state1 = Returned st' /\ state_ok st').
Proof.
  destruct (row_handlers_keep_order Examples.state1 state1_ok) as (Hadd & _ & Hupd & _).
  split.
  - apply (Hadd None 9%N Examples.sheet1 eq_refl).
    intros r [<-|[]]. discriminate.
  - apply (Hupd "r1" "b" (CNum 6) Examples.sheet1 eq_refl).
    right. left. reflexivity.
Defined.

End HandlersKeepOrder.

(** *** The shape of an import *)

Section ImportShape.
Import Sheet Invariant Excel.

Lemma omap_snd_imap {A} (k : nat) (l : list (option A)) :
  omap snd (imap (fun i slot => ((k + i)%nat, slot)) l) = omap id l.
Proof.
  revert k. induction l as [|slot l IH]; intros k; [reflexivity|].
  rewrite imap_cons.
  rewrite (imap_ext _ (fun i slot => ((S k + i)%nat, slot)))
    by (intros i x _; unfold compose; f_equal; lia).
  cbn [omap list_omap snd id]. rewrite (IH (S k)). reflexivity.
Qed.

Section WithIds.
Variable randomUUID : nat -> string.

Lemma mapGen_makeColumn (rawRows : list (list JS.Value)) (headers : list (option JS.Value))
    (k n : nat) :
  mapGen (makeColumn randomUUID rawRows) (imap (fun i slot => ((k + i)%nat, slot)) headers) n
  = (imap (fun i slot =>
             match slot with
             | None => None
             | Some header =>
                 Some (mkImportedColumn
                         ("col-" +:+ randomUUID (n + length (omap id (take i headers))))
                         (JS.or_else header (JS.VStr "Sin título"))
                         (detectType rawRows (k + i)))
             end) headers,
     (n + length (omap id headers))%nat).
Proof.
  revert k n. induction headers as [|slot headers IH]; intros k n.
  - simpl. unfold ret. rewrite Nat.add_0_r. reflexivity.
  - rewrite !imap_cons.
    rewrite (imap_ext _ (fun i slot => ((S k + i)%nat, slot)))
      by (intros i x _; unfold compose; f_equal; lia).
    cbn [mapGen]. unfold bind at 1. destruct slot as [header|].
    + unfold makeColumn at 1, bind at 1, generateId, ret at 1.
      unfold bind at 1. rewrite (IH (S k) (S n)). unfold ret.
      cbn [take omap list_omap id length]. rewrite !Nat.add_0_r. f_equal.
      * f_equal. apply imap_ext. intros i x _. unfold compose.
        cbn [take omap list_omap id length].
        replace (n + S (length (omap id (take i headers))))%nat
          with (S n + length (omap id (take i headers)))%nat by lia.
        replace (k + S i)%nat with (S k + i)%nat by lia. reflexivity.
      * lia.
    + unfold makeColumn at 1, ret at 1.
      unfold bind at 1. rewrite (IH (S k) n). unfold ret.
      cbn [take omap list_omap id length]. f_equal. f_equal.
      apply imap_ext. intros i x _. unfold compose.
      cbn [take omap list_omap id length].
      replace (k + S i)%nat with (S k + i)%nat by lia. reflexivity.
Qed.

(** The columns that are no holes carry the ids drawn, in order. *)
Lemma mapGen_makeColumn_ids (rawRows : list (list JS.Value))
    (l : list (nat * option JS.Value)) (n : nat) :
  map imported_id (omap id (mapGen (makeColumn randomUUID rawRows) l n).1)
  = map (fun i => "col-" +:+ randomUUID i) (seq n (length (omap snd l))).
Proof.
  revert n. induction l as [|[i [header|]] l IH]; intros n; [reflexivity| |].
  - cbn [mapGen]. unfold bind at 1, makeColumn at 1, bind at 1, generateId, ret at 1.
    unfold bind at 1. specialize (IH (S n)).
    destruct (mapGen (makeColumn randomUUID rawRows) l (S n)) as [cols n'].
    unfold ret. cbn. cbn in IH. rewrite IH. reflexivity.
  - cbn [mapGen]. unfold bind at 1, makeColumn at 1, ret at 1.
    unfold bind at 1. specialize (IH n).
    destruct (mapGen (makeColumn randomUUID rawRows) l n) as [cols n'].
    unfold ret. cbn. cbn in IH. exact IH.
Qed.

Lemma mapGen_makeRow_ids (columns : list (option ImportedColumn))
    (rawRows : list (list JS.Value)) (n : nat) :
  mapGen (makeRow randomUUID columns) rawRows n
  = (imap (fun i rowArray => mkRow ("row-" +:+ randomUUID (n + i))
                                   (importCells columns rowArray) None) rawRows,
     (n + length rawRows)%nat).
Proof.
  revert n. induction rawRows as [|rowArray rawRows IH]; intros n.
  - simpl. unfold ret. rewrite Nat.add_0_r. reflexivity.
  - rewrite imap_cons. cbn [mapGen].
    unfold bind at 1. unfold makeRow at 1, bind at 1, generateId, ret at 1.
    unfold bind at 1. rewrite (IH (S n)). unfold ret.
    rewrite Nat.add_0_r. f_equal.
    + f_equal. apply imap_ext. intros i x _. unfold compose.
      replace (n + S i)%nat with (S n + i)%nat by lia. reflexivity.
    + cbn [length]. lia.
Qed.

Lemma importTable_eq (sheetName : string) (headers : list (option JS.Value))
    (rawRows : list (list JS.Value)) (n : nat) :
  importTable randomUUID (sheetName, Rows headers rawRows) n =
  (Some (mkImportedSheet
           ("sheet-" +:+ randomUUID (n + length (omap id headers) + length rawRows)) sheetName
           (mapGen (makeColumn randomUUID rawRows) (imap (fun i slot => (i, slot)) headers) n).1
           (imap (fun i rowArray =>
                    mkRow ("row-" +:+ randomUUID (n + length (omap id headers) + i))
                          (importCells
                             (mapGen (makeColumn randomUUID rawRows)
                                     (imap (fun i slot => (i, slot)) headers) n).1
                             rowArray) None) rawRows)),
   S (n + length (omap id headers) + length rawRows)).
Proof.
  unfold importTable, bind.
  pose proof (mapGen_makeColumn rawRows headers 0 n) as Hcols. cbn [Nat.add] in Hcols.
  rewrite Hcols, mapGen_makeRow_ids. reflexivity.
Qed.

Lemma importTable_columns (rawRows : list (list JS.Value)) (headers : list (option JS.Value))
    (n : nat) :
  (mapGen (makeColumn randomUUID rawRows) (imap (fun i slot => (i, slot)) headers) n).1
  = imap (fun i slot =>
            match slot with
            | None => None
            | Some header =>
                Some (mkImportedColumn
                        ("col-" +:+ randomUUID (n + length (omap id (take i headers))))
                        (JS.or_else header (JS.VStr "Sin título"))
                        (detectType rawRows i))
            end) headers.
Proof.
  pose proof (mapGen_makeColumn rawRows headers 0 n) as Hcols. cbn [Nat.add] in Hcols.
  rewrite Hcols. reflexivity.
Qed.

End WithIds.

(** X13: what one table becomes.  A table without any row gives no sheet
    and draws no id.  A table with a first row gives one sheet that keeps
    the table's name.  Its columns array is as long as the first row: it has
    a hole where the first row has one (a blank cell), for which no id is
    drawn, and for a cell with a value a column named by that value when it
    is truthy and [Sin título] when it is not (the empty text, zero,
    [false], [null]), typed by the sampling.  There is one row per data row
    in order, each with the cells built from the sheet's columns and no
    selection flag.  The ids are drawn in this order: one for each column
    that is no hole, the rows, the sheet.  Without data rows every column is
    [text]. *)
Theorem importTable_shape (randomUUID : nat -> string) (sheetName : string)
    (headers : list (option JS.Value)) (rawRows : list (list JS.Value)) (n : nat) :
  importTable randomUUID (sheetName, NoRows) n = (None, n) /\
  exists sh,
    importTable randomUUID (sheetName, Rows headers rawRows) n
      = (Some sh, S (n + length (omap id headers) + length rawRows)) /\
    imported_sheet_name sh = sheetName /\
    imported_sheet_id sh
      = "sheet-" +:+ randomUUID (n + length (omap id headers) + length rawRows)%nat /\
    length (imported_columns sh) = length headers /\
    length (imported_rows sh) = length rawRows /\
    (forall j, headers !! j = Some None -> imported_columns sh !! j = Some None) /\
    (forall j header, headers !! j = Some (Some header) ->
       imported_columns sh !! j
       = Some (Some (mkImportedColumn
                       ("col-" +:+ randomUUID (n + length (omap id (take j headers)))%nat)
                       (if JS.truthy header then header else JS.VStr "Sin título")
                       (detectType rawRows j)))) /\
    (forall i rowArray, rawRows !! i = Some rowArray ->
       imported_rows sh !! i
       = Some (mkRow ("row-" +:+ randomUUID (n + length (omap id headers) + i)%nat)
                     (importCells (imported_columns sh) rowArray) None)) /\
    (rawRows = [] -> forall c, In (Some c) (imported_columns sh) -> imported_type c = text).
Proof.
  split; [reflexivity|]. rewrite importTable_eq, importTable_columns.
  eexists. split; [reflexivity|].
  cbn [imported_sheet_name imported_sheet_id imported_columns imported_rows].
  split; [reflexivity|]. split; [reflexivity|].
  split; [apply length_imap|]. split; [apply length_imap|].
  split; [|split; [|split]].
  - intros j Hj. rewrite list_lookup_imap, Hj. reflexivity.
  - intros j header Hj. rewrite list_lookup_imap, Hj. reflexivity.
  - intros i rowArray Hi. rewrite list_lookup_imap, Hi. reflexivity.
  - intros -> c Hc. apply list_elem_of_In, elem_of_lookup_imap_1 in Hc.
    destruct Hc as (i & [header|] & Heq & _); [|discriminate Heq].
    injection Heq as ->. reflexivity.
Qed.

Lemma importTable_shape_witness :
  exists sh,
    importTable Examples.countingUUID ("Hoja1", Examples.sparseTable) 0%nat = (Some sh, 4%nat) /\
    imported_columns sh
    = [Some (mkImportedColumn "col-0" (JS.VStr "Producto") text);
       None;
       Some (mkImportedColumn "col-1" (JS.VNum 2024) number)].
Proof.
  destruct (importTable_shape Examples.countingUUID "Hoja1"
              [Some (JS.VStr "Producto"); None; Some (JS.VNum 2024)]
              [ [JS.VStr "A"; JS.VStr "x"; JS.VNum 3] ] 0%nat)
    as (_ & sh & Himp & _ & _ & Hlen & _ & Hhole & Hcol & _).
  exists sh. split; [exact Himp|].
  pose proof (Hcol 0%nat (JS.VStr "Producto") eq_refl) as H0.
  pose proof (Hhole 1%nat eq_refl) as H1.
  pose proof (Hcol 2%nat (JS.VNum 2024) eq_refl) as H2.
  destruct (imported_columns sh) as [|c0 [|c1 [|c2 [|c3 rest]]]]; try discriminate Hlen.
  injection H0 as ->. injection H1 as ->. injection H2 as ->. reflexivity.
Defined.

End ImportShape.

Section ImportInOrder.
Import Sheet Invariant Excel.

(** Every column that is no hole gives a key to the cell map of an imported
    row. *)
Lemma dom_importCells (columns : list (option ImportedColumn)) (rowArray : list JS.Value) :
  dom (importCells columns rowArray) = list_to_set (map imported_id (omap id columns)).
Proof.
  unfold importCells.
  assert (Hfold : forall (l : list (nat * option ImportedColumn)) (cells : gmap string CellValue),
    dom (fold_left
           (fun cells '(idx, slot) =>
              match slot with
              | Some col =>
                  <[imported_id col := importCell (imported_type col) (field rowArray idx)]>
                    cells
              | None => cells
              end) l cells)
    = dom cells ∪ list_to_set (map imported_id (omap snd l))).
  { induction l as [|[i [col|]] l IH]; intros cells; simpl.
    - rewrite union_empty_r_L. reflexivity.
    - rewrite IH, dom_insert_L. apply set_eq. intros k.
      rewrite !elem_of_union, elem_of_singleton. tauto.
    - apply IH. }
  rewrite Hfold, dom_empty_L, union_empty_l_L.
  pose proof (omap_snd_imap 0 columns) as Hsnd. cbn [Nat.add] in Hsnd.
  rewrite Hsnd. reflexivity.
Qed.

Lemma append_inj (p a b : string) : p +:+ a = p +:+ b -> a = b.
Proof.
  induction p as [|c p IH]; simpl; [intros H; exact H|].
  intros H. injection H as H. exact (IH H).
Qed.

Lemma NoDup_imap_ids {A B} (f : B -> string) (g : nat -> A -> B) (u : nat -> string)
    (p : string) (m : nat) (l : list A) :
  (forall a b, u a = u b -> a = b) ->
  (forall i x, f (g i x) = p +:+ u (m + i)%nat) ->
  NoDup (map f (imap g l)).
Proof.
  intros Hinj Hf. apply NoDup_alt. intros i j x Hi Hj.
  change (map f (imap g l)) with (f <$> imap g l) in Hi, Hj.
  rewrite list_lookup_fmap, list_lookup_imap in Hi, Hj.
  destruct (l !! i) as [a|]; [|discriminate]. destruct (l !! j) as [b|]; [|discriminate].
  simpl in Hi, Hj. injection Hi as Hi. injection Hj as Hj.
  rewrite Hf in Hi, Hj. rewrite <- Hj in Hi.
  apply append_inj, Hinj in Hi. lia.
Qed.

(** A column seen as a [Column] keeps its id and type, and its name is the
    text it had. *)
Lemma mapM_asColumn (columns : list (option ImportedColumn)) (typed : list Column) :
  mapM asColumn columns = Some typed ->
  map column_id typed = map imported_id (omap id columns) /\
  length typed = length columns.
Proof.
  intros H. apply mapM_Some in H. induction H as [|slot c columns typed Hc _ [IH1 IH2]].
  - split; reflexivity.
  - destruct slot as [col|]; [|discriminate Hc]. simpl in Hc.
    destruct (imported_name col); try discriminate Hc. injection Hc as <-.
    cbn. rewrite IH1, IH2. split; reflexivity.
Qed.

Section WithIds.
Variable randomUUID : nat -> string.

(** The sheet made from a table: the keys of its rows, its distinct ids,
    and when it is a [DynamicSheet]. *)
Lemma imported_keys (sheetName : string) (headers : list (option JS.Value))
    (rawRows : list (list JS.Value)) (n : nat) :
  exists sh,
    importTable randomUUID (sheetName, Rows headers rawRows) n
      = (Some sh, S (n + length (omap id headers) + length rawRows)) /\
    imported_sheet_name sh = sheetName /\
    imported_sheet_id sh
      = "sheet-" +:+ randomUUID (n + length (omap id headers) + length rawRows)%nat /\
    (forall r, In r (imported_rows sh) ->
       dom (row_cells r) = list_to_set (map imported_id (omap id (imported_columns sh)))) /\
    ((forall a b, randomUUID a = randomUUID b -> a = b) ->
     NoDup (map imported_id (omap id (imported_columns sh))) /\
     NoDup (map row_id (imported_rows sh))) /\
    length (imported_columns sh) = length headers /\
    (is_Some (asSheet sh) <->
     forall slot, In slot headers ->
       exists header, slot = Some header /\
                      (JS.truthy header = true -> exists s, header = JS.VStr s)).
Proof.
  rewrite importTable_eq. eexists. split; [reflexivity|].
  cbn [imported_sheet_name imported_sheet_id imported_columns imported_rows].
  split; [reflexivity|]. split; [reflexivity|]. split; [|split; [|split]].
  - intros r Hr.
    apply list_elem_of_In, elem_of_lookup_imap_1 in Hr. destruct Hr as (i & rowArray & -> & _).
    apply dom_importCells.
  - intros Hinj. split.
    + rewrite mapGen_makeColumn_ids.
      assert (Hcol : Inj eq eq (fun i => "col-" +:+ randomUUID i)).
      { intros a b Hab. apply append_inj, Hinj in Hab. exact Hab. }
      apply (NoDup_fmap_2 _), NoDup_seq.
    + apply (NoDup_imap_ids _ _ randomUUID "row-" (n + length (omap id headers)));
        [exact Hinj|reflexivity].
  - rewrite importTable_columns. apply length_imap.
  - unfold asSheet. cbn [imported_columns]. rewrite importTable_columns.
    set (columns := imap _ headers).
    transitivity (is_Some (mapM asColumn columns)).
    { destruct (mapM asColumn columns); split; intros [x Hx]; eauto; discriminate Hx. }
    rewrite mapM_is_Some, Forall_lookup. unfold columns. split.
    + intros Hall slot Hslot. apply list_elem_of_In, list_elem_of_lookup in Hslot.
      destruct Hslot as [j Hj].
      specialize (Hall j). rewrite list_lookup_imap, Hj in Hall.
      specialize (Hall _ eq_refl). unfold compose in Hall. destruct Hall as [c Hc].
      destruct slot as [header|]; [|discriminate Hc].
      exists header. split; [reflexivity|]. intros Htrue.
      cbn in Hc. unfold JS.or_else in Hc. rewrite Htrue in Hc.
      destruct header; try discriminate Hc. eauto.
    + intros Hall j slot Hj. rewrite list_lookup_imap in Hj.
      destruct (headers !! j) as [slot0|] eqn:Hslot; [|discriminate Hj].
      injection Hj as <-.
      assert (Hin : In slot0 headers)
        by (apply list_elem_of_In; eapply list_elem_of_lookup_2; eauto).
      destruct (Hall slot0 Hin) as (header & -> & Htext).
      unfold compose. cbn. unfold JS.or_else.
      destruct (JS.truthy header) eqn:Htrue; [|eauto].
      destruct (Htext eq_refl) as [s ->]. eauto.
Qed.

(** The sheet made from a table whose first row has no hole and only texts
    or falsy values is a [DynamicSheet] with rows keyed by its columns, and
    one in order when the ids drawn are distinct and the first row has a
    cell. *)
Lemma imported_typed (sh : ImportedSheet) (typed : DynamicSheet) :
  asSheet sh = Some typed ->
  sheet_id typed = imported_sheet_id sh /\
  sheet_name typed = imported_sheet_name sh /\
  sheet_rows typed = imported_rows sh /\
  map column_id (sheet_columns typed) = map imported_id (omap id (imported_columns sh)) /\
  length (sheet_columns typed) = length (imported_columns sh).
Proof.
  unfold asSheet. destruct (mapM asColumn (imported_columns sh)) as [columns|] eqn:Hcols;
    [|discriminate].
  intros [= <-]. destruct (mapM_asColumn _ _ Hcols) as [Hids Hlen].
  repeat split; assumption.
Qed.

(** The sheets pushed for a list of tables: their names, and for each the
    table it comes from and the place of its ids in the sequence of ids
    drawn. *)
Lemma mapGen_importTable (tables : Workbook) (n : nat) :
  exists pushed n',
    mapGen (importTable randomUUID) tables n = (pushed, n') /\
    (n <= n')%nat /\
    map imported_sheet_name (omap (fun o => o) pushed)
      = omap (fun entry : string * JsonData =>
                match entry.2 with NoRows => None | Rows _ _ => Some entry.1 end) tables /\
    (forall sh, In sh (omap (fun o : option ImportedSheet => o) pushed) ->
       exists name headers rawRows m,
         In (name, Rows headers rawRows) tables /\
         (n <= m)%nat /\ (S (m + length (omap id headers) + length rawRows) <= n')%nat /\
         importTable randomUUID (name, Rows headers rawRows) m
         = (Some sh, S (m + length (omap id headers) + length rawRows))).
Proof.
  revert n. induction tables as [|[name data] tables IH]; intros n.
  - exists [], n. split; [reflexivity|]. split; [lia|]. split; [reflexivity|].
    intros sh [].
  - cbn [mapGen]. unfold bind at 1.
    destruct data as [|headers rawRows].
    + cbn [importTable]. unfold ret at 1.
      destruct (IH n) as (pushed & n' & Hrest & Hle & Hnames & Hsheets).
      unfold bind at 1. rewrite Hrest. unfold ret.
      exists (None :: pushed), n'. split; [reflexivity|]. split; [exact Hle|].
      split; [exact Hnames|].
      intros sh Hsh. destruct (Hsheets sh Hsh) as (nm & h & r & m & Hin & H1 & H2 & H3).
      exists nm, h, r, m. split; [right; exact Hin|]. auto.
    + destruct (imported_keys name headers rawRows n) as (sh0 & Himp & Hname & _).
      rewrite Himp.
      destruct (IH (S (n + length (omap id headers) + length rawRows)))
        as (pushed & n' & Hrest & Hle & Hnames & Hsheets).
      unfold bind at 1. rewrite Hrest. unfold ret.
      exists (Some sh0 :: pushed), n'. split; [reflexivity|]. split; [lia|].
      split; [cbn; rewrite Hname; f_equal; exact Hnames|].
      intros sh [<-|Hsh].
      * exists name, headers, rawRows, n. split; [left; reflexivity|].
        split; [lia|]. split; [exact Hle|exact Himp].
      * destruct (Hsheets sh Hsh) as (nm & h & r & m & Hin & H1 & H2 & H3).
        exists nm, h, r, m. split; [right; exact Hin|]. split; [lia|]. auto.
Qed.

Lemma mapGen_importTable_ids (tables : Workbook) (n : nat) :
  (forall a b, randomUUID a = randomUUID b -> a = b) ->
  NoDup (map imported_sheet_id
             (omap (fun o => o) (mapGen (importTable randomUUID) tables n).1)).
Proof.
  intros Hinj. revert n. induction tables as [|[name data] tables IH]; intros n.
  - constructor.
  - cbn [mapGen]. unfold bind at 1.
    destruct data as [|headers rawRows].
    + cbn [importTable]. unfold ret at 1. unfold bind at 1.
      specialize (IH n). destruct (mapGen (importTable randomUUID) tables n) as [pushed n'].
      exact IH.
    + destruct (imported_keys name headers rawRows n) as (sh0 & Himp & _ & Hid & _).
      rewrite Himp.
      destruct (mapGen_importTable tables (S (n + length (omap id headers) + length rawRows)))
        as (pushed & n' & Hrest & _ & _ & Hsheets).
      specialize (IH (S (n + length (omap id headers) + length rawRows))).
      unfold bind at 1. rewrite Hrest in *. unfold ret. cbn.
      apply NoDup_cons. split; [|exact IH].
      intros Hin. apply list_elem_of_In, in_map_iff in Hin.
      destruct Hin as (sh & Heq & Hsh).
      destruct (Hsheets sh Hsh) as (nm & h & r & m & _ & Hm & _ & Himp').
      destruct (imported_keys nm h r m) as (sh' & Himp'' & _ & Hid' & _).
      rewrite Himp' in Himp''. injection Himp'' as <-.
      rewrite Hid, Hid' in Heq. apply append_inj, Hinj in Heq. lia.
Qed.

End WithIds.

(** X14: when an imported sheet is a sheet in order.  Whatever the ids
    drawn, every row of the sheet made from a table has exactly the ids of
    the columns that are no holes as keys.  The sheet is a [DynamicSheet],
    with its columns array free of holes and every column name a text,
    exactly when every cell of the first row has a value that is a text or
    is falsy: a blank cell or a number other than zero in the first row
    gives a sheet that is none.  When it is one, its rows are keyed by exactly its columns,
    and if moreover the ids drawn are pairwise distinct and the first row
    is not empty, it has a column, distinct column ids and distinct row
    ids. *)
Theorem imported_sheet_in_order (randomUUID : nat -> string) (sheetName : string)
    (headers : list (option JS.Value)) (rawRows : list (list JS.Value)) (n : nat) :
  exists sh n',
    importTable randomUUID (sheetName, Rows headers rawRows) n = (Some sh, n') /\
    (forall r, In r (imported_rows sh) ->
       dom (row_cells r) = list_to_set (map imported_id (omap id (imported_columns sh)))) /\
    (is_Some (asSheet sh) <->
     forall slot, In slot headers ->
       exists header, slot = Some header /\
                      (JS.truthy header = true -> exists s, header = JS.VStr s)) /\
    (forall typed, asSheet sh = Some typed ->
       keys_are_columns typed /\
       ((forall a b, randomUUID a = randomUUID b -> a = b) -> headers <> [] ->
        sheet_ok typed)).
Proof.
  destruct (imported_keys randomUUID sheetName headers rawRows n)
    as (sh & Himp & _ & _ & Hkeys & Hnd & Hlen & Htyped).
  exists sh, (S (n + length (omap id headers) + length rawRows)).
  split; [exact Himp|]. split; [exact Hkeys|]. split; [exact Htyped|].
  intros typed Hview.
  destruct (imported_typed sh typed Hview) as (_ & _ & Hrows & Hids & Hcols).
  assert (Hk : keys_are_columns typed).
  { intros r Hr. rewrite Hrows in Hr. rewrite Hids. exact (Hkeys r Hr). }
  split; [exact Hk|].
  intros Hinj Hne. destruct (Hnd Hinj) as [Hc Hr].
  split; [|split; [|split]].
  - intros Hnil. apply Hne. rewrite Hnil in Hcols. simpl in Hcols.
    rewrite Hlen in Hcols. destruct headers; [reflexivity|discriminate Hcols].
  - rewrite Hids. exact Hc.
  - rewrite Hrows. exact Hr.
  - exact Hk.
Qed.

Lemma countingUUID_inj (a b : nat) :
  Examples.countingUUID a = Examples.countingUUID b -> a = b.
Proof. unfold Examples.countingUUID. apply (inj pretty). Qed.

Lemma imported_sheet_in_order_witness :
  exists sh n' typed,
    importTable Examples.countingUUID ("Hoja1", Examples.productTable) 0%nat = (Some sh, n') /\
    asSheet sh = Some typed /\
    sheet_ok typed.
Proof.
  destruct (imported_sheet_in_order Examples.countingUUID "Hoja1"
              [Some (JS.VStr "Producto"); Some (JS.VStr "Stock")]
              [ [JS.VStr "A"; JS.VStr "50"]; [JS.VStr "B"; JS.VStr "abc"] ] 0%nat)
    as (sh & n' & Himp & _ & Hview & Hok).
  destruct (proj2 Hview) as [typed Htyped].
  - intros slot [<-|[<-|[]]]; eexists; (split; [reflexivity|]); intros _; eauto.
  - exists sh, n', typed. split; [exact Himp|]. split; [exact Htyped|].
    apply (Hok typed Htyped); [exact countingUUID_inj|discriminate].
Defined.

(** X15: a successful import opens the editor in order.  When the ids drawn
    are pairwise distinct and the first row of every table has a cell, no
    blank cell, and only texts or falsy values, the import of a workbook
    resolves with one sheet per table that has rows, in the order and under
    the names of the tables; each of them is a [DynamicSheet] in order, no
    two have the same id; and if there is one, the editor mounted on them
    starts in order with the first sheet active. *)
Theorem import_opens_in_order (randomUUID : nat -> string) (workbook : Workbook) (n : nat) :
  (forall a b, randomUUID a = randomUUID b -> a = b) ->
  (forall name headers rawRows, In (name, Rows headers rawRows) workbook ->
     headers <> [] /\
     forall slot, In slot headers ->
       exists header, slot = Some header /\
                      (JS.truthy header = true -> exists s, header = JS.VStr s)) ->
  exists imported n' typed,
    parseExcelFile randomUUID (Some workbook) n = (Resolved imported, n') /\
    mapM asSheet imported = Some typed /\
    map sheet_name typed
      = omap (fun entry : string * JsonData =>
                match entry.2 with NoRows => None | Rows _ _ => Some entry.1 end) workbook /\
    (forall sh, In sh typed -> sheet_ok sh) /\
    NoDup (map sheet_id typed) /\
    (typed <> [] ->
     state_ok (Dashboard.editorState typed) /\
     activeSheet (Dashboard.editorState typed) = head typed).
Proof.
  intros Hinj Hheaders.
  pose proof (mapGen_importTable_ids randomUUID workbook n Hinj) as Hids.
  destruct (mapGen_importTable randomUUID workbook n)
    as (pushed & n' & Hgen & _ & Hnames & Hsheets).
  rewrite Hgen in Hids. simpl in Hids.
  unfold parseExcelFile, bind. rewrite Hgen. unfold ret.
  set (imported := omap (fun o => o) pushed) in *.
  assert (Hview : forall sh, In sh imported ->
            exists t, asSheet sh = Some t /\ sheet_ok t /\
                      (exists k, sheet_id t = "sheet-" +:+ randomUUID k)).
  { intros sh Hsh. destruct (Hsheets sh Hsh) as (nm & h & r & m & Hin & _ & _ & Himp).
    destruct (Hheaders nm h r Hin) as [Hne Hcells].
    destruct (imported_keys randomUUID nm h r m)
      as (sh' & Himp' & _ & Hid & Hkeys & Hnd & Hlen & Htyped).
    rewrite Himp in Himp'. injection Himp' as <-.
    destruct (proj2 Htyped Hcells) as [t Ht]. exists t. split; [exact Ht|].
    destruct (imported_typed sh t Ht) as (Hsid & _ & Hrows & Hcids & Hcols).
    destruct (Hnd Hinj) as [Hc Hr].
    assert (Hk : keys_are_columns t).
    { intros row Hrow. rewrite Hrows in Hrow. rewrite Hcids. exact (Hkeys row Hrow). }
    split.
    - split; [|split; [|split]].
      + intros Hnil. apply Hne. rewrite Hnil in Hcols. simpl in Hcols.
        rewrite Hlen in Hcols. destruct h; [reflexivity|discriminate Hcols].
      + rewrite Hcids. exact Hc.
      + rewrite Hrows. exact Hr.
      + exact Hk.
    - eexists. rewrite Hsid. exact Hid. }
  assert (Hsome : is_Some (mapM asSheet imported)).
  { apply mapM_is_Some, Forall_forall. intros sh Hsh. apply list_elem_of_In in Hsh.
    destruct (Hview sh Hsh) as (t & Ht & _). unfold compose. rewrite Ht. eauto. }
  destruct Hsome as [typed Htyped]. pose proof Htyped as Hall. apply mapM_Some in Hall.
  assert (Hfrom : forall t, In t typed -> exists sh, In sh imported /\ asSheet sh = Some t).
  { intros t Ht. apply list_elem_of_In, list_elem_of_lookup in Ht. destruct Ht as [i Hi].
    destruct (Forall2_lookup_r _ _ _ _ _ Hall Hi) as (sh & Hsh & Hst).
    exists sh. split; [|exact Hst]. apply list_elem_of_In. eapply list_elem_of_lookup_2; eauto. }
  assert (Hmap : map sheet_id typed = map imported_sheet_id imported /\
                 map sheet_name typed = map imported_sheet_name imported).
  { clear -Hall. induction Hall as [|sh t imported typed Hst _ [IH1 IH2]]; [split; reflexivity|].
    destruct (imported_typed sh t Hst) as (Hid & Hname & _).
    cbn. rewrite Hid, Hname, IH1, IH2. split; reflexivity. }
  destruct Hmap as [Hmid Hmname].
  assert (Hok : forall t, In t typed -> sheet_ok t).
  { intros t Ht. destruct (Hfrom t Ht) as (sh & Hsh & Hst).
    destruct (Hview sh Hsh) as (t' & Ht' & Hokt & _). congruence. }
  assert (Hnd : NoDup (map sheet_id typed)) by (rewrite Hmid; exact Hids).
  exists imported, n', typed. split; [reflexivity|]. split; [exact Htyped|].
  split; [rewrite Hmname; exact Hnames|]. split; [exact Hok|].
  split; [exact Hnd|].
  clear Htyped Hall Hmid Hmname.
  intros Hne. destruct typed as [|first rest]; [contradiction|].
  destruct (Hfrom first (or_introl eq_refl)) as (sh & Hsh & Hst).
  destruct (Hview sh Hsh) as (t' & Ht' & _ & (k & Hid)).
  assert (t' = first) by congruence. subst t'.
  unfold Dashboard.editorState, initialState.
  assert (Hnonempty : String.eqb (sheet_id first) "" = false).
  { rewrite Hid. reflexivity. }
  rewrite Hnonempty. split.
  - split; [exact Hnd|]. split; [left; reflexivity|exact Hok].
  - unfold activeSheet. cbn [sheets activeSheetId List.find].
    rewrite String.eqb_refl. reflexivity.
Qed.

Lemma import_opens_in_order_witness :
  exists imported n' typed,
    parseExcelFile Examples.countingUUID
      (Some [("Vacía", NoRows); ("Hoja1", Examples.productTable)]) 0%nat
      = (Resolved imported, n') /\
    mapM asSheet imported = Some typed /\
    map sheet_name typed = ["Hoja1"] /\
    state_ok (Dashboard.editorState typed).
Proof.
  destruct (import_opens_in_order Examples.countingUUID
              [("Vacía", NoRows); ("Hoja1", Examples.productTable)] 0%nat countingUUID_inj)
    as (imported & n' & typed & Hparse & Htyped & Hnames & _ & _ & Hstate).
  - intros name headers rawRows [Hin|[Hin|[]]]; [discriminate Hin|].
    injection Hin as _ <- _. split; [discriminate|].
    intros slot [<-|[<-|[]]]; eexists; (split; [reflexivity|]); intros _; eauto.
  - exists imported, n', typed. split; [exact Hparse|]. split; [exact Htyped|].
    split; [exact Hnames|]. apply Hstate. intros ->. discriminate Hnames.
Defined.

End ImportInOrder.

(** *** Export to flat records *)

Section ExportFacts.
Import Sheet Dashboard.

Lemma assign_plain (key : string) (v : JS.Value) (obj : PlainObject) :
  key <> "__proto__" ->
  assign key v obj = mkPlainObject (<[key := v]> (properties obj)) (prototypeIsNull obj).
Proof.
  intros Hkey. unfold assign. apply String.eqb_neq in Hkey. rewrite Hkey. reflexivity.
Qed.

Lemma assign_written (key : string) (v : JS.Value) (obj : PlainObject) :
  prototypeIsNull obj = true \/ has (properties obj) "__proto__" = true ->
  assign key v obj = mkPlainObject (<[key := v]> (properties obj)) (prototypeIsNull obj) /\
  (prototypeIsNull (assign key v obj) = true \/
   has (properties (assign key v obj)) "__proto__" = true).
Proof.
  intros Hwritten.
  assert (Heq : assign key v obj
                = mkPlainObject (<[key := v]> (properties obj)) (prototypeIsNull obj)).
  { unfold assign. destruct Hwritten as [-> | ->];
      rewrite ?andb_false_r; reflexivity. }
  split; [exact Heq|]. rewrite Heq. cbn [properties prototypeIsNull].
  destruct Hwritten as [Hnull|Hhas]; [left; exact Hnull|right].
  unfold has in *. destruct (decide (key = "__proto__")) as [->|Hne].
  - rewrite lookup_insert_eq. reflexivity.
  - rewrite lookup_insert_ne by exact Hne. exact Hhas.
Qed.

(** Writing [null] under [__proto__] leaves an object on which every key is
    written as a property. *)
Lemma assign_proto_null (obj : PlainObject) :
  prototypeIsNull (assign "__proto__" JS.VNull obj) = true \/
  has (properties (assign "__proto__" JS.VNull obj)) "__proto__" = true.
Proof.
  destruct (prototypeIsNull obj) eqn:Hnull.
  - apply assign_written. left. exact Hnull.
  - destruct (has (properties obj) "__proto__") eqn:Hhas.
    + apply assign_written. right. exact Hhas.
    + left. unfold assign. rewrite Hnull, Hhas. reflexivity.
Qed.

Lemma assign_other (key : string) (v : JS.Value) (obj : PlainObject) (k : string) :
  key <> k ->
  properties (assign key v obj) !! k = properties obj !! k.
Proof.
  intros Hne. unfold assign.
  destruct (String.eqb key "__proto__" && negb (prototypeIsNull obj)
            && negb (has (properties obj) "__proto__")).
  - destruct v; reflexivity.
  - apply lookup_insert_ne. exact Hne.
Qed.

Lemma flatten_step_other (row : Row) (columns : list Column) (obj : PlainObject)
    (k : string) :
  (forall c, In c columns -> column_name c <> k) ->
  properties
    (fold_left (fun obj col => assign (column_name col)
                                      (cellOrUndefined (row_cells row !! column_id col)) obj)
               columns obj) !! k
  = properties obj !! k.
Proof.
  revert obj. induction columns as [|c columns IH]; intros obj Hne; simpl; [reflexivity|].
  rewrite IH by (intros c' Hc'; apply Hne; right; exact Hc').
  apply assign_other. apply Hne. left. reflexivity.
Qed.

Lemma flatten_step_last (row : Row) (columns : list Column) (obj : PlainObject)
    (j : nat) (col : Column) :
  columns !! j = Some col ->
  column_name col <> "__proto__" \/
    (prototypeIsNull obj = true \/ has (properties obj) "__proto__" = true) ->
  (forall j' col', columns !! j' = Some col' -> (j < j')%nat ->
                   column_name col' <> column_name col) ->
  properties
    (fold_left (fun obj col => assign (column_name col)
                                      (cellOrUndefined (row_cells row !! column_id col)) obj)
               columns obj) !! column_name col
  = Some (cellOrUndefined (row_cells row !! column_id col)).
Proof.
  revert obj j. induction columns as [|c columns IH]; intros obj j Hj Hwritten Hlater.
  - discriminate Hj.
  - destruct j as [|j]; simpl in *.
    + injection Hj as ->. rewrite flatten_step_other.
      * destruct Hwritten as [Hproto|Hplain].
        -- rewrite assign_plain by exact Hproto. apply lookup_insert_eq.
        -- rewrite (proj1 (assign_written _ _ _ Hplain)). apply lookup_insert_eq.
      * intros c' Hc'. apply list_elem_of_In, list_elem_of_lookup in Hc'.
        destruct Hc' as [i Hi]. apply (Hlater (S i) c' Hi). lia.
    + apply (IH _ j Hj).
      * destruct Hwritten as [Hproto|Hplain]; [left; exact Hproto|right].
        exact (proj2 (assign_written _ _ _ Hplain)).
      * intros j' col' Hj' Hlt. apply (Hlater (S j') col' Hj'). lia.
Qed.

(** A key other than [__proto__] is in the record exactly when it is the
    name of a column. *)
Lemma flatten_step_has (row : Row) (columns : list Column) (obj : PlainObject)
    (k : string) :
  k <> "__proto__" ->
  (is_Some (properties
              (fold_left (fun obj col => assign (column_name col)
                                      (cellOrUndefined (row_cells row !! column_id col)) obj)
                         columns obj) !! k)
   <-> is_Some (properties obj !! k) \/ exists c, In c columns /\ column_name c = k).
Proof.
  intros Hk. revert obj. induction columns as [|c columns IH]; intros obj; simpl.
  - split; [auto|]. intros [H|(c & [] & _)]. exact H.
  - rewrite IH. destruct (decide (column_name c = k)) as [Heq|Hne].
    + split; [intros _; right; exists c; auto|].
      intros _. left. rewrite assign_plain by congruence.
      cbn [properties]. rewrite Heq, lookup_insert_eq. eauto.
    + rewrite assign_other by exact Hne. split.
      * intros [H|(c' & Hc' & Hn)]; [auto|]. right. exists c'. auto.
      * intros [H|(c' & [<-|Hc'] & Hn)]; [auto|contradiction|]. right. exists c'. auto.
Qed.

(** While the prototype is [Object.prototype], writes under [__proto__]
    create no key; they do once one of them, not the last, has written
    [null]. *)
Lemma flatten_step_proto_none (row : Row) (columns : list Column) (obj : PlainObject) :
  prototypeIsNull obj = false ->
  properties obj !! "__proto__" = None ->
  (forall i j ci cj, columns !! i = Some ci -> columns !! j = Some cj -> (i < j)%nat ->
     column_name ci = "__proto__" -> column_name cj = "__proto__" ->
     cellOrUndefined (row_cells row !! column_id ci) <> JS.VNull) ->
  properties
    (fold_left (fun obj col => assign (column_name col)
                                      (cellOrUndefined (row_cells row !! column_id col)) obj)
               columns obj) !! "__proto__"
  = None.
Proof.
  revert obj. induction columns as [|c columns IH]; intros obj Hproto Hnone Hpairs.
  - exact Hnone.
  - cbn [fold_left].
    assert (Hrest : forall i j ci cj, columns !! i = Some ci -> columns !! j = Some cj ->
              (i < j)%nat -> column_name ci = "__proto__" -> column_name cj = "__proto__" ->
              cellOrUndefined (row_cells row !! column_id ci) <> JS.VNull).
    { intros i j ci cj Hi Hj Hlt. apply (Hpairs (S i) (S j) ci cj Hi Hj). lia. }
    destruct (decide (column_name c = "__proto__")) as [Heq|Hne].
    + unfold assign at 2. rewrite Heq, Hproto. unfold has. rewrite Hnone. cbn [String.eqb
        Ascii.eqb Bool.eqb andb negb].
      destruct (cellOrUndefined (row_cells row !! column_id c)) eqn:Hv;
        try (apply IH; assumption).
      rewrite flatten_step_other; [exact Hnone|].
      intros c' Hc' Hname. apply list_elem_of_In, list_elem_of_lookup in Hc'.
      destruct Hc' as [j Hj].
      apply (Hpairs 0%nat (S j) c c' eq_refl Hj); [lia|exact Heq|exact Hname|exact Hv].
    + rewrite assign_plain by exact Hne. apply IH; [exact Hproto| |exact Hrest].
      cbn [properties]. rewrite lookup_insert_ne by exact Hne. exact Hnone.
Qed.

Lemma flatten_step_proto_some (row : Row) (columns : list Column) (obj : PlainObject)
    (i j : nat) (ci cj : Column) :
  columns !! i = Some ci -> columns !! j = Some cj -> (i < j)%nat ->
  column_name ci = "__proto__" -> column_name cj = "__proto__" ->
  cellOrUndefined (row_cells row !! column_id ci) = JS.VNull ->
  (forall j' col', columns !! j' = Some col' -> (j < j')%nat ->
                   column_name col' <> "__proto__") ->
  properties
    (fold_left (fun obj col => assign (column_name col)
                                      (cellOrUndefined (row_cells row !! column_id col)) obj)
               columns obj) !! "__proto__"
  = Some (cellOrUndefined (row_cells row !! column_id cj)).
Proof.
  revert obj i j. induction columns as [|c columns IH];
    intros obj i j Hi Hj Hlt Hni Hnj Hnull Hlater.
  - discriminate Hi.
  - cbn [fold_left]. destruct j as [|j]; [lia|]. cbn in Hj.
    assert (Hlater' : forall j' col', columns !! j' = Some col' -> (j < j')%nat ->
                                      column_name col' <> column_name cj).
    { intros j' col' Hj' Hlt'. rewrite Hnj. apply (Hlater (S j') col' Hj'). lia. }
    destruct i as [|i].
    + injection Hi as ->. rewrite <- Hnj.
      apply (flatten_step_last row columns _ j cj Hj); [|exact Hlater'].
      right. rewrite Hni, Hnull. apply assign_proto_null.
    + cbn in Hi. apply (IH _ i j Hi Hj); try assumption; [lia|].
      intros j' col' Hj' Hlt'. apply (Hlater (S j') col' Hj'). lia.
Qed.

(** X16: how a row is flattened.  The record read under the name of a
    column, other than [__proto__], holds the cell of the last column
    carrying that name (the cell's value, or [undefined] when the row lacks
    the key), so columns sharing a name collapse to the last one; a name
    that no column carries is not a key of the record.  Columns named
    [__proto__] give no key, unless one of them that is not the last holds
    [null]: that write removes the prototype, and [__proto__] is then a key
    that holds the cell of the last column of that name. *)
Theorem flattenRow_last_column_wins (columns : list Column) (row : Row) :
  (forall j col,
     columns !! j = Some col ->
     column_name col <> "__proto__" ->
     (forall j' col', columns !! j' = Some col' -> (j < j')%nat ->
                      column_name col' <> column_name col) ->
     flattenRow columns row !! column_name col
     = Some (cellOrUndefined (row_cells row !! column_id col))) /\
  (forall k, (forall c, In c columns -> column_name c <> k) ->
             flattenRow columns row !! k = None) /\
  ((forall i j ci cj, columns !! i = Some ci -> columns !! j = Some cj -> (i < j)%nat ->
      column_name ci = "__proto__" -> column_name cj = "__proto__" ->
      cellOrUndefined (row_cells row !! column_id ci) <> JS.VNull) ->
   flattenRow columns row !! "__proto__" = None) /\
  (forall i j ci cj,
     columns !! i = Some ci -> columns !! j = Some cj -> (i < j)%nat ->
     column_name ci = "__proto__" -> column_name cj = "__proto__" ->
     cellOrUndefined (row_cells row !! column_id ci) = JS.VNull ->
     (forall j' col', columns !! j' = Some col' -> (j < j')%nat ->
                      column_name col' <> "__proto__") ->
     flattenRow columns row !! "__proto__"
     = Some (cellOrUndefined (row_cells row !! column_id cj))).
Proof.
  unfold flattenRow, flattenObject. split; [|split; [|split]].
  - intros j col Hj Hproto Hlater.
    exact (flatten_step_last row columns _ j col Hj (or_introl Hproto) Hlater).
  - intros k Hk. rewrite flatten_step_other by exact Hk. apply lookup_empty.
  - intros Hpairs. apply flatten_step_proto_none; [reflexivity|apply lookup_empty|exact Hpairs].
  - intros i j ci cj. apply flatten_step_proto_some.
Qed.

Lemma flattenRow_last_column_wins_witness :
  flattenRow [mkColumn "a" "Stock" text; mkColumn "b" "Stock" number] Examples.row1 !! "Stock"
  = Some (JS.VNum 5) /\
  flattenRow [mkColumn "n" "__proto__" text; mkColumn "b" "__proto__" number]
             (mkRow "r" (<["n" := CNull]> (<["b" := CNum 5]> ∅)) None) !! "__proto__"
  = Some (JS.VNum 5).
Proof.
  split.
  - destruct (flattenRow_last_column_wins
                [mkColumn "a" "Stock" text; mkColumn "b" "Stock" number] Examples.row1)
      as (Hlast & _).
    apply (Hlast 1%nat (mkColumn "b" "Stock" number)).
    + reflexivity.
    + discriminate.
    + intros j' col' Hj' Hlt. destruct j' as [|[|j']]; [lia|lia|discriminate Hj'].
  - destruct (flattenRow_last_column_wins
                [mkColumn "n" "__proto__" text; mkColumn "b" "__proto__" number]
                (mkRow "r" (<["n" := CNull]> (<["b" := CNum 5]> ∅)) None))
      as (_ & _ & _ & Hproto).
    apply (Hproto 0%nat 1%nat (mkColumn "n" "__proto__" text) (mkColumn "b" "__proto__" number));
      try reflexivity; try lia.
    intros j' col' Hj' Hlt. destruct j' as [|[|j']]; [lia|lia|discriminate Hj'].
Defined.

(** X17: what is handed to the chart builder.  Without a sheet there is
    no record.  When no row of the first sheet is flagged the records are
    those of all its rows, in order; when some row is flagged they are
    those of the flagged rows only, in order.  So a first sheet with rows
    never gives an empty list, and whenever [handleOpenChart] shows the
    modal instead of setting its message, the list it hands over is not
    empty. *)
Theorem getSelectedData_fallback (first : DynamicSheet) (others : list DynamicSheet) :
  getSelectedData [] = [] /\
  (forallb (fun r => negb (is_selected r)) (sheet_rows first) = true ->
   getSelectedData (first :: others)
   = map (flattenRow (sheet_columns first)) (sheet_rows first)) /\
  (existsb is_selected (sheet_rows first) = true ->
   getSelectedData (first :: others)
   = map (flattenRow (sheet_columns first)) (List.filter is_selected (sheet_rows first))) /\
  (sheet_rows first <> [] -> getSelectedData (first :: others) <> []) /\
  (forall spreadsheetData,
     handleOpenChart spreadsheetData = inr tt -> getSelectedData spreadsheetData <> []).
Proof.
  assert (Hnone : forall rows : list Row,
            forallb (fun r => negb (is_selected r)) rows = true ->
            List.filter is_selected rows = []).
  { induction rows as [|r rows IH]; simpl; [reflexivity|].
    intros H. apply andb_true_iff in H. destruct H as [Hr H].
    apply negb_true_iff in Hr. rewrite Hr. exact (IH H). }
  assert (Hsome : forall rows : list Row,
            existsb is_selected rows = true -> List.filter is_selected rows <> []).
  { intros rows H Hnil. apply existsb_exists in H. destruct H as (r & Hr & Hsel).
    assert (Hin : In r (List.filter is_selected rows)) by (apply filter_In; auto).
    rewrite Hnil in Hin. exact Hin. }
  assert (Hrows : forall s rest, sheet_rows s <> [] -> getSelectedData (s :: rest) <> []).
  { intros s rest Hne. unfold getSelectedData.
    destruct (List.filter is_selected (sheet_rows s)) eqn:E.
    - destruct (sheet_rows s); [contradiction|discriminate].
    - discriminate. }
  split; [reflexivity|]. split; [|split; [|split]].
  - intros H. unfold getSelectedData. rewrite (Hnone _ H). reflexivity.
  - intros H. unfold getSelectedData.
    destruct (List.filter is_selected (sheet_rows first)) eqn:E; [|reflexivity].
    exfalso. exact (Hsome _ H E).
  - apply Hrows.
  - intros spreadsheetData Hopen. destruct spreadsheetData as [|s rest]; [discriminate|].
    apply Hrows. simpl in Hopen. destruct (sheet_rows s); [discriminate|discriminate].
Qed.

Lemma getSelectedData_fallback_witness :
  getSelectedData [Examples.sheet1]
  = map (flattenRow (sheet_columns Examples.sheet1)) (sheet_rows Examples.sheet1).
Proof.
  destruct (getSelectedData_fallback Examples.sheet1 []) as (_ & Hall & _).
  apply Hall. reflexivity.
Defined.

(** X18: what is handed to the indicators, the report and the
    calculation.  Only the first sheet counts; there is one record per row
    of it, in order; the record's [_selected] key holds the row's flag and
    every other key reads as in the flattened row. *)
Theorem getSpreadsheetDataForAI_records (first : DynamicSheet) (others : list DynamicSheet) :
  getSpreadsheetDataForAI [] = [] /\
  length (getSpreadsheetDataForAI (first :: others)) = length (sheet_rows first) /\
  forall i row,
    sheet_rows first !! i = Some row ->
    exists record,
      getSpreadsheetDataForAI (first :: others) !! i = Some record /\
      record !! "_selected"
      = Some (match row_selected row with Some b => JS.VBool b | None => JS.VUndefined end) /\
      forall k, k <> "_selected" ->
                record !! k = flattenRow (sheet_columns first) row !! k.
Proof.
  split; [reflexivity|]. split; [apply length_map|].
  intros i row Hi. unfold getSpreadsheetDataForAI.
  change (map ?f (sheet_rows first)) with (f <$> sheet_rows first).
  rewrite list_lookup_fmap, Hi. eexists. split; [reflexivity|].
  rewrite assign_plain by discriminate. cbn [properties]. split.
  - apply lookup_insert_eq.
  - intros k Hk. apply lookup_insert_ne. congruence.
Qed.

Lemma getSpreadsheetDataForAI_records_witness :
  exists record,
    getSpreadsheetDataForAI [Examples.sheet1; Examples.sheet2] !! 0%nat = Some record /\
    record !! "_selected" = Some JS.VUndefined.
Proof.
  destruct (getSpreadsheetDataForAI_records Examples.sheet1 [Examples.sheet2])
    as (_ & _ & Hrec).
  destruct (Hrec 0%nat Examples.row1 eq_refl) as (record & Hi & Hsel & _).
  exists record. split; [exact Hi|exact Hsel].
Defined.

End ExportFacts.

(** *** Counting by stock level *)

Section FloatOrder.

Lemma SFcompare_swap (x y : spec_float) :
  SFcompare y x = option_map CompOpp (SFcompare x y).
Proof.
  destruct x as [sx|sx| |sx mx ex], y as [sy|sy| |sy my ey]; simpl; try reflexivity;
    repeat match goal with s : bool |- _ => destruct s end; simpl; try reflexivity.
  all: change (Pos.compare_cont Eq) with Pos.compare.
  all: rewrite (Z.compare_antisym ex ey), (Pos.compare_antisym mx my).
  all: destruct (ex ?= ey)%Z; simpl; try reflexivity;
       destruct (mx ?= my)%positive; reflexivity.
Qed.

Lemma SFcompare_self (x : spec_float) :
  SFcompare x x = match x with S754_nan => None | _ => Some Eq end.
Proof.
  destruct x as [s|s| |s m e]; simpl; try reflexivity; destruct s; try reflexivity.
  all: change (Pos.compare_cont Eq) with Pos.compare.
  all: rewrite Z.compare_refl, Pos.compare_refl; reflexivity.
Qed.

Lemma SFcompare_some (x y : spec_float) :
  x <> S754_nan -> y <> S754_nan -> exists c, SFcompare x y = Some c.
Proof.
  intros Hx Hy.
  destruct x as [sx|sx| |sx mx ex], y as [sy|sy| |sy my ey]; simpl; try contradiction; eauto.
Qed.

Lemma is_nan_spec (x : float) :
  PrimFloat.is_nan x = false <-> Prim2SF x <> S754_nan.
Proof.
  unfold PrimFloat.is_nan. rewrite FloatAxioms.eqb_spec. unfold SFeqb. rewrite SFcompare_self.
  destruct (Prim2SF x); simpl; split; intros H; try discriminate; try reflexivity;
    try (intros H'; discriminate H'). contradiction.
Qed.

(** [a < b] excludes [b <= a]. *)
Lemma lt_not_ge (a b : float) : JS.lt a b = true -> JS.le b a = false.
Proof.
  unfold JS.lt, JS.le. rewrite ltb_spec, leb_spec. unfold SFltb, SFleb.
  rewrite (SFcompare_swap (Prim2SF a) (Prim2SF b)).
  destruct (SFcompare (Prim2SF a) (Prim2SF b)) as [[]|]; simpl; congruence.
Qed.

(** Of two numbers, neither [NaN], one is below the other or the other is at
    most the one. *)
Lemma not_lt_ge (a b : float) :
  JS.isNaN a = false -> JS.isNaN b = false -> JS.lt a b = false -> JS.le b a = true.
Proof.
  unfold JS.isNaN, JS.lt, JS.le. rewrite !is_nan_spec, ltb_spec, leb_spec.
  intros Ha Hb. unfold SFltb, SFleb.
  rewrite (SFcompare_swap (Prim2SF a) (Prim2SF b)).
  destruct (SFcompare_some _ _ Ha Hb) as [c ->]. destruct c; simpl; congruence.
Qed.

Lemma le_not_nan (a b : float) :
  JS.le a b = true -> JS.isNaN a = false /\ JS.isNaN b = false.
Proof.
  unfold JS.isNaN, JS.le. rewrite !is_nan_spec, leb_spec. unfold SFleb.
  destruct (Prim2SF a), (Prim2SF b); simpl; try discriminate; intros _; split; discriminate.
Qed.

Lemma SFleb_ltb_not_ltb (x y z : spec_float) :
  SFleb x y = true -> SFltb y z = true -> SFltb z x = false.
Proof.
  unfold SFleb, SFltb.
  destruct x as [sx|sx| |sx mx ex], y as [sy|sy| |sy my ey], z as [sz|sz| |sz mz ez];
    simpl; try discriminate; try reflexivity;
    repeat match goal with s : bool |- _ => destruct s end;
    simpl; try discriminate; try reflexivity.
  all: change (Pos.compare_cont Eq) with Pos.compare.
  all: repeat match goal with
         | |- context [(?a ?= ?b)%Z] => destruct (Z.compare_spec a b); subst
         | |- context [(?a ?= ?b)%positive] => destruct (Pos.compare_spec a b); subst
         end; simpl; try discriminate; try reflexivity; intros; try lia.
Qed.

(** [a <= b] and [b < c] exclude [c < a]. *)
Lemma le_lt_not_lt (a b c : float) :
  JS.le a b = true -> JS.lt b c = true -> JS.lt c a = false.
Proof.
  unfold JS.le, JS.lt. rewrite leb_spec, !ltb_spec. apply SFleb_ltb_not_ltb.
Qed.

End FloatOrder.

Section StockCounts.
Import Sheet Dashboard.

Lemma has_is_Some (record : gmap string JS.Value) (k : string) :
  has record k = true <-> is_Some (record !! k).
Proof.
  unfold has. destruct (record !! k); split; intros H; try reflexivity; try discriminate; eauto.
  destruct H as [? H]. discriminate H.
Qed.

(** A record of the export has one of the stock keys exactly when a column
    carries that name. *)
Lemma record_has_column (columns : list Column) (row : Row) (v : JS.Value) (k : string) :
  k <> "_selected" -> k <> "__proto__" ->
  (has (properties (assign "_selected" v (flattenObject columns row))) k = true
   <-> exists c, In c columns /\ column_name c = k).
Proof.
  intros Hsel Hproto. rewrite has_is_Some.
  rewrite assign_other by congruence.
  unfold flattenObject. rewrite (flatten_step_has row columns _ k Hproto).
  cbn [properties]. rewrite lookup_empty. split.
  - intros [[? H]|H]; [discriminate H|exact H].
  - intros H. right. exact H.
Qed.

Lemma handleCalculate_inr (spreadsheetData : list DynamicSheet) (stockMinimo stockMaximo : float)
    (calc : StockCalculation) :
  handleCalculate spreadsheetData stockMinimo stockMaximo = inr calc ->
  total_productos calc = length (getSpreadsheetDataForAI spreadsheetData) /\
  total_stock calc
  = fold_left (fun total row => (total + stockOf row)%float)
              (getSpreadsheetDataForAI spreadsheetData) PrimFloat.zero /\
  productos_bajo_stock calc
  = length (List.filter (isBajo stockMinimo) (getSpreadsheetDataForAI spreadsheetData)) /\
  productos_stock_correcto calc
  = length (List.filter (isCorrecto stockMinimo stockMaximo)
                        (getSpreadsheetDataForAI spreadsheetData)) /\
  productos_alto_stock calc
  = length (List.filter (isAlto stockMaximo) (getSpreadsheetDataForAI spreadsheetData)).
Proof.
  unfold handleCalculate.
  set (data := getSpreadsheetDataForAI spreadsheetData).
  assert (Hfold : forall l a b c,
    (fold_left
       (fun '(totalStock, totalCoste, countWithCost) row =>
          let stock := stockOf row in
          let cost := costOf row in
          if JS.gt cost PrimFloat.zero
          then ((totalStock + stock)%float, (totalCoste + cost)%float,
                (countWithCost + 1)%float)
          else ((totalStock + stock)%float, totalCoste, countWithCost))
       l (a, b, c)).1.1
    = fold_left (fun total row => (total + stockOf row)%float) l a).
  { induction l as [|row l IH]; intros a b c; simpl; [reflexivity|].
    destruct (JS.gt (costOf row) PrimFloat.zero); apply IH. }
  specialize (Hfold data PrimFloat.zero PrimFloat.zero PrimFloat.zero).
  destruct data as [|record data'] eqn:Hdata; [discriminate|].
  destruct (negb (existsb _ (record :: data'))); [discriminate|].
  destruct (fold_left _ (record :: data') _) as [[a b] c].
  intros [= <-]. simpl in *. rewrite Hfold. repeat split.
Qed.

(** X19: when [handleCalculate] calculates.  Without a sheet, or with a
    first sheet without rows, it sets the message that asks for data; with
    rows but no column named [Stock Actual], [stock_actual] or [Stock], it
    sets the message that asks for a stock column; with rows and such a
    column it sets a calculation whose number of products is the number of
    rows of the first sheet. *)
Theorem handleCalculate_outcomes (stockMinimo stockMaximo : float) :
  handleCalculate [] stockMinimo stockMaximo = inl "Añade datos a la hoja primero" /\
  forall first others,
    (sheet_rows first = [] ->
     handleCalculate (first :: others) stockMinimo stockMaximo
     = inl "Añade datos a la hoja primero") /\
    (sheet_rows first <> [] ->
     (forall c, In c (sheet_columns first) ->
        column_name c <> "Stock Actual" /\ column_name c <> "stock_actual" /\
        column_name c <> "Stock") ->
     handleCalculate (first :: others) stockMinimo stockMaximo
     = inl "La hoja debe tener una columna de Stock") /\
    (sheet_rows first <> [] ->
     (exists c, In c (sheet_columns first) /\
        (column_name c = "Stock Actual" \/ column_name c = "stock_actual" \/
         column_name c = "Stock")) ->
     exists calc,
       handleCalculate (first :: others) stockMinimo stockMaximo = inr calc /\
       total_productos calc = length (sheet_rows first)).
Proof.
  split; [reflexivity|]. intros first others.
  assert (Hkeys : forall row v k,
            (k = "Stock Actual" \/ k = "stock_actual" \/ k = "Stock") ->
            (has (properties (assign "_selected" v (flattenObject (sheet_columns first) row))) k
             = true
             <-> exists c, In c (sheet_columns first) /\ column_name c = k)).
  { intros row v k Hk. apply record_has_column; destruct Hk as [->|[->| ->]]; discriminate. }
  split; [|split].
  - intros Hrows. unfold handleCalculate, getSpreadsheetDataForAI. rewrite Hrows. reflexivity.
  - intros Hrows Hnone. unfold handleCalculate, getSpreadsheetDataForAI.
    destruct (sheet_rows first) as [|row rows] eqn:E; [contradiction|].
    cbn [map].
    set (data := _ :: map _ rows).
    assert (Hex : existsb (fun row0 => has row0 "Stock Actual" || has row0 "stock_actual"
                                       || has row0 "Stock") data = false).
    { destruct (existsb _ data) eqn:Hex; [|reflexivity]. exfalso.
      apply existsb_exists in Hex. destruct Hex as (record & Hrec & Hhas).
      assert (Hform : exists row' v,
                record = properties (assign "_selected" v
                                       (flattenObject (sheet_columns first) row'))).
      { destruct Hrec as [<-|Hrec]; [eauto|].
        apply in_map_iff in Hrec. destruct Hrec as (row' & <- & _). eauto. }
      destruct Hform as (row' & v & ->).
      apply orb_true_iff in Hhas. destruct Hhas as [Hhas|Hhas];
        [apply orb_true_iff in Hhas; destruct Hhas as [Hhas|Hhas]|];
        apply Hkeys in Hhas; auto; destruct Hhas as (c & Hc & Hn);
        destruct (Hnone c Hc) as (H1 & H2 & H3); congruence. }
    unfold data in *. rewrite Hex. reflexivity.
  - intros Hrows (c & Hc & Hname).
    destruct (handleCalculate (first :: others) stockMinimo stockMaximo) as [msg|calc] eqn:Hcalc.
    + exfalso. unfold handleCalculate, getSpreadsheetDataForAI in Hcalc.
      destruct (sheet_rows first) as [|row rows] eqn:E; [contradiction|].
      cbn [map] in Hcalc.
      set (record := properties (assign "_selected" _ (flattenObject (sheet_columns first) row)))
        in Hcalc.
      assert (Hhas : has record "Stock Actual" || has record "stock_actual"
                     || has record "Stock" = true).
      { unfold record. destruct Hname as [Hn|[Hn|Hn]].
        - rewrite (proj2 (Hkeys row _ "Stock Actual" (or_introl eq_refl))) by eauto.
          reflexivity.
        - rewrite (proj2 (Hkeys row _ "stock_actual" (or_intror (or_introl eq_refl)))) by eauto.
          rewrite orb_true_r. reflexivity.
        - rewrite (proj2 (Hkeys row _ "Stock" (or_intror (or_intror eq_refl)))) by eauto.
          rewrite orb_true_r. reflexivity. }
      cbn [existsb] in Hcalc. rewrite Hhas in Hcalc. cbn [orb negb] in Hcalc.
      destruct (fold_left _ _ _) as [[a b] c0] in Hcalc. discriminate Hcalc.
    + exists calc. split; [reflexivity|].
      destruct (handleCalculate_inr _ _ _ _ Hcalc) as (Htotal & _).
      rewrite Htotal. unfold getSpreadsheetDataForAI. apply length_map.
Qed.

Lemma handleCalculate_outcomes_witness :
  exists calc,
    handleCalculate [Examples.stockSheet] 10 100 = inr calc /\
    total_productos calc = 1%nat.
Proof.
  destruct (handleCalculate_outcomes 10 100) as (_ & Hsheet).
  destruct (Hsheet Examples.stockSheet []) as (_ & _ & Hcalc).
  apply Hcalc; [discriminate|].
  exists (mkColumn "stock_actual" "Stock Actual" number).
  split; [right; left; reflexivity|left; reflexivity].
Defined.

End StockCounts.

Section Buckets.
Import Sheet Dashboard.

Lemma lt_not_nan (a b : float) :
  JS.lt a b = true -> JS.isNaN a = false /\ JS.isNaN b = false.
Proof.
  unfold JS.isNaN, JS.lt. rewrite !is_nan_spec, ltb_spec. unfold SFltb.
  destruct (Prim2SF a), (Prim2SF b); simpl; try discriminate; intros _; split; discriminate.
Qed.

(** With [stockMinimo <= stockMaximo], a stock falls in at most one of the
    three filters of [handleCalculate], and in one exactly when it is a
    number. *)
Lemma bucket_of_row (stockMinimo stockMaximo : float) (record : gmap string JS.Value) :
  JS.le stockMinimo stockMaximo = true ->
  ((if isBajo stockMinimo record then 1 else 0)
   + (if isCorrecto stockMinimo stockMaximo record then 1 else 0)
   + (if isAlto stockMaximo record then 1 else 0)
   = if negb (JS.isNaN (stockOf record)) then 1 else 0)%nat.
Proof.
  intros Hle. unfold isBajo, isCorrecto, isAlto.
  change (JS.ge (stockOf record) stockMinimo) with (JS.le stockMinimo (stockOf record)).
  change (JS.gt (stockOf record) stockMaximo) with (JS.lt stockMaximo (stockOf record)).
  destruct (le_not_nan _ _ Hle) as [Hmin Hmax].
  pose proof (lt_not_ge (stockOf record) stockMinimo) as H1.
  pose proof (lt_not_ge stockMaximo (stockOf record)) as H2.
  pose proof (le_lt_not_lt stockMinimo stockMaximo (stockOf record) Hle) as H3.
  pose proof (fun H => not_lt_ge (stockOf record) stockMinimo H Hmin) as H4.
  pose proof (not_lt_ge stockMaximo (stockOf record) Hmax) as H5.
  pose proof (fun H => proj2 (le_not_nan stockMinimo (stockOf record) H)) as H6.
  pose proof (fun H => proj1 (le_not_nan (stockOf record) stockMaximo H)) as H7.
  pose proof (fun H => proj1 (lt_not_nan (stockOf record) stockMinimo H)) as H8.
  pose proof (fun H => proj2 (lt_not_nan stockMaximo (stockOf record) H)) as H9.
  destruct (JS.lt (stockOf record) stockMinimo),
           (JS.le stockMinimo (stockOf record)),
           (JS.lt stockMaximo (stockOf record)),
           (JS.le (stockOf record) stockMaximo),
           (JS.isNaN (stockOf record));
    cbn [andb negb]; try reflexivity; exfalso;
    try (specialize (H1 eq_refl); discriminate H1);
    try (specialize (H2 eq_refl); discriminate H2);
    try (specialize (H3 eq_refl); discriminate H3);
    try (specialize (H4 eq_refl eq_refl); discriminate H4);
    try (specialize (H5 eq_refl eq_refl); discriminate H5);
    try (specialize (H6 eq_refl); discriminate H6);
    try (specialize (H7 eq_refl); discriminate H7);
    try (specialize (H8 eq_refl); discriminate H8);
    try (specialize (H9 eq_refl); discriminate H9).
Qed.

Lemma length_filter_cons {A} (f : A -> bool) (x : A) (l : list A) :
  length (List.filter f (x :: l)) = ((if f x then 1 else 0) + length (List.filter f l))%nat.
Proof. simpl. destruct (f x); reflexivity. Qed.

Lemma buckets_of_rows (stockMinimo stockMaximo : float) (data : list (gmap string JS.Value)) :
  JS.le stockMinimo stockMaximo = true ->
  (length (List.filter (isBajo stockMinimo) data)
   + length (List.filter (isCorrecto stockMinimo stockMaximo) data)
   + length (List.filter (isAlto stockMaximo) data)
   = length (List.filter (fun record => negb (JS.isNaN (stockOf record))) data))%nat.
Proof.
  intros Hle. induction data as [|record data IH]; [reflexivity|].
  rewrite !length_filter_cons.
  pose proof (bucket_of_row stockMinimo stockMaximo record Hle) as Hrow.
  lia.
Qed.

(** X20: the three counts of [handleCalculate].  When the minimum threshold
    is at most the maximum one, the products below, within and above the
    thresholds are together the rows whose stock is a number: a row whose
    stock reads as [NaN] is counted in the total and in none of the three,
    and no row is counted twice. *)
Theorem handleCalculate_buckets (spreadsheetData : list DynamicSheet)
    (stockMinimo stockMaximo : float) (calc : StockCalculation) :
  handleCalculate spreadsheetData stockMinimo stockMaximo = inr calc ->
  JS.le stockMinimo stockMaximo = true ->
  (productos_bajo_stock calc + productos_stock_correcto calc + productos_alto_stock calc
   = length (List.filter (fun record => negb (JS.isNaN (stockOf record)))
                         (getSpreadsheetDataForAI spreadsheetData)))%nat /\
  (productos_bajo_stock calc + productos_stock_correcto calc + productos_alto_stock calc
   <= total_productos calc)%nat.
Proof.
  intros Hcalc Hle.
  destruct (handleCalculate_inr _ _ _ _ Hcalc) as (Htotal & _ & Hbajo & Hcorrecto & Halto).
  rewrite Hbajo, Hcorrecto, Halto, Htotal, (buckets_of_rows _ _ _ Hle).
  split; [reflexivity|]. apply List.filter_length_le.
Qed.

End Buckets.

Section Indicators.
Import Sheet Dashboard.

Lemma kpi_fold_counts (stockMinimo stockMaximo : float) (data : list (gmap string JS.Value)) :
  forall acc,
    (criticalProducts (fold_left (kpiStep stockMinimo stockMaximo) data acc)
     + healthyProducts (fold_left (kpiStep stockMinimo stockMaximo) data acc)
     + excessProducts (fold_left (kpiStep stockMinimo stockMaximo) data acc)
     = criticalProducts acc + healthyProducts acc + excessProducts acc + length data)%nat.
Proof.
  induction data as [|item data IH]; intros acc; simpl; [lia|].
  rewrite IH. unfold kpiStep.
  destruct (JS.lt (stockOf item) _); [simpl; lia|].
  destruct (JS.gt (stockOf item) _); simpl; lia.
Qed.

(** X21: [KPICards] counts every record once: its critical, healthy and
    excess counters add up to the number of records, whatever the records
    and the thresholds. *)
Theorem KPICards_counts_every_record (data : list (gmap string JS.Value))
    (stockMinimo stockMaximo : float) :
  (criticalProducts (KPICards data stockMinimo stockMaximo)
   + healthyProducts (KPICards data stockMinimo stockMaximo)
   + excessProducts (KPICards data stockMinimo stockMaximo)
   = length data)%nat.
Proof. unfold KPICards. rewrite kpi_fold_counts. simpl. lia. Qed.

Lemma or_else_falsy (a b : JS.Value) : JS.truthy a = false -> JS.or_else a b = b.
Proof. intros H. unfold JS.or_else. rewrite H. reflexivity. Qed.

Lemma kpi_fold_shared (stockMinimo stockMaximo : float) (data : list (gmap string JS.Value)) :
  JS.le stockMinimo stockMaximo = true ->
  (forall record, In record data ->
     JS.truthy (get record "Stock Mínimo") = false /\
     JS.truthy (get record "stock_minimo") = false /\
     JS.truthy (get record "Stock Máximo") = false /\
     JS.truthy (get record "stock_maximo") = false) ->
  forall acc,
    criticalProducts (fold_left (kpiStep stockMinimo stockMaximo) data acc)
    = (criticalProducts acc + length (List.filter (isBajo stockMinimo) data))%nat /\
    excessProducts (fold_left (kpiStep stockMinimo stockMaximo) data acc)
    = (excessProducts acc + length (List.filter (isAlto stockMaximo) data))%nat /\
    healthyProducts (fold_left (kpiStep stockMinimo stockMaximo) data acc)
    = (healthyProducts acc
       + length (List.filter (isCorrecto stockMinimo stockMaximo) data)
       + length (List.filter (fun record => JS.isNaN (stockOf record)) data))%nat.
Proof.
  intros Hle. induction data as [|item data IH]; intros Hown acc.
  - simpl. repeat split; lia.
  - cbn [fold_left]. rewrite !length_filter_cons.
    destruct (IH (fun record H => Hown record (or_intror H))
                 (kpiStep stockMinimo stockMaximo acc item)) as (-> & -> & ->).
    destruct (Hown item (or_introl eq_refl)) as (H1 & H2 & H3 & H4).
    pose proof (bucket_of_row stockMinimo stockMaximo item Hle) as Hrow.
    pose proof (le_lt_not_lt stockMinimo stockMaximo (stockOf item) Hle) as Hboth.
    unfold kpiStep.
    rewrite (or_else_falsy (get item "Stock Mínimo")), (or_else_falsy (get item "stock_minimo")),
      (or_else_falsy (get item "Stock Máximo")), (or_else_falsy (get item "stock_maximo"))
      by assumption.
    cbn [JS.Number].
    unfold isBajo, isAlto in *.
    change (JS.gt (stockOf item) stockMaximo) with (JS.lt stockMaximo (stockOf item)) in *.
    destruct (JS.lt (stockOf item) stockMinimo), (JS.lt stockMaximo (stockOf item)),
             (isCorrecto stockMinimo stockMaximo item), (JS.isNaN (stockOf item));
      cbn [negb] in Hrow; cbn [criticalProducts healthyProducts excessProducts];
      try specialize (Hboth eq_refl); try discriminate;
      repeat split; lia.
Qed.

Lemma kpi_fold_totalStock (stockMinimo stockMaximo : float)
    (data : list (gmap string JS.Value)) :
  forall acc,
    totalStock (fold_left (kpiStep stockMinimo stockMaximo) data acc)
    = fold_left (fun total row => (total + stockOf row)%float) data (totalStock acc).
Proof.
  induction data as [|item data IH]; intros acc; [reflexivity|].
  cbn [fold_left]. rewrite IH. f_equal. unfold kpiStep.
  destruct (JS.lt (stockOf item) _); [reflexivity|].
  destruct (JS.gt (stockOf item) _); reflexivity.
Qed.

(** X22: the cards and the calculation of the page, computed from the same
    export with the same thresholds.  The total stock is always the same.
    When the minimum is at most the maximum and no record carries a
    threshold of its own, the critical and excess counters of [KPICards] are
    the products below and above of [handleCalculate], and its healthy
    counter is the products within the thresholds plus the records whose
    stock reads as [NaN]. *)
Theorem KPICards_and_handleCalculate (spreadsheetData : list DynamicSheet)
    (stockMinimo stockMaximo : float) (calc : StockCalculation) :
  handleCalculate spreadsheetData stockMinimo stockMaximo = inr calc ->
  totalStock (KPICards (getSpreadsheetDataForAI spreadsheetData) stockMinimo stockMaximo)
  = total_stock calc /\
  (JS.le stockMinimo stockMaximo = true ->
   (forall record, In record (getSpreadsheetDataForAI spreadsheetData) ->
      JS.truthy (get record "Stock Mínimo") = false /\
      JS.truthy (get record "stock_minimo") = false /\
      JS.truthy (get record "Stock Máximo") = false /\
      JS.truthy (get record "stock_maximo") = false) ->
   criticalProducts (KPICards (getSpreadsheetDataForAI spreadsheetData) stockMinimo stockMaximo)
   = productos_bajo_stock calc /\
   excessProducts (KPICards (getSpreadsheetDataForAI spreadsheetData) stockMinimo stockMaximo)
   = productos_alto_stock calc /\
   healthyProducts (KPICards (getSpreadsheetDataForAI spreadsheetData) stockMinimo stockMaximo)
   = (productos_stock_correcto calc
      + length (List.filter (fun record => JS.isNaN (stockOf record))
                            (getSpreadsheetDataForAI spreadsheetData)))%nat).
Proof.
  intros Hcalc.
  destruct (handleCalculate_inr _ _ _ _ Hcalc) as (_ & Hstock & Hbajo & Hcorrecto & Halto).
  split.
  - unfold KPICards. rewrite kpi_fold_totalStock, Hstock. reflexivity.
  - intros Hle Hown. unfold KPICards.
    destruct (kpi_fold_shared stockMinimo stockMaximo _ Hle Hown
                (mkKPIs PrimFloat.zero PrimFloat.zero 0 0 0)) as (-> & -> & ->).
    rewrite Hbajo, Hcorrecto, Halto. simpl. repeat split.
Qed.

Lemma pdf_fold (stockMinimo stockMaximo : float) (data : list (gmap string JS.Value)) :
  forall (acc : PDFExport.Totals) (kpis : KPIs),
    PDFExport.totalStock acc = totalStock kpis ->
    PDFExport.criticalCount acc = criticalProducts kpis ->
    PDFExport.totalStock (fold_left (PDFExport.step stockMinimo) data acc)
    = totalStock (fold_left (kpiStep stockMinimo stockMaximo) data kpis) /\
    PDFExport.criticalCount (fold_left (PDFExport.step stockMinimo) data acc)
    = criticalProducts (fold_left (kpiStep stockMinimo stockMaximo) data kpis) /\
    ((forall record, In record data -> JS.truthy (get record "Precio") = false) ->
     PDFExport.inventoryValue acc = inventoryValue kpis ->
     PDFExport.inventoryValue (fold_left (PDFExport.step stockMinimo) data acc)
     = inventoryValue (fold_left (kpiStep stockMinimo stockMaximo) data kpis)).
Proof.
  induction data as [|item data IH]; intros acc kpis Hstock Hcritical.
  - simpl. repeat split; auto.
  - cbn [fold_left].
    assert (Hcost : JS.truthy (get item "Precio") = false ->
                    PDFExport.costOf item = costOf item).
    { intros Hprecio. unfold PDFExport.costOf, costOf. f_equal.
      generalize (JS.or_else (JS.or_else (get item "Coste Unit.") (get item "coste_unitario"))
                             (get item "Coste")).
      intros v. unfold JS.or_else.
      destruct (JS.truthy v) eqn:E; [rewrite E; reflexivity|].
      rewrite Hprecio. reflexivity. }
    destruct (IH (PDFExport.step stockMinimo acc item) (kpiStep stockMinimo stockMaximo kpis item))
      as (H1 & H2 & H3).
    + unfold PDFExport.step, kpiStep. simpl.
      destruct (JS.lt (stockOf item) _); [simpl; congruence|].
      destruct (JS.gt (stockOf item) _); simpl; congruence.
    + unfold PDFExport.step, kpiStep. simpl.
      destruct (JS.lt (stockOf item) _); [simpl; congruence|].
      destruct (JS.gt (stockOf item) _); simpl; congruence.
    + split; [exact H1|]. split; [exact H2|].
      intros Hprecio Hvalue. apply H3.
      * intros record Hin. apply Hprecio. right. exact Hin.
      * specialize (Hcost (Hprecio item (or_introl eq_refl))).
        unfold PDFExport.step, kpiStep. simpl.
        destruct (JS.lt (stockOf item) _); [simpl; congruence|].
        destruct (JS.gt (stockOf item) _); simpl; congruence.
Qed.

(** X23: the report and the cards, computed from the same records with the
    same minimum threshold.  The total stock and the number of critical
    products of [generatePDF] are those of [KPICards], whatever the maximum
    threshold; the inventory value is the same when no record has a truthy
    [Precio], the one cost alias the report does not read. *)
Theorem PDFExport_and_KPICards (data : list (gmap string JS.Value))
    (stockMinimo stockMaximo : float) :
  PDFExport.totalStock (PDFExport.totals data stockMinimo)
  = totalStock (KPICards data stockMinimo stockMaximo) /\
  PDFExport.criticalCount (PDFExport.totals data stockMinimo)
  = criticalProducts (KPICards data stockMinimo stockMaximo) /\
  ((forall record, In record data -> JS.truthy (get record "Precio") = false) ->
   PDFExport.inventoryValue (PDFExport.totals data stockMinimo)
   = inventoryValue (KPICards data stockMinimo stockMaximo)).
Proof.
  unfold PDFExport.totals, KPICards.
  destruct (pdf_fold stockMinimo stockMaximo data
              (PDFExport.mkTotals PrimFloat.zero PrimFloat.zero 0)
              (mkKPIs PrimFloat.zero PrimFloat.zero 0 0 0) eq_refl eq_refl)
    as (H1 & H2 & H3).
  split; [exact H1|]. split; [exact H2|].
  intros Hprecio. apply H3; [exact Hprecio|reflexivity].
Qed.

End Indicators.

Lemma handleCalculate_buckets_witness :
  exists calc,
    Dashboard.handleCalculate [Examples.mixedStockSheet] 10 100 = inr calc /\
    JS.le 10 100 = true /\
    (Dashboard.productos_bajo_stock calc + Dashboard.productos_stock_correcto calc
     + Dashboard.productos_alto_stock calc = 2)%nat /\
    Dashboard.total_productos calc = 3%nat.
Proof.
  eexists. split; [vm_compute; reflexivity|]. split; [reflexivity|].
  split; [|reflexivity].
  etransitivity.
  - apply (handleCalculate_buckets [Examples.mixedStockSheet] 10 100);
      [vm_compute; reflexivity|reflexivity].
  - vm_compute. reflexivity.
Defined.

Lemma KPICards_and_handleCalculate_witness :
  exists calc,
    Dashboard.handleCalculate [Examples.mixedStockSheet] 10 100 = inr calc /\
    JS.le 10 100 = true /\
    Dashboard.criticalProducts
      (Dashboard.KPICards (Dashboard.getSpreadsheetDataForAI [Examples.mixedStockSheet]) 10 100)
    = Dashboard.productos_bajo_stock calc /\
    Dashboard.healthyProducts
      (Dashboard.KPICards (Dashboard.getSpreadsheetDataForAI [Examples.mixedStockSheet]) 10 100)
    = (Dashboard.productos_stock_correcto calc + 1)%nat.
Proof.
  eexists. split; [vm_compute; reflexivity|]. split; [reflexivity|].
  destruct (KPICards_and_handleCalculate [Examples.mixedStockSheet] 10 100 _
              ltac:(vm_compute; reflexivity)) as (_ & Hcounts).
  destruct Hcounts as (Hcritical & _ & Hhealthy).
  - reflexivity.
  - intros record Hin. simpl in Hin.
    destruct Hin as [<-|[<-|[<-|[]]]]; vm_compute; repeat split.
  - split; [exact Hcritical|]. rewrite Hhealthy. vm_compute. reflexivity.
Defined.

Lemma PDFExport_and_KPICards_witness :
  PDFExport.totalStock
    (PDFExport.totals (Dashboard.getSpreadsheetDataForAI [Examples.stockSheet]) 10)
  = Dashboard.totalStock
      (Dashboard.KPICards (Dashboard.getSpreadsheetDataForAI [Examples.stockSheet]) 10 100) /\
  PDFExport.inventoryValue
    (PDFExport.totals (Dashboard.getSpreadsheetDataForAI [Examples.stockSheet]) 10)
  = Dashboard.inventoryValue
      (Dashboard.KPICards (Dashboard.getSpreadsheetDataForAI [Examples.stockSheet]) 10 100).
Proof.
  destruct (PDFExport_and_KPICards
              (Dashboard.getSpreadsheetDataForAI [Examples.stockSheet]) 10 100)
    as (Hstock & _ & Hvalue).
  split; [exact Hstock|]. apply Hvalue.
  intros record Hin. simpl in Hin. destruct Hin as [<-|[]]. vm_compute. reflexivity.
Defined.

(** *** The movement history *)

Section Movements.
Import MovementHistory.

(** X24: [addMovement] keeps the history newest first and capped.  The
    history read back after it has the new movement first, under the id made
    of [mov-], the time and the random text and with the given timestamp;
    the movements read before follow it in their order (with their numbers
    as JSON keeps them); and the history holds at most 100 movements, one
    more than before up to that cap.  A missing or unparsable item counts
    as an empty history. *)
Theorem addMovement_newest_first_capped (movement : MovementInput) (now : N)
    (random iso : string) (storage : Storage) :
  length (getMovements true (addMovement movement now random iso storage))
  = Nat.min 100 (S (length (getMovements true storage))) /\
  (exists newest,
     head (getMovements true (addMovement movement now random iso storage)) = Some newest /\
     movement_id newest = "mov-" +:+ pretty now +:+ "-" +:+ random /\
     timestamp newest = iso /\
     productName newest = input_productName movement /\
     changeType newest = input_changeType movement /\
     columnName newest = input_columnName movement /\
     sheetName newest = input_sheetName movement /\
     previousValue newest = jsonNumber (input_previousValue movement) /\
     newValue newest = jsonNumber (input_newValue movement)) /\
  (forall i, (S i < 100)%nat ->
     getMovements true (addMovement movement now random iso storage) !! S i
     = jsonMovement <$> getMovements true storage !! i) /\
  (storage = None \/ storage = Some Unparsable ->
   length (getMovements true (addMovement movement now random iso storage)) = 1%nat).
Proof.
  unfold addMovement. cbn [getMovements negb].
  set (before := match storage with Some (Parsed movements) => movements | _ => [] end).
  split; [|split; [|split]].
  - rewrite length_map, length_take. reflexivity.
  - eexists. split; [reflexivity|]. cbn. repeat split.
  - intros i Hi. rewrite list_lookup_fmap, lookup_take_lt by exact Hi. reflexivity.
  - intros [->| ->]; reflexivity.
Qed.

Lemma addMovement_newest_first_capped_witness :
  getMovements true
    (addMovement (mkMovementInput "B" None (Some 3%float) entrada "Stock Actual" None)
       1700000000000 "k3j9x0q2a" "2023-11-14T22:13:20.000Z"
       (Some (Parsed [mkMovement "mov-1-a" "A" (Some 1%float) (Some 2%float) ajuste
                                 "Stock Actual" "2023-01-01T00:00:00.000Z" None]))) !! 1%nat
  = Some (mkMovement "mov-1-a" "A" (Some 1%float) (Some 2%float) ajuste
                     "Stock Actual" "2023-01-01T00:00:00.000Z" None).
Proof.
  destruct (addMovement_newest_first_capped
              (mkMovementInput "B" None (Some 3%float) entrada "Stock Actual" None)
              1700000000000 "k3j9x0q2a" "2023-11-14T22:13:20.000Z"
              (Some (Parsed [mkMovement "mov-1-a" "A" (Some 1%float) (Some 2%float) ajuste
                                        "Stock Actual" "2023-01-01T00:00:00.000Z" None])))
    as (_ & _ & Hrest & _).
  rewrite (Hrest 0%nat) by lia. reflexivity.
Defined.

(** X25: the filter of the history panel.  The filter [all] shows every
    movement, and each movement shows under exactly one of the three type
    filters: the three filtered lists together have as many entries as the
    history, and each holds exactly the movements of its type. *)
Theorem filteredMovements_by_type (movements : list Movement) :
  filteredMovements None movements = movements /\
  (length (filteredMovements (Some entrada) movements)
   + length (filteredMovements (Some salida) movements)
   + length (filteredMovements (Some ajuste) movements)
   = length movements)%nat /\
  (forall t m, In m (filteredMovements (Some t) movements) <->
               In m movements /\ changeType m = t).
Proof.
  unfold filteredMovements. split; [|split].
  - induction movements as [|m l IH]; [reflexivity|]. simpl. rewrite IH. reflexivity.
  - induction movements as [|m l IH]; [reflexivity|].
    rewrite !length_filter_cons. cbn [length]. destruct (changeType m); lia.
  - intros t m. rewrite List.filter_In.
    destruct t, (changeType m); split; intros [H1 H2]; split;
      try assumption; try reflexivity; try discriminate.
Qed.

End Movements.

(** *** Importing from the page *)

Section PageImport.
Import Sheet Excel Dashboard Invariant.

Lemma mapGen_importTable_none (randomUUID : nat -> string) (workbook : Workbook) (n : nat) :
  (forall entry, In entry workbook -> entry.2 = NoRows) ->
  mapGen (importTable randomUUID) workbook n = (map (fun _ => None) workbook, n).
Proof.
  revert n. induction workbook as [|[name table] workbook IH]; intros n Hnone; [reflexivity|].
  cbn [mapGen map]. unfold bind.
  pose proof (Hnone (name, table) (or_introl eq_refl)) as Htable. simpl in Htable. subst table.
  cbn [importTable]. unfold ret at 1.
  rewrite IH by (intros entry Hin; apply Hnone; right; exact Hin).
  reflexivity.
Qed.

Lemma createDefaultSheets_ok : state_ok (mkState createDefaultSheets "month-1").
Proof.
  split; [|split].
  - cbn. apply NoDup_ListNoDup. repeat constructor; cbn; intuition discriminate.
  - cbn. left. reflexivity.
  - intros s Hs. cbn in Hs.
    assert (Hshape : sheet_columns s = DEFAULT_COLUMNS /\ sheet_rows s = []).
    { repeat (destruct Hs as [<-|Hs]; [split; reflexivity|]). destruct Hs. }
    destruct Hshape as [Hc Hr]. unfold sheet_ok, keys_are_columns. rewrite Hc, Hr.
    split; [discriminate|]. split; [|split].
    + cbn. apply NoDup_ListNoDup. repeat constructor; cbn; intuition discriminate.
    + constructor.
    + intros r [].
Qed.

(** X26: what an import does to the page.  Without a file the page is left
    as it is.  When the file cannot be read the page keeps its sheets and
    its version, so the editor is not remounted, and shows the import error.
    When the workbook is read the page takes the imported sheets, moves to
    the next version and clears the error; and if no table of the workbook
    has a row, the sheets taken are none, and the editor remounted on them
    starts from the twelve default month sheets, in order, with the first
    one active. *)
Theorem handleFileChange_outcomes (randomUUID : nat -> string) (page : PageState) (n : nat) :
  handleFileChange randomUUID None page n = (page, n) /\
  handleFileChange randomUUID (Some None) page n
  = (mkPageState (spreadsheetData page) (sheetVersion page)
                 "Error al importar el archivo Excel", n) /\
  forall workbook : Workbook,
    (exists imported n',
       parseExcelFile randomUUID (Some workbook) n = (Resolved imported, n') /\
       handleFileChange randomUUID (Some (Some workbook)) page n
       = (mkPageState imported (sheetVersion page + 1) "", n')) /\
    ((forall entry, In entry workbook -> entry.2 = NoRows) ->
     handleFileChange randomUUID (Some (Some workbook)) page n
     = (mkPageState [] (sheetVersion page + 1) "", n) /\
     editorState [] = mkState createDefaultSheets "month-1" /\
     state_ok (editorState [])).
Proof.
  split; [reflexivity|]. split; [reflexivity|]. intros workbook. split.
  - unfold handleFileChange, parseExcelFile, bind, ret.
    destruct (mapGen (importTable randomUUID) workbook n) as [pushed n'].
    exists (omap (fun o => o) pushed), n'. split; reflexivity.
  - intros Hnone. unfold handleFileChange, parseExcelFile, bind, ret.
    rewrite (mapGen_importTable_none randomUUID workbook n Hnone).
    assert (Hempty : omap (fun o : option ImportedSheet => o)
                          (map (fun _ : string * JsonData => None) workbook) = []).
    { clear. induction workbook as [|entry workbook IH]; [reflexivity|]. exact IH. }
    rewrite Hempty. split; [reflexivity|]. split; [reflexivity|].
    exact createDefaultSheets_ok.
Qed.

End PageImport.

Lemma handleFileChange_outcomes_witness :
  Dashboard.handleFileChange Examples.countingUUID
    (Some (Some [("Vacía", Excel.NoRows)]))
    (Dashboard.mkPageState [Examples.importedSheet1] 3 "") 0%nat
  = (Dashboard.mkPageState [] 4 "", 0%nat).
Proof.
  destruct (handleFileChange_outcomes Examples.countingUUID
              (Dashboard.mkPageState [Examples.importedSheet1] 3 "") 0%nat)
    as (_ & _ & Hread).
  destruct (Hread [("Vacía", Excel.NoRows)]) as (_ & Hnone).
  destruct Hnone as (Hpage & _).
  - intros entry [<-|[]]. reflexivity.
  - exact Hpage.
Defined.

(** *** From an imported table to the records of the indicators *)

Section ImportedRecords.
Import Sheet Excel Dashboard.

(** X27: what is imported under a header is what the indicators read under
    it.  When the ids drawn are pairwise distinct and the first row of a
    table holds pairwise distinct texts, none empty, [__proto__] or
    [_selected], and no blank cell, the sheet imported from the table is a
    [DynamicSheet] that exports one record per data row, and the record of
    a row reads under each header what the import stored for the row's
    field of that column: [null] for a missing or [null] field; in a column
    detected as [number], the number any other field converts to; in a
    column detected as [text], a text or a number as it is, and a boolean as
    the text [true] or [false]. *)
Theorem import_then_export (randomUUID : nat -> string) (sheetName : string)
    (headers : list (option JS.Value)) (rawRows : list (list JS.Value)) (n : nat) :
  (forall a b, randomUUID a = randomUUID b -> a = b) ->
  NoDup headers ->
  (forall slot, In slot headers ->
     exists h, slot = Some (JS.VStr h) /\ h <> "" /\ h <> "__proto__" /\ h <> "_selected") ->
  exists sh n' typed,
    importTable randomUUID (sheetName, Rows headers rawRows) n = (Some sh, n') /\
    asSheet sh = Some typed /\
    length (getSpreadsheetDataForAI [typed]) = length rawRows /\
    forall i rowArray j h,
      rawRows !! i = Some rowArray ->
      headers !! j = Some (Some (JS.VStr h)) ->
      exists record,
        getSpreadsheetDataForAI [typed] !! i = Some record /\
        (field rowArray j = JS.VUndefined \/ field rowArray j = JS.VNull ->
         get record h = JS.VNull) /\
        (detectType rawRows j = number ->
         field rowArray j <> JS.VUndefined -> field rowArray j <> JS.VNull ->
         get record h = JS.VNum (JS.Number (field rowArray j))) /\
        (detectType rawRows j = text ->
         (forall s, field rowArray j = JS.VStr s -> get record h = JS.VStr s) /\
         (forall f, field rowArray j = JS.VNum f -> get record h = JS.VNum f) /\
         (forall b, field rowArray j = JS.VBool b ->
                    get record h = JS.VStr (if b then "true" else "false"))).
Proof.
  intros Hinj Hnd Hheaders.
  destruct (imported_keys randomUUID sheetName headers rawRows n)
    as (sh & Himp & _ & _ & _ & _ & _ & Hview).
  destruct (proj2 Hview) as [typed Htyped].
  { intros slot Hslot. destruct (Hheaders slot Hslot) as (h & -> & _).
    eexists. split; [reflexivity|]. intros _. eauto. }
  exists sh, (S (n + length (omap id headers) + length rawRows)), typed.
  split; [exact Himp|]. split; [exact Htyped|].
  rewrite importTable_eq, importTable_columns in Himp. injection Himp as Hsh.
  set (columns := imap (fun i slot =>
                          match slot with
                          | None => None
                          | Some header =>
                              Some (mkImportedColumn
                                      ("col-" +:+ randomUUID (n + length (omap id (take i headers)))%nat)
                                      (JS.or_else header (JS.VStr "Sin título"))
                                      (detectType rawRows i))
                          end) headers) in Hsh.
  assert (Hidx : forall j, (j <= length headers)%nat ->
                           length (omap id (take j headers)) = j).
  { clear -Hheaders. induction headers as [|slot headers IH]; intros j Hj.
    - destruct j; [reflexivity|simpl in Hj; lia].
    - destruct j as [|j]; [reflexivity|].
      destruct (Hheaders slot (or_introl eq_refl)) as (h & -> & _).
      cbn [take omap list_omap id length]. f_equal. apply IH.
      + intros slot' Hin. apply Hheaders. right. exact Hin.
      + simpl in Hj. lia. }
  assert (Hname : forall j h, headers !! j = Some (Some (JS.VStr h)) ->
            columns !! j = Some (Some (mkImportedColumn ("col-" +:+ randomUUID (n + j)%nat)
                                                        (JS.VStr h) (detectType rawRows j)))).
  { intros j h Hj. unfold columns. rewrite list_lookup_imap, Hj. cbn.
    rewrite Hidx by (apply Nat.lt_le_incl, (lookup_lt_Some _ _ _ Hj)).
    assert (Hin : In (Some (JS.VStr h)) headers)
      by (apply list_elem_of_In; eapply list_elem_of_lookup_2; eauto).
    destruct (Hheaders _ Hin) as (h' & Heq & Hne & _). injection Heq as <-.
    unfold JS.or_else. cbn. apply String.eqb_neq in Hne. rewrite Hne. reflexivity. }
  assert (Hcol : forall j slot, columns !! j = Some slot ->
            exists h, headers !! j = Some (Some (JS.VStr h)) /\
                      slot = Some (mkImportedColumn ("col-" +:+ randomUUID (n + j)%nat)
                                                    (JS.VStr h) (detectType rawRows j))).
  { intros j slot Hj. pose proof Hj as Hj'. unfold columns in Hj'.
    rewrite list_lookup_imap in Hj'.
    destruct (headers !! j) as [slot0|] eqn:E; [|discriminate Hj'].
    assert (Hin : In slot0 headers)
      by (apply list_elem_of_In; eapply list_elem_of_lookup_2; eauto).
    destruct (Hheaders _ Hin) as (h & -> & _).
    exists h. split; [reflexivity|]. rewrite (Hname j h E) in Hj. congruence. }
  assert (Htcols : forall j h, headers !! j = Some (Some (JS.VStr h)) ->
            sheet_columns typed !! j
            = Some (mkColumn ("col-" +:+ randomUUID (n + j)%nat) h (detectType rawRows j))).
  { intros j h Hj. unfold asSheet in Htyped. rewrite <- Hsh in Htyped.
    cbn [imported_columns] in Htyped.
    destruct (mapM asColumn columns) as [tcols|] eqn:Hm; [|discriminate Htyped].
    injection Htyped as <-. cbn [sheet_columns].
    apply mapM_Some in Hm.
    destruct (Forall2_lookup_l _ _ _ _ _ Hm (Hname j h Hj)) as (c & Hc & Hview').
    rewrite Hc. cbn in Hview'. congruence. }
  assert (Htcol : forall j c, sheet_columns typed !! j = Some c ->
            exists h, headers !! j = Some (Some (JS.VStr h)) /\
                      c = mkColumn ("col-" +:+ randomUUID (n + j)%nat) h (detectType rawRows j)).
  { intros j c Hj. unfold asSheet in Htyped. rewrite <- Hsh in Htyped.
    cbn [imported_columns] in Htyped.
    destruct (mapM asColumn columns) as [tcols|] eqn:Hm; [|discriminate Htyped].
    injection Htyped as <-. cbn [sheet_columns] in Hj.
    apply mapM_Some in Hm.
    destruct (Forall2_lookup_r _ _ _ _ _ Hm Hj) as (slot & Hslot & Hview').
    destruct (Hcol j slot Hslot) as (h & Hh & ->). exists h. split; [exact Hh|].
    cbn in Hview'. congruence. }
  assert (Hrows : sheet_rows typed
                  = imap (fun i rowArray =>
                            mkRow ("row-" +:+ randomUUID (n + length (omap id headers) + i)%nat)
                                  (importCells columns rowArray) None) rawRows).
  { unfold asSheet in Htyped. rewrite <- Hsh in Htyped.
    cbn [imported_columns imported_rows] in Htyped.
    destruct (mapM asColumn columns); [|discriminate Htyped].
    injection Htyped as <-. reflexivity. }
  unfold getSpreadsheetDataForAI. rewrite Hrows.
  split; [rewrite length_map; apply length_imap|].
  intros i rowArray j h Hi Hj.
  match goal with |- context [map ?f ?l] => change (map f l) with (f <$> l) end.
  rewrite list_lookup_fmap, list_lookup_imap, Hi. cbn [fmap option_fmap option_map mbind].
  eexists. split; [reflexivity|].
  assert (Hin : In (Some (JS.VStr h)) headers)
    by (apply list_elem_of_In; eapply list_elem_of_lookup_2; eauto).
  destruct (Hheaders _ Hin) as (h' & Heq & _ & Hproto & Hselected). injection Heq as <-.
  assert (Hget : get (properties
                        (assign "_selected" JS.VUndefined
                           (flattenObject (sheet_columns typed)
                              (mkRow ("row-" +:+ randomUUID (n + length (omap id headers) + i)%nat)
                                     (importCells columns rowArray) None)))) h
                 = to_value (importCell (detectType rawRows j) (field rowArray j))).
  { unfold get. rewrite assign_other by congruence. unfold flattenObject.
    pose proof (flatten_step_last
                  (mkRow ("row-" +:+ randomUUID (n + length (omap id headers) + i)%nat)
                         (importCells columns rowArray) None)
                  (sheet_columns typed) (mkPlainObject ∅ false) j
                  (mkColumn ("col-" +:+ randomUUID (n + j)%nat) h (detectType rawRows j))
                  (Htcols j h Hj) (or_introl Hproto)) as Hlast.
    cbn [column_name column_id] in Hlast. rewrite Hlast.
    - cbn [row_cells]. pose proof (importCells_lookup columns rowArray j
                    (mkImportedColumn ("col-" +:+ randomUUID (n + j)%nat) (JS.VStr h)
                                      (detectType rawRows j))
                    (Hname j h Hj)) as Hcell.
      cbn [imported_id imported_type] in Hcell. rewrite Hcell; [reflexivity|].
      intros j' col' Hj' Hlt Hsame. destruct (Hcol j' _ Hj') as (h' & _ & Hc').
      injection Hc' as ->. cbn in Hsame. apply append_inj, Hinj in Hsame. lia.
    - intros j' col' Hj' Hlt Hsame. destruct (Htcol j' col' Hj') as (h' & Hh' & ->).
      cbn in Hsame. subst h'.
      pose proof (proj1 (NoDup_alt headers) Hnd j j' _ Hj Hh'). lia. }
  cbn [row_selected]. rewrite Hget. split; [|split].
  - intros [-> | ->]; destruct (detectType rawRows j); reflexivity.
  - intros -> Hundef Hnull. destruct (field rowArray j); try contradiction; reflexivity.
  - intros ->. split; [|split].
    + intros s ->. reflexivity.
    + intros f ->. reflexivity.
    + intros b ->. destruct b; reflexivity.
Qed.

End ImportedRecords.

Lemma import_then_export_witness :
  exists sh n' typed,
    Excel.importTable Examples.countingUUID ("Hoja1", Examples.productTable) 0%nat
    = (Some sh, n') /\
    Excel.asSheet sh = Some typed /\
    exists record,
      Dashboard.getSpreadsheetDataForAI [typed] !! 0%nat = Some record /\
      Dashboard.get record "Stock" = JS.VStr "50".
Proof.
  destruct (import_then_export Examples.countingUUID "Hoja1"
              [Some (JS.VStr "Producto"); Some (JS.VStr "Stock")]
              [ [JS.VStr "A"; JS.VStr "50"]; [JS.VStr "B"; JS.VStr "abc"] ] 0%nat)
    as (sh & n' & typed & Himp & Htyped & _ & Hrecords).
  - exact countingUUID_inj.
  - apply NoDup_ListNoDup. repeat constructor; cbn; intuition discriminate.
  - intros slot [<-|[<-|[]]]; eexists; (split; [reflexivity|]); repeat split; discriminate.
  - exists sh, n', typed. split; [exact Himp|]. split; [exact Htyped|].
    destruct (Hrecords 0%nat [JS.VStr "A"; JS.VStr "50"] 1%nat "Stock" eq_refl eq_refl)
      as (record & Hrecord & _ & _ & Htext).
    exists record. split; [exact Hrecord|].
    destruct (Htext eq_refl) as (Hstr & _). apply Hstr. reflexivity.
Defined.
